(** * Pomodoro timer automation (projects/python timer.py)

    A shallow embedding of the [PomodoroAutomation] class and of [main].
    The Selenium driver, the file system, the clock and the keyboard are the
    program's environment: they are gathered in a [world] that answers each
    external operation, and the program is written in a state-and-exception
    monad over the object's fields and the trace of what it printed and did.

    Conventions.  A printed line is recorded without the blank lines around
    it, without its time stamp (a [Log] is a line that carries one) and
    without the text of a caught exception ([{e}]); the check mark of the
    "completed successfully" line is left out.
    Durations of [time.sleep] are in milliseconds.  The loop of [main_loop]
    has no exit of its own and is run for a bounded number of iterations. *)

From Stdlib Require Import ZArith List String Ascii Bool Lia DecimalString.
Import ListNotations.

Open Scope string_scope.
Open Scope Z_scope.

(** ** Python values used by the script *)

Module Py.

(** The three exception classes that the script's handlers tell apart:
    [except Exception] catches [PyException] only, a bare [except:] catches
    all three ([KeyboardInterrupt] and [SystemExit] derive from
    [BaseException], not from [Exception]). *)
Inductive exn : Type :=
| PyException
| KeyboardInterrupt
| SystemExit (code : Z).

Inductive res (A : Type) : Type :=
| Ret (a : A)
| Raise (e : exn).
Arguments Ret {A} a.
Arguments Raise {A} e.

(** [str(n)] for an int. *)
Definition str (n : Z) : string := NilZero.string_of_int (Z.to_int n).

(** ['=' * n] and friends. *)
Fixpoint repeat_str (s : string) (n : nat) : string :=
  match n with
  | O => ""
  | S k => s ++ repeat_str s k
  end.

(** [s.lower()] / [s.toLowerCase()] on ASCII text. *)
Definition lower_ascii (c : ascii) : ascii :=
  let n := nat_of_ascii c in
  if (Nat.leb 65 n && Nat.leb n 90)%bool then ascii_of_nat (n + 32) else c.

Fixpoint lower (s : string) : string :=
  match s with
  | EmptyString => EmptyString
  | String c t => String (lower_ascii c) (lower t)
  end.

(** [needle in hay] / [hay.includes(needle)]. *)
Fixpoint includes (needle hay : string) : bool :=
  (String.prefix needle hay
   || match hay with
      | EmptyString => false
      | String _ t => includes needle t
      end)%bool.

(** [x or ""] for an attribute that may be [None]. *)
Definition or_empty (x : option string) : string :=
  match x with
  | Some s => s
  | None => ""
  end.

(** Truth value of a path-or-None ([if not brave_path]). *)
Definition truthy_path (x : option string) : bool :=
  match x with
  | Some s => negb (String.eqb s "")
  | None => false
  end.

(** [datetime]: a moment is the number of microseconds since
    0001-01-01 00:00:00, a [timedelta] a number of microseconds.

    [timedelta(minutes=m)] raises OverflowError when its days are beyond
    999999999 in magnitude; [None] stands for that. *)
Definition timedelta_minutes (minutes : Z) : option Z :=
  let microseconds := minutes * 60000000 in
  if Z.abs (microseconds / 86400000000) <=? 999999999 then Some microseconds else None.

(** [moment + delta] raises OverflowError when the result is not a date of
    the years 1 to 9999 ([date.max.toordinal()] is 3652059). *)
Definition datetime_add (moment delta : Z) : option Z :=
  let result := moment + delta in
  if ((0 <=? result) && (result <? 3652059 * 86400000000))%bool then Some result else None.

Definition two_digits (n : Z) : string := if n <? 10 then "0" ++ str n else str n.

(** [moment.strftime("%H:%M:%S")]. *)
Definition strftime_HMS (moment : Z) : string :=
  let seconds := moment / 1000000 in
  two_digits ((seconds / 3600) mod 24) ++ ":"
    ++ two_digits ((seconds / 60) mod 60) ++ ":"
    ++ two_digits (seconds mod 60).

(** [(moment + timedelta(minutes=minutes)).strftime("%H:%M:%S")]. *)
Definition completion_time (moment minutes : Z) : option string :=
  match timedelta_minutes minutes with
  | None => None
  | Some delta =>
      match datetime_add moment delta with
      | None => None
      | Some result => Some (strftime_HMS result)
      end
  end.

End Py.
Import Py.

(** ** The environment *)

Definition handle := string.

(** What [find_elements(By.TAG_NAME, "input")] hands back: elements whose
    [id] and [name] attributes can be read. *)
Record input_elem : Type := {
  attr_id : option string;
  attr_name : option string
}.

(** The part of the page that the start script looks at. *)
Record button : Type := {
  textContent : string;
  value : string;
  disabled : bool
}.

Record dom : Type := {
  buttons : list button;        (* querySelectorAll('button, input[type="button"], input[type="submit"]') *)
  has_startTimer : bool;        (* typeof startTimer === 'function' *)
  has_start : bool              (* typeof start === 'function' *)
}.

(** The three scripts passed to [driver.execute_script]. *)
Inductive script : Type :=
| OpenWindow                      (* "window.open('');" *)
| SetTimerScript (minutes : Z)    (* the script of set_timer_duration *)
| ClickStartScript.               (* the script of start_timer *)

(** External operations: driver commands and [time.sleep]. *)
Inductive call : Type :=
| InstallChromeDriver                         (* ChromeDriverManager().install() *)
| StartChrome (binary : string)               (* webdriver.Chrome(service=..., options=...) *)
| MaximizeWindow
| Get (url : string)
| CurrentWindowHandle
| WindowHandles
| ExecuteScript (sc : script)
| SwitchToWindow (h : option handle)
| Refresh
| FindInputs                                  (* find_elements(By.TAG_NAME, "input") *)
| GetAttribute (e : input_elem) (attr : string)
| Clear (e : input_elem)
| SendKeys (e : input_elem) (keys : string)
| WaitClickable (xpath : string)              (* wait.until(EC.element_to_be_clickable(...)) *)
| Click (xpath : string)                      (* button.click() on the element found *)
| Quit
| Sleep (ms : Z).                             (* time.sleep, in milliseconds *)

Inductive response : Type :=
| Ok          (* the operation completes *)
| Error       (* it raises an ordinary exception (a subclass of Exception) *)
| Interrupt.  (* Ctrl-C arrives while it runs: KeyboardInterrupt *)

(** Everything outside the program.  The answers may depend on the moment:
    [n] is the number of external operations performed before this one. *)
Record world : Type := {
  system : string;                              (* platform.system() *)
  expandvars : string -> string;                (* os.path.expandvars *)
  expanduser : string -> string;                (* os.path.expanduser *)
  path_join : string -> string -> string;       (* os.path.join *)
  path_exists : string -> bool;                 (* os.path.exists *)
  packages_installed : bool;                    (* selenium and webdriver_manager import *)
  respond : nat -> call -> response;
  now : nat -> Z;                               (* datetime.now() *)
  current_window_handle : nat -> handle;
  window_handles : nat -> list handle;
  found_inputs : nat -> list input_elem;
  page : nat -> dom
}.

(** ** Program state *)

Inductive event : Type :=
| Print (s : string)     (* print(s) *)
| Log (s : string)       (* print(f"[{self.get_timestamp()}] s") *)
| Did (c : call).        (* an external operation was issued *)

(** The fields of [PomodoroAutomation] ([timer_url] and [browser_type] are
    never assigned after [__init__]; they are the constants below). *)
Record PomodoroAutomation : Type := {
  driver : bool;                 (* self.driver is not None *)
  work_tab : option handle;
  break_tab : option handle;
  work_duration : Z;
  break_duration : Z
}.

Definition timer_url : string := "https://vclock.com/timer/".
Definition browser_type : string := "Brave".

Definition __init__ : PomodoroAutomation :=
  {| driver := false;
     work_tab := None;
     break_tab := None;
     work_duration := 25;
     break_duration := 5 |}.

Record state : Type := {
  self : PomodoroAutomation;
  clock : nat;                   (* external operations performed so far *)
  trace : list event             (* newest first *)
}.

Definition initial (p : PomodoroAutomation) : state :=
  {| self := p; clock := O; trace := [] |}.

(** ** The monad *)

Definition M (A : Type) : Type := state -> res A * state.

Definition ret {A} (a : A) : M A := fun s => (Ret a, s).

Definition raise {A} (e : exn) : M A := fun s => (Raise e, s).

Definition bind {A B} (m : M A) (f : A -> M B) : M B :=
  fun s =>
    match m s with
    | (Ret a, s') => f a s'
    | (Raise e, s') => (Raise e, s')
    end.

Declare Scope py_scope.
Delimit Scope py_scope with py.
Notation "x <- m ;; k" := (bind m (fun x => k))
  (at level 61, m at next level, right associativity) : py_scope.
Notation "m ;; k" := (bind m (fun _ => k))
  (at level 61, right associativity) : py_scope.
Open Scope py_scope.

(** [try: body / except Exception: handler]. *)
Definition try_except_Exception {A} (body handler : M A) : M A :=
  fun s =>
    match body s with
    | (Raise PyException, s') => handler s'
    | r => r
    end.

(** [try: body / except: handler] (bare except). *)
Definition try_except {A} (body handler : M A) : M A :=
  fun s =>
    match body s with
    | (Raise _, s') => handler s'
    | r => r
    end.

Definition emit (e : event) : M unit :=
  fun s => (Ret tt, {| self := self s; clock := clock s; trace := e :: trace s |}).

Definition print (text : string) : M unit := emit (Print text).
Definition log (text : string) : M unit := emit (Log text).

Definition get_self : M PomodoroAutomation := fun s => (Ret (self s), s).

Definition set_self (p : PomodoroAutomation) : M unit :=
  fun s => (Ret tt, {| self := p; clock := clock s; trace := trace s |}).

Definition when (b : bool) (m : M unit) : M unit := if b then m else ret tt.

Fixpoint for_each {A} (l : list A) (body : A -> M unit) : M unit :=
  match l with
  | [] => ret tt
  | x :: rest => body x ;; for_each rest body
  end.

(** [sys.exit(code)]. *)
Definition sys_exit {A} (code : Z) : M A := raise (SystemExit code).

(** The progress marker is [print(".", end="", flush=True)]. *)
Definition is_marker (e : event) : bool :=
  match e with
  | Print s => String.eqb s "."
  | _ => false
  end.

Definition markers (evs : list event) : nat := List.length (filter is_marker evs).

(** The events of a run in the order they happened. *)
Definition output (s : state) : list event := rev (trace s).

(** ** The program *)

Section Program.

Variable w : world.

Definition tick (c : call) (s : state) : state :=
  {| self := self s; clock := S (clock s); trace := Did c :: trace s |}.

(** A driver or element command: it completes, raises, or is interrupted. *)
Definition perform (c : call) : M nat :=
  fun s =>
    match respond w (clock s) c with
    | Ok => (Ret (clock s), tick c s)
    | Error => (Raise PyException, tick c s)
    | Interrupt => (Raise KeyboardInterrupt, tick c s)
    end.

(** [time.sleep(ms / 1000)]: it can only be cut short by Ctrl-C. *)
Definition sleep (ms : Z) : M unit :=
  fun s =>
    match respond w (clock s) (Sleep ms) with
    | Interrupt => (Raise KeyboardInterrupt, tick (Sleep ms) s)
    | _ => (Ret tt, tick (Sleep ms) s)
    end.

(** [self.driver.<command>]: while [self.driver] is [None] the attribute
    access raises AttributeError.  The result is the moment of the call,
    at which the world's data is read. *)
Definition on_driver (c : call) : M nat :=
  p <- get_self ;;
  if driver p then perform c else raise PyException.

Definition with_driver (p : PomodoroAutomation) (d : bool) : PomodoroAutomation :=
  {| driver := d; work_tab := work_tab p; break_tab := break_tab p;
     work_duration := work_duration p; break_duration := break_duration p |}.

Definition with_work_tab (p : PomodoroAutomation) (h : option handle) : PomodoroAutomation :=
  {| driver := driver p; work_tab := h; break_tab := break_tab p;
     work_duration := work_duration p; break_duration := break_duration p |}.

Definition with_break_tab (p : PomodoroAutomation) (h : option handle) : PomodoroAutomation :=
  {| driver := driver p; work_tab := work_tab p; break_tab := h;
     work_duration := work_duration p; break_duration := break_duration p |}.

(** *** find_brave_path (lines 35-80) *)

Definition brave_exe : string := "BraveSoftware\Brave-Browser\Application\brave.exe".

Definition possible_paths : list string :=
  if String.eqb (system w) "Windows" then
    [ "C:\Program Files\" ++ brave_exe;
      "C:\Program Files (x86)\" ++ brave_exe;
      expandvars w ("%LOCALAPPDATA%\" ++ brave_exe);
      expandvars w ("%PROGRAMFILES%\" ++ brave_exe);
      expandvars w ("%PROGRAMFILES(X86)%\" ++ brave_exe);
      path_join w (expanduser w "~") ("AppData\Local\" ++ brave_exe) ]
  else if String.eqb (system w) "Darwin" then
    [ "/Applications/Brave Browser.app/Contents/MacOS/Brave Browser";
      expanduser w "~/Applications/Brave Browser.app/Contents/MacOS/Brave Browser" ]
  else
    [ "/usr/bin/brave-browser";
      "/usr/bin/brave";
      "/usr/local/bin/brave-browser";
      "/usr/local/bin/brave";
      "/opt/brave.com/brave/brave-browser";
      "/opt/brave.com/brave/brave";
      "/snap/bin/brave";
      expanduser w "~/.local/bin/brave";
      expanduser w "~/.local/bin/brave-browser" ].

(** The probing loop: [Some path] when the loop returned [path]. *)
Fixpoint probe (paths : list string) : M (option string) :=
  match paths with
  | [] => ret None
  | path :: rest =>
      if path_exists w path then
        log ("Found Brave at: " ++ path) ;;
        ret (Some path)
      else probe rest
  end.

Definition find_brave_path : M (option string) :=
  found <- probe possible_paths ;;
  match found with
  | Some path => ret (Some path)
  | None =>
      log "Brave browser not found in standard locations" ;;
      log "Searched paths:" ;;
      for_each (firstn 3 possible_paths) (fun path => print ("  - " ++ path)) ;;
      ret None
  end.

(** *** setup_brave_browser, setup_browser (lines 82-143)

    Building the [Options] object only fills a Python object; it is not an
    external operation.  The text of the caught exception is not modelled. *)
Definition setup_brave_browser : M bool :=
  try_except_Exception
    (log "Initializing Brave browser..." ;;
     brave_path <- find_brave_path ;;
     if negb (truthy_path brave_path) then
       log "ERROR: Brave browser not found!" ;;
       print "Please install Brave browser from: https://brave.com/download/" ;;
       print "If Brave is installed in a custom location, please check the script paths." ;;
       ret false
     else
       log "Downloading/updating ChromeDriver..." ;;
       _ <- perform InstallChromeDriver ;;
       log "Starting Brave browser..." ;;
       _ <- perform (StartChrome (or_empty brave_path)) ;;
       p <- get_self ;;
       set_self (with_driver p true) ;;
       _ <- on_driver MaximizeWindow ;;
       log "Brave browser initialized successfully!" ;;
       ret true)
    (log "Error setting up Brave browser: " ;;
     print "Troubleshooting tips:" ;;
     print "1. Ensure Brave browser is installed" ;;
     print "2. Try closing all Brave windows and run again" ;;
     print "3. Check if antivirus is blocking the connection" ;;
     ret false).

Definition setup_browser : M bool := setup_brave_browser.

(** *** setup_tabs (lines 145-183) *)

Definition differs (tab : handle) (h : option handle) : bool :=
  match h with
  | Some h' => negb (String.eqb tab h')
  | None => true
  end.

Definition setup_tabs : M bool :=
  try_except_Exception
    (log "Setting up timer tabs..." ;;
     log "Loading work timer tab..." ;;
     _ <- on_driver (Get timer_url) ;;
     sleep 5000 ;;
     n <- on_driver CurrentWindowHandle ;;
     p <- get_self ;;
     set_self (with_work_tab p (Some (current_window_handle w n))) ;;
     log "Work timer tab created" ;;
     log "Creating break timer tab..." ;;
     _ <- on_driver (ExecuteScript OpenWindow) ;;
     sleep 1000 ;;
     n <- on_driver WindowHandles ;;
     p <- get_self ;;
     match find (fun tab => differs tab (work_tab p)) (window_handles w n) with
     | Some tab => set_self (with_break_tab p (Some tab))
     | None => ret tt
     end ;;
     p <- get_self ;;
     _ <- on_driver (SwitchToWindow (break_tab p)) ;;
     log "Loading break timer tab..." ;;
     _ <- on_driver (Get timer_url) ;;
     sleep 5000 ;;
     log "Break timer tab created" ;;
     p <- get_self ;;
     _ <- on_driver (SwitchToWindow (work_tab p)) ;;
     log "Both timer tabs ready!" ;;
     ret true)
    (log "Error setting up tabs: " ;;
     ret false).

(** *** switch_tab (lines 189-197) *)
Definition switch_tab (tab_handle : option handle) : M bool :=
  try_except_Exception
    (_ <- on_driver (SwitchToWindow tab_handle) ;;
     sleep 1500 ;;
     ret true)
    (log "Error switching tabs: " ;;
     ret false).

(** *** set_timer_duration (lines 199-266) *)

Definition fill_input (minutes : Z) (inp : input_elem) : M unit :=
  _ <- perform (GetAttribute inp "id") ;;
  let inp_id := or_empty (attr_id inp) in
  _ <- perform (GetAttribute inp "name") ;;
  let inp_name := or_empty (attr_name inp) in
  if (includes "hour" (lower inp_id) || includes "hour" (lower inp_name))%bool then
    _ <- perform (Clear inp) ;;
    _ <- perform (SendKeys inp "0") ;;
    ret tt
  else if (includes "minute" (lower inp_id) || includes "minute" (lower inp_name))%bool then
    _ <- perform (Clear inp) ;;
    _ <- perform (SendKeys inp (str minutes)) ;;
    ret tt
  else if (includes "second" (lower inp_id) || includes "second" (lower inp_name))%bool then
    _ <- perform (Clear inp) ;;
    _ <- perform (SendKeys inp "0") ;;
    ret tt
  else ret tt.

Definition set_timer_duration (minutes : Z) : M bool :=
  try_except_Exception
    (sleep 2000 ;;
     _ <- on_driver (ExecuteScript (SetTimerScript minutes)) ;;
     sleep 1000 ;;
     log ("Timer set to " ++ str minutes ++ " minutes") ;;
     ret true)
    (log "Error setting timer duration: " ;;
     try_except
       (n <- on_driver FindInputs ;;
        for_each (found_inputs w n) (fill_input minutes) ;;
        sleep 1000 ;;
        ret true)
       (ret false)).

(** *** start_timer (lines 268-334) *)

Definition says_start (btn : button) : bool :=
  ((negb (String.eqb (textContent btn) "") && includes "start" (lower (textContent btn)))
   || (negb (String.eqb (value btn) "") && includes "start" (lower (value btn))))%bool.

(** The loop of the start script over the buttons: [true] when it clicked. *)
Fixpoint click_first_start (btns : list button) : bool :=
  match btns with
  | [] => false
  | btn :: rest =>
      if says_start btn then
        if negb (disabled btn) then true else click_first_start rest
      else click_first_start rest
  end.

(** What the start script returns on a page. *)
Definition start_script (d : dom) : bool :=
  if click_first_start (buttons d) then true
  else if has_startTimer d then true
  else if has_start d then true
  else false.

Definition selectors : list string :=
  [ "//button[contains(translate(text(), 'START', 'start'), 'start')]";
    "//input[@type='button' and contains(translate(@value, 'START', 'start'), 'start')]";
    "//button[contains(@class, 'start')]";
    "//button[contains(@id, 'start')]" ].

(** The loop over the XPath selectors: [true] when it returned [True]. *)
Fixpoint try_selectors (sels : list string) : M bool :=
  match sels with
  | [] => ret false
  | selector :: rest =>
      clicked <- try_except
                   (_ <- on_driver (WaitClickable selector) ;;
                    _ <- perform (Click selector) ;;
                    log "Timer started" ;;
                    ret true)
                   (ret false) ;;
      if clicked : bool then ret true else try_selectors rest
  end.

Definition start_timer : M bool :=
  try_except_Exception
    (sleep 1000 ;;
     n <- on_driver (ExecuteScript ClickStartScript) ;;
     let result := start_script (page w n) in
     if result then
       log "Timer started" ;;
       ret true
     else
       clicked <- try_selectors selectors ;;
       if clicked : bool then ret true
       else
         log "Could not find start button, timer may already be running" ;;
         ret true)
    (log "Error starting timer: " ;;
     ret false).

(** *** stop_timer (lines 336-346) *)
Definition stop_timer : M bool :=
  try_except_Exception
    (_ <- on_driver Refresh ;;
     sleep 4000 ;;
     ret true)
    (log "Error stopping timer: " ;;
     ret false).

(** *** start_work_timer, start_break_timer (lines 348-420) *)

(** [range(n)]: empty when [n <= 0]. *)
Definition range (n : Z) : list Z := map Z.of_nat (seq 0 (Z.to_nat n)).

Definition warn_duration : string := "Warning: Could not set timer duration, using default".
Definition warn_start : string := "Warning: Could not start timer automatically".

(** [get_completion_time] (lines 422-426): [datetime.now()] is read from
    the environment at the current moment; the OverflowError of the date
    arithmetic is an ordinary exception. *)
Definition get_completion_time (minutes : Z) : M string :=
  fun s =>
    match completion_time (now w (clock s)) minutes with
    | Some text => (Ret text, s)
    | None => (Raise PyException, s)
    end.

Definition start_work_timer : M bool :=
  log "====== WORK SESSION STARTING ======" ;;
  p <- get_self ;;
  switched <- switch_tab (work_tab p) ;;
  if negb switched then ret false
  else
    sleep 2000 ;;
    _ <- stop_timer ;;
    sleep 2000 ;;
    p <- get_self ;;
    set <- set_timer_duration (work_duration p) ;;
    when (negb set) (log warn_duration) ;;
    sleep 1000 ;;
    started <- start_timer ;;
    when (negb started) (log warn_start) ;;
    p <- get_self ;;
    log ("Work session active (" ++ str (work_duration p) ++ " minutes)") ;;
    completion <- get_completion_time (work_duration p) ;;
    log ("Expected completion: " ++ completion) ;;
    log "Progress: " ;;
    p <- get_self ;;
    for_each (range (work_duration p)) (fun _ => print "." ;; sleep 60000) ;;
    print " Done!" ;;
    log "Work session completed!" ;;
    ret true.

Definition start_break_timer : M bool :=
  log "====== BREAK SESSION STARTING ======" ;;
  p <- get_self ;;
  switched <- switch_tab (break_tab p) ;;
  if negb switched then ret false
  else
    sleep 2000 ;;
    _ <- stop_timer ;;
    sleep 2000 ;;
    p <- get_self ;;
    set <- set_timer_duration (break_duration p) ;;
    when (negb set) (log warn_duration) ;;
    sleep 1000 ;;
    started <- start_timer ;;
    when (negb started) (log warn_start) ;;
    p <- get_self ;;
    log ("Break session active (" ++ str (break_duration p) ++ " minutes)") ;;
    completion <- get_completion_time (break_duration p) ;;
    log ("Expected completion: " ++ completion) ;;
    log "Progress: " ;;
    p <- get_self ;;
    for_each (range (break_duration p)) (fun _ => print "." ;; sleep 60000) ;;
    print " Done!" ;;
    log "Break session completed!" ;;
    ret true.

(** *** cleanup (lines 468-476) *)
Definition cleanup : M unit :=
  try_except
    (log "Cleaning up..." ;;
     p <- get_self ;;
     when (driver p) (_ <- perform Quit ;; ret tt) ;;
     log "Brave browser closed. Goodbye!")
    (ret tt).

(** *** main_loop (lines 428-466)

    [cycle] is the body of [while True] after [session_count += 1]; both
    [continue] statements end the body.  The loop never ends by itself, so
    it is run with a bound on the number of iterations: [None] means that
    the bound was reached, otherwise the loop was left by an exception,
    which is returned with the value [session_count] had then. *)
Definition cycle_header (session_count : Z) : M unit :=
  print (repeat_str "=" 60) ;;
  log ("POMODORO CYCLE #" ++ str session_count) ;;
  print (repeat_str "=" 60).

Definition cycle (session_count : Z) : M unit :=
  cycle_header session_count ;;
  worked <- start_work_timer ;;
  if negb worked then
    log "Error in work timer, retrying..." ;;
    sleep 5000
  else
    rested <- start_break_timer ;;
    if negb rested then
      log "Error in break timer, retrying..." ;;
      sleep 5000
    else
      log ("Cycle #" ++ str session_count ++ " completed successfully!").

Fixpoint while_true (fuel : nat) (session_count : Z) (s : state)
  : option (exn * Z * state) :=
  match fuel with
  | O => None
  | S fuel' =>
      let session_count := session_count + 1 in
      match cycle session_count s with
      | (Ret _, s') => while_true fuel' session_count s'
      | (Raise e, s') => Some (e, session_count, s')
      end
  end.

Definition main_loop_banner : M unit :=
  log "Starting Pomodoro automation loop..." ;;
  log ("Browser: " ++ browser_type) ;;
  p <- get_self ;;
  log ("Work: " ++ str (work_duration p) ++ " min | Break: "
         ++ str (break_duration p) ++ " min") ;;
  log "Press Ctrl+C to stop".

Definition main_loop (fuel : nat) (s : state) : option (res unit * state) :=
  let session_count := 0 in
  match main_loop_banner s with
  | (Raise e, s0) => Some (Raise e, s0)
  | (Ret _, s0) =>
      match while_true fuel session_count s0 with
      | None => None
      | Some (e, session_count, s1) =>
          let (r, s2) :=
            match e with
            | KeyboardInterrupt =>
                (log "Pomodoro automation stopped by user" ;;
                 log ("Total sessions completed: " ++ str session_count)) s1
            | PyException => log "Unexpected error: " s1
            | SystemExit code => (Raise (SystemExit code), s1)
            end in
          (* finally *)
          match cleanup s2 with
          | (Ret _, s3) => Some (r, s3)
          | (Raise e', s3) => Some (Raise e', s3)
          end
      end
  end.

(** *** run (lines 478-499) *)
Definition run_banner : M unit :=
  print (repeat_str "=" 60) ;;
  print " POMODORO TIMER AUTOMATION - BRAVE BROWSER EDITION" ;;
  print (repeat_str "=" 60).

Definition run_setup : M unit :=
  run_banner ;;
  browser <- setup_browser ;;
  if negb browser then
    print "[ERROR] Failed to initialize Brave browser." ;;
    print "Please ensure:" ;;
    print "1. Brave browser is installed (https://brave.com/download/)" ;;
    print "2. The browser path in the script matches your installation" ;;
    sys_exit 1
  else
    tabs <- setup_tabs ;;
    if negb tabs then
      print "[ERROR] Failed to setup timer tabs." ;;
      cleanup ;;
      sys_exit 1
    else ret tt.

Definition run (fuel : nat) (s : state) : option (res unit * state) :=
  match run_setup s with
  | (Ret _, s') => main_loop fuel s'
  | (Raise e, s') => Some (Raise e, s')
  end.

(** *** main (lines 502-520) *)

Definition check_packages : M unit :=
  if packages_installed w then ret tt
  else
    print "Missing required packages. Please install:" ;;
    print "pip install selenium webdriver-manager" ;;
    sys_exit 1.

(** The outer [try: ... except Exception as e:] of [main], around a body
    that may not return. *)
Definition main_try (body : state -> option (res unit * state)) (s : state)
  : option (res unit * state) :=
  match body s with
  | Some (Raise PyException, s') =>
      Some ((print "Fatal error: " ;; sys_exit 1) s')
  | r => r
  end.

Definition main (fuel : nat) : option (res unit * state) :=
  main_try
    (fun s =>
       match check_packages s with
       | (Ret _, s') => run fuel s'
       | (Raise e, s') => Some (Raise e, s')
       end)
    (initial __init__).

End Program.

(** The status with which the interpreter ends the process after
    [if __name__ == "__main__": main()]: 0 when [main] returns, the code of a
    [SystemExit], 1 after the traceback of an uncaught exception, and 130 for
    an uncaught KeyboardInterrupt. *)
Definition exit_status (r : res unit) : Z :=
  match r with
  | Ret _ => 0
  | Raise (SystemExit code) => code
  | Raise PyException => 1
  | Raise KeyboardInterrupt => 130
  end.

Definition exit_code (run : option (res unit * state)) : option Z :=
  match run with
  | Some (r, _) => Some (exit_status r)
  | None => None
  end.

(** ** Stub environments *)

Module Stub.

Definition no_page : dom :=
  {| buttons := []; has_startTimer := false; has_start := false |}.

(** 2025-01-01 12:00:00 (the ordinal of that day is 739252). *)
Definition noon : Z := (739251 * 24 + 12) * 3600000000.

(** A Linux machine with Brave at [/usr/bin/brave], a driver that does
    what it is asked, a clock that shows noon, and nobody at the keyboard. *)
Definition linux : world :=
  {| system := "Linux";
     expandvars := fun p => p;
     expanduser := fun p => p;
     path_join := fun a b => a ++ "/" ++ b;
     path_exists := fun p => String.eqb p "/usr/bin/brave";
     packages_installed := true;
     respond := fun _ _ => Ok;
     now := fun _ => noon;
     current_window_handle := fun _ => "tab-A";
     window_handles := fun _ => ["tab-A"; "tab-B"];
     found_inputs := fun _ => [];
     page := fun _ => no_page |}.

Definition with_respond (w : world) (r : nat -> call -> response) : world :=
  {| system := system w;
     expandvars := expandvars w;
     expanduser := expanduser w;
     path_join := path_join w;
     path_exists := path_exists w;
     packages_installed := packages_installed w;
     respond := r;
     now := now w;
     current_window_handle := current_window_handle w;
     window_handles := window_handles w;
     found_inputs := found_inputs w;
     page := page w |}.

Definition with_files (w : world) (sys : string) (files : string -> bool) : world :=
  {| system := sys;
     expandvars := expandvars w;
     expanduser := expanduser w;
     path_join := path_join w;
     path_exists := files;
     packages_installed := packages_installed w;
     respond := respond w;
     now := now w;
     current_window_handle := current_window_handle w;
     window_handles := window_handles w;
     found_inputs := found_inputs w;
     page := page w |}.

(** An object whose browser and tabs are set up, with given durations. *)
Definition ready (work_minutes break_minutes : Z) : PomodoroAutomation :=
  {| driver := true;
     work_tab := Some "tab-A";
     break_tab := Some "tab-B";
     work_duration := work_minutes;
     break_duration := break_minutes |}.

End Stub.

(** ** Observations on a run *)

Definition is_cleanup_log (e : event) : bool :=
  match e with
  | Log s => String.eqb s "Cleaning up..."
  | _ => false
  end.

(** Number of times [cleanup] was entered: its first statement is the log. *)
Definition cleanups (evs : list event) : nat := List.length (filter is_cleanup_log evs).

(** Events that are neither a progress marker nor the entry of [cleanup]. *)
Definition silent (e : event) : bool := (negb (is_marker e) && negb (is_cleanup_log e))%bool.

(** Events other than the entry of [cleanup]. *)
Definition no_cleanup (e : event) : bool := negb (is_cleanup_log e).

(** A path that [os.path.exists] does not find. *)
Definition absent (w : world) (p : string) : Prop := path_exists w p = false.

(** The path of a line ["  - path"], as [find_brave_path] prints them. *)
Definition reported_path (e : event) : option string :=
  match e with
  | Print t =>
      if String.prefix "  - " t
      then Some (String.substring 4 (String.length t - 4) t)
      else None
  | _ => None
  end.

Fixpoint reported_paths (evs : list event) : list string :=
  match evs with
  | [] => []
  | e :: rest =>
      match reported_path e with
      | Some p => p :: reported_paths rest
      | None => reported_paths rest
      end
  end.

(** The two kinds of session, to state once what holds of both functions. *)
Inductive session : Type := WorkSession | BreakSession.

Definition session_name (k : session) : string :=
  match k with WorkSession => "Work" | BreakSession => "Break" end.

Definition session_banner (k : session) : string :=
  match k with
  | WorkSession => "====== WORK SESSION STARTING ======"
  | BreakSession => "====== BREAK SESSION STARTING ======"
  end.

Definition session_tab (k : session) (p : PomodoroAutomation) : option handle :=
  match k with WorkSession => work_tab p | BreakSession => break_tab p end.

Definition session_minutes (k : session) (p : PomodoroAutomation) : Z :=
  match k with WorkSession => work_duration p | BreakSession => break_duration p end.

(** The session announced by a banner line. *)
Definition banner_session (e : event) : option session :=
  match e with
  | Log t =>
      if String.eqb t "====== WORK SESSION STARTING ======" then Some WorkSession
      else if String.eqb t "====== BREAK SESSION STARTING ======" then Some BreakSession
      else None
  | _ => None
  end.

(** The first session begun in a list of events (oldest first). *)
Fixpoint first_session (evs : list event) : option session :=
  match evs with
  | [] => None
  | e :: rest =>
      match banner_session e with
      | Some k => Some k
      | None => first_session rest
      end
  end.

(** The session whose failure a list of events reports. *)
Definition failure_session (e : event) : option session :=
  match e with
  | Log t =>
      if String.eqb t "Error in work timer, retrying..." then Some WorkSession
      else if String.eqb t "Error in break timer, retrying..." then Some BreakSession
      else None
  | _ => None
  end.

Fixpoint failed_session (evs : list event) : option session :=
  match evs with
  | [] => None
  | e :: rest =>
      match failure_session e with
      | Some k => Some k
      | None => failed_session rest
      end
  end.

(** What happened between two states of a run, oldest first. *)
Definition since (s s' : state) : list event :=
  skipn (List.length (trace s)) (output s').

(** The line [main_loop] prints when a session of that kind failed. *)
Definition retry_message (k : session) : string :=
  match k with
  | WorkSession => "Error in work timer, retrying..."
  | BreakSession => "Error in break timer, retrying..."
  end.

(** The state after a line was printed. *)
Definition record (e : event) (s : state) : state :=
  {| self := self s; clock := clock s; trace := e :: trace s |}.

(** A warning that is printed or not. *)
Definition warned (b : bool) (t : string) (s : state) : state :=
  if b then record (Log t) s else s.

(** ** Sessions, as the two session functions share them *)

Section Session_model.

Variable w : world.

(** The statements of a session function from [time.sleep(1)] before
    [start_timer] to its [return True]. *)
Definition finish_timer (k : session) : M bool :=
  sleep w 1000 ;;
  started <- start_timer w ;;
  when (negb started) (log warn_start) ;;
  p <- get_self ;;
  log (session_name k ++ " session active (" ++ str (session_minutes k p) ++ " minutes)") ;;
  completion <- get_completion_time w (session_minutes k p) ;;
  log ("Expected completion: " ++ completion) ;;
  log "Progress: " ;;
  p <- get_self ;;
  for_each (range (session_minutes k p)) (fun _ => print "." ;; sleep w 60000) ;;
  print " Done!" ;;
  log (session_name k ++ " session completed!") ;;
  ret true.

(** The statements of a session function after the tab switch, which the
    two functions share up to the name and the duration field. *)
Definition run_timer (k : session) : M bool :=
  sleep w 2000 ;;
  _ <- stop_timer w ;;
  sleep w 2000 ;;
  p <- get_self ;;
  set <- set_timer_duration w (session_minutes k p) ;;
  when (negb set) (log warn_duration) ;;
  finish_timer k.

(** The session function of a kind. *)
Definition start_session (k : session) : M bool :=
  match k with
  | WorkSession => start_work_timer w
  | BreakSession => start_break_timer w
  end.

(** One turn of the progress loop. *)
Definition minute : M unit := print "." ;; sleep w 60000.

End Session_model.

(** ** Properties of computations *)

(** The exceptions a computation is allowed to raise. *)
Definition may_raise (l : list exn) (e : exn) : Prop := In e l.

(** [run_ok ok P m]: from any state, [m] leaves the object's fields alone,
    adds only events accepted by [ok], and raises only exceptions in [P]. *)
Definition run_ok (ok : event -> bool) (P : exn -> Prop) {A} (m : M A) : Prop :=
  forall s,
    self (snd (m s)) = self s
    /\ (exists evs, trace (snd (m s)) = (evs ++ trace s)%list /\ forallb ok evs = true)
    /\ (forall e, fst (m s) = Raise e -> P e).

(** Ctrl-C can only arrive if [ki] allows it: [ki] is [[KeyboardInterrupt]]
    in general and [[]] for a world in which nobody is at the keyboard. *)
Definition interrupts_in (w : world) (ki : list exn) : Prop :=
  forall n c, respond w n c = Interrupt -> In KeyboardInterrupt ki.

Definition never_interrupted (w : world) : Prop :=
  forall n c, respond w n c <> Interrupt.

(** [in_time w minutes]: whenever it is asked, the completion time of a
    session of [minutes] minutes can be computed, so that
    [get_completion_time] does not raise. *)
Definition in_time (w : world) (minutes : Z) : Prop :=
  forall n, completion_time (now w n) minutes <> None.

(** [overdue w p]: at some moment the completion time of a session of the
    object [p] cannot be computed. *)
Definition overdue (w : world) (p : PomodoroAutomation) : Prop :=
  exists n,
    completion_time (now w n) (work_duration p) = None
    \/ completion_time (now w n) (break_duration p) = None.

(** ** More stub environments *)

Module Stub_files.

(** A Linux machine on which Brave is not installed. *)
Definition linux_without_brave : world :=
  Stub.with_files Stub.linux "Linux" (fun _ => false).

(** A Linux machine with Brave in two of the candidate places. *)
Definition linux_two_braves : world :=
  Stub.with_files Stub.linux "Linux"
    (fun p => (String.eqb p "/usr/local/bin/brave" || String.eqb p "/snap/bin/brave")%bool).

(** A Mac on which Brave is not installed. *)
Definition mac_without_brave : world :=
  Stub.with_files Stub.linux "Darwin" (fun _ => false).

End Stub_files.

Module Stub_driver.

(** The tabs cannot be switched to: [switch_to.window] raises. *)
Definition tabs_gone : world :=
  Stub.with_respond Stub.linux
    (fun _ c => match c with SwitchToWindow _ => Error | _ => Ok end).

(** The break tab cannot be switched to. *)
Definition break_tab_gone : world :=
  Stub.with_respond Stub.linux
    (fun _ c =>
       match c with
       | SwitchToWindow (Some h) => if String.eqb h "tab-B" then Error else Ok
       | _ => Ok
       end).

(** Everything the driver is asked after the tab switch raises. *)
Definition only_switches : world :=
  Stub.with_respond Stub.linux
    (fun _ c =>
       match c with
       | SwitchToWindow _ => Ok
       | Sleep _ => Ok
       | _ => Error
       end).

(** No start control is ever found by an XPath. *)
Definition no_start_button : world :=
  Stub.with_respond Stub.linux
    (fun _ c => match c with WaitClickable _ => Error | _ => Ok end).

End Stub_driver.

Module Stub_loop.

(** The work tab cannot be switched to, and Ctrl-C arrives during the
    back-off of the second iteration. *)
Definition work_tab_gone_then_ctrl_c : world :=
  Stub.with_respond Stub.linux
    (fun n c =>
       match c with
       | SwitchToWindow (Some h) => if String.eqb h "tab-A" then Error else Ok
       | Sleep 5000 => if Nat.leb 3 n then Interrupt else Ok
       | _ => Ok
       end).

(** Ctrl-C arrives during the first minute of the first session, and
    [driver.quit()] raises. *)
Definition ctrl_c_in_first_minute : world :=
  Stub.with_respond Stub.linux
    (fun _ c =>
       match c with
       | Sleep 60000 => Interrupt
       | Quit => Error
       | _ => Ok
       end).

(** The timer page cannot be loaded. *)
Definition page_unreachable : world :=
  Stub.with_respond Stub.linux
    (fun _ c => match c with Get _ => Error | _ => Ok end).

End Stub_loop.

Module Stub_exit.

(** The body of a [main] in which something raises an ordinary exception
    that nothing below catches. *)
Definition raising_body (s : state) : option (res unit * state) :=
  Some (Raise PyException, s).

End Stub_exit.

(** ** Further observations and stub environments *)

(** One-minute sleeps, as the progress loops make them. *)
Definition is_minute_sleep (e : event) : bool :=
  match e with
  | Did (Sleep ms) => ms =? 60000
  | _ => false
  end.

Definition minute_sleeps (evs : list event) : nat :=
  List.length (filter is_minute_sleep evs).

(** Calls of [driver.quit()]. *)
Definition is_quit (e : event) : bool :=
  match e with
  | Did Quit => true
  | _ => false
  end.

Definition quits (evs : list event) : nat := List.length (filter is_quit evs).

(** The header line and the completion line of an iteration of [main_loop]. *)
Definition is_cycle_header (e : event) : bool :=
  match e with
  | Log t => String.prefix "POMODORO CYCLE #" t
  | _ => false
  end.

Definition is_completion (e : event) : bool :=
  match e with
  | Log t => String.prefix "Cycle #" t
  | _ => false
  end.

Definition cycle_headers (evs : list event) : nat :=
  List.length (filter is_cycle_header evs).

Definition completions (evs : list event) : nat :=
  List.length (filter is_completion evs).

(** What the steps of a session print and do: no marker, no entry of
    [cleanup], no one-minute sleep, no [quit], no line of [main_loop]. *)
Definition quiet (e : event) : bool :=
  (silent e && negb (is_minute_sleep e) && negb (is_quit e)
   && negb (is_cycle_header e) && negb (is_completion e))%bool.

(** What a session prints and does: markers and minutes, but no entry of
    [cleanup], no [quit] and no line of [main_loop]. *)
Definition calm (e : event) : bool :=
  (no_cleanup e && negb (is_quit e)
   && negb (is_cycle_header e) && negb (is_completion e))%bool.

(** An input field mentions a word in its [id] or its [name], in any case. *)
Definition mentions (word : string) (inp : input_elem) : bool :=
  (includes word (lower (or_empty (attr_id inp)))
   || includes word (lower (or_empty (attr_name inp))))%bool.

(** What the fallback of [set_timer_duration] may do to input fields: clear
    one that mentions hour, minute or second; type "0" into one that
    mentions hour or second; type the minutes into one that mentions minute
    and not hour. *)
Definition field_edit_ok (minutes : Z) (e : event) : bool :=
  match e with
  | Did (Clear inp) =>
      (mentions "hour" inp || mentions "minute" inp || mentions "second" inp)%bool
  | Did (SendKeys inp keys) =>
      ((String.eqb keys "0" && (mentions "hour" inp || mentions "second" inp))
       || (String.eqb keys (str minutes)
           && mentions "minute" inp && negb (mentions "hour" inp)))%bool
  | _ => true
  end.

(** Edits of input fields. *)
Definition is_field_edit (e : event) : bool :=
  match e with
  | Did (Clear _) => true
  | Did (SendKeys _ _) => true
  | _ => false
  end.

(** The events of [n] turns of a progress loop, oldest first: a marker,
    then a minute of sleep. *)
Fixpoint progress_events (n : nat) : list event :=
  match n with
  | O => []
  | S k => Print "." :: Did (Sleep 60000) :: progress_events k
  end.

(** Both sessions of the iteration that starts in [s] return [True]. *)
Definition cycle_succeeds (w : world) (session_count : Z) (s : state) : bool :=
  match start_work_timer w (snd (cycle_header session_count s)) with
  | (Ret true, sw) =>
      match start_break_timer w sw with
      | (Ret true, _) => true
      | _ => false
      end
  | _ => false
  end.

(** [paced_at N m s]: run from [s], [m] leaves the object's fields alone,
    starts as many one-minute sleeps as it prints markers, and prints at
    most [N] markers. *)
Definition paced_at (N : nat) {A} (m : M A) (s : state) : Prop :=
  self (snd (m s)) = self s
  /\ exists evs,
      trace (snd (m s)) = (evs ++ trace s)%list
      /\ markers evs = minute_sleeps evs
      /\ (markers evs <= N)%nat.

(** [steady w m]: [m] leaves the object's fields alone, does not turn the
    clock back and only adds to the trace; and when it raises
    KeyboardInterrupt, the last thing it did was an external operation
    during which Ctrl-C arrived. *)
Definition steady (w : world) {A} (m : M A) : Prop :=
  forall s,
    self (snd (m s)) = self s
    /\ (clock s <= clock (snd (m s)))%nat
    /\ exists evs,
        trace (snd (m s)) = (evs ++ trace s)%list
        /\ (fst (m s) = Raise KeyboardInterrupt ->
            exists c evs',
              evs = Did c :: evs'
              /\ respond w (pred (clock (snd (m s)))) c = Interrupt).

(** The state in which [run] calls [setup_browser]. *)
Definition before_setup : state := snd (run_banner (initial __init__)).

Module Stub_more.

(** The browser starts, but its window cannot be maximized. *)
Definition maximize_fails : world :=
  Stub.with_respond Stub.linux
    (fun _ c => match c with MaximizeWindow => Error | _ => Ok end).

(** Ctrl-C arrives while the first timer page settles. *)
Definition ctrl_c_while_loading : world :=
  Stub.with_respond Stub.linux
    (fun _ c => match c with Sleep 5000 => Interrupt | _ => Ok end).

(** The duration script raises, and Ctrl-C arrives during the lookup of
    the input fields. *)
Definition ctrl_c_in_fallback : world :=
  Stub.with_respond Stub.linux
    (fun _ c =>
       match c with
       | ExecuteScript (SetTimerScript _) => Error
       | FindInputs => Interrupt
       | _ => Ok
       end).

(** Ctrl-C arrives during every XPath wait. *)
Definition ctrl_c_in_waits : world :=
  Stub.with_respond Stub.linux
    (fun _ c => match c with WaitClickable _ => Interrupt | _ => Ok end).

Definition field (id name : string) : input_elem :=
  {| attr_id := Some id; attr_name := Some name |}.

(** A page with inputs for hours, minutes and seconds and a search box,
    whose duration script raises. *)
Definition with_inputs (inputs : list input_elem) : world :=
  {| system := "Linux";
     expandvars := fun p => p;
     expanduser := fun p => p;
     path_join := fun a b => a ++ "/" ++ b;
     path_exists := fun p => String.eqb p "/usr/bin/brave";
     packages_installed := true;
     respond := fun _ c =>
                  match c with
                  | ExecuteScript (SetTimerScript _) => Error
                  | _ => Ok
                  end;
     now := fun _ => Stub.noon;
     current_window_handle := fun _ => "tab-A";
     window_handles := fun _ => ["tab-A"; "tab-B"];
     found_inputs := fun _ => inputs;
     page := fun _ => Stub.no_page |}.

(** A browser in which [window.open] opened nothing. *)
Definition single_tab : world :=
  {| system := "Linux";
     expandvars := fun p => p;
     expanduser := fun p => p;
     path_join := fun a b => a ++ "/" ++ b;
     path_exists := fun p => String.eqb p "/usr/bin/brave";
     packages_installed := true;
     respond := fun _ _ => Ok;
     now := fun _ => Stub.noon;
     current_window_handle := fun _ => "tab-A";
     window_handles := fun _ => ["tab-A"];
     found_inputs := fun _ => [];
     page := fun _ => Stub.no_page |}.

(** A page with one input for the minutes, whose duration script raises
    and whose input fields cannot be read: [get_attribute] raises. *)
Definition unreadable_fields : world :=
  {| system := "Linux";
     expandvars := fun p => p;
     expanduser := fun p => p;
     path_join := fun a b => a ++ "/" ++ b;
     path_exists := fun p => String.eqb p "/usr/bin/brave";
     packages_installed := true;
     respond := fun _ c =>
                  match c with
                  | ExecuteScript (SetTimerScript _) => Error
                  | GetAttribute _ _ => Error
                  | _ => Ok
                  end;
     now := fun _ => Stub.noon;
     current_window_handle := fun _ => "tab-A";
     window_handles := fun _ => ["tab-A"; "tab-B"];
     found_inputs := fun _ => [field "minutes" "minutes"];
     page := fun _ => Stub.no_page |}.

(** From the moment [N] on, Ctrl-C arrives during any one-minute sleep;
    [driver.quit()] raises. *)
Definition ctrl_c_from (N : nat) : world :=
  Stub.with_respond Stub.linux
    (fun n c =>
       match c with
       | Sleep ms => if ((ms =? 60000) && Nat.leb N n)%bool then Interrupt else Ok
       | Quit => Error
       | _ => Ok
       end).

(** A page with a disabled Start button and an enabled one. *)
Definition two_buttons : dom :=
  {| buttons := [ {| textContent := "Start"; value := ""; disabled := true |};
                  {| textContent := ""; value := "START NOW"; disabled := false |} ];
     has_startTimer := false;
     has_start := false |}.

End Stub_more.

(** ** Reasoning about runs *)

Section Combinators.

Variable ok : event -> bool.
Variable P : exn -> Prop.

Lemma run_ok_ret {A} (a : A) : run_ok ok P (ret a).
Proof.
  intro s; simpl; repeat split.
  - exists []; auto.
  - discriminate.
Qed.

Lemma run_ok_raise {A} (e : exn) : P e -> run_ok ok P (@raise A e).
Proof.
  intros He s; simpl; repeat split.
  - exists []; auto.
  - intros e' H; injection H as <-; exact He.
Qed.

Lemma run_ok_get_self : run_ok ok P get_self.
Proof.
  intro s; simpl; repeat split.
  - exists []; auto.
  - discriminate.
Qed.

Lemma run_ok_emit (e : event) : ok e = true -> run_ok ok P (emit e).
Proof.
  intros He s; simpl; repeat split.
  - exists [e]; simpl; rewrite He; auto.
  - discriminate.
Qed.

Lemma run_ok_bind {A B} (m : M A) (f : A -> M B) :
  run_ok ok P m -> (forall a, run_ok ok P (f a)) -> run_ok ok P (bind m f).
Proof.
  intros Hm Hf s. unfold bind.
  destruct (Hm s) as (Hs & (evs & Ht & Hok) & Hr).
  destruct (m s) as [[a | e] s1]; simpl in *.
  - destruct (Hf a s1) as (Hs' & (evs' & Ht' & Hok') & Hr').
    repeat split.
    + congruence.
    + exists (evs' ++ evs)%list. rewrite Ht', Ht, app_assoc, forallb_app, Hok, Hok'. auto.
    + exact Hr'.
  - repeat split; eauto.
    intros e' H; injection H as <-; apply Hr; reflexivity.
Qed.

Lemma run_ok_for_each {A} (l : list A) (body : A -> M unit) :
  (forall x, run_ok ok P (body x)) -> run_ok ok P (for_each l body).
Proof.
  intro Hb. induction l as [| x l IH]; simpl.
  - apply run_ok_ret.
  - apply run_ok_bind; auto.
Qed.

Lemma run_ok_try_except {A} (Q : exn -> Prop) (body handler : M A) :
  run_ok ok Q body -> run_ok ok P handler -> run_ok ok P (try_except body handler).
Proof.
  intros Hb Hh s. unfold try_except.
  destruct (Hb s) as (Hs & (evs & Ht & Hok) & Hr).
  destruct (body s) as [[a | e] s1]; simpl in *.
  - repeat split; eauto. discriminate.
  - destruct (Hh s1) as (Hs' & (evs' & Ht' & Hok') & Hr').
    repeat split.
    + congruence.
    + exists (evs' ++ evs)%list. rewrite Ht', Ht, app_assoc, forallb_app, Hok, Hok'. auto.
    + exact Hr'.
Qed.

Lemma run_ok_try_except_Exception {A} (Q : exn -> Prop) (body handler : M A) :
  run_ok ok Q body -> run_ok ok P handler ->
  (forall e, Q e -> e = PyException \/ P e) ->
  run_ok ok P (try_except_Exception body handler).
Proof.
  intros Hb Hh HQ s. unfold try_except_Exception.
  destruct (Hb s) as (Hs & (evs & Ht & Hok) & Hr).
  destruct (body s) as [[a | e] s1]; simpl in *.
  - repeat split; eauto. discriminate.
  - destruct (Hh s1) as (Hs' & (evs' & Ht' & Hok') & Hr').
    destruct (HQ e (Hr e eq_refl)) as [-> | HP].
    + repeat split.
      * congruence.
      * exists (evs' ++ evs)%list. rewrite Ht', Ht, app_assoc, forallb_app, Hok, Hok'. auto.
      * exact Hr'.
    + destruct e; simpl; repeat split; eauto;
        try (intros e' H; injection H as <-; exact HP).
      * congruence.
      * exists (evs' ++ evs)%list. rewrite Ht', Ht, app_assoc, forallb_app, Hok, Hok'. auto.
Qed.

End Combinators.

Lemma run_ok_weaken (ok ok' : event -> bool) (P P' : exn -> Prop) {A} (m : M A) :
  run_ok ok P m ->
  (forall e, ok e = true -> ok' e = true) ->
  (forall e, P e -> P' e) ->
  run_ok ok' P' m.
Proof.
  intros Hm Hok HP s.
  destruct (Hm s) as (Hs & (evs & Ht & Hall) & Hr).
  repeat split; auto.
  exists evs; split; auto.
  rewrite forallb_forall in *. auto.
Qed.

Lemma silent_no_cleanup (e : event) : silent e = true -> no_cleanup e = true.
Proof.
  unfold silent, no_cleanup. intro H. apply andb_true_iff in H. tauto.
Qed.

Section Primitives.

Variable w : world.
Variable ok : event -> bool.
Variable ki : list exn.
Hypothesis ok_did : forall c, ok (Did c) = true.
Hypothesis Hki : interrupts_in w ki.

Lemma run_ok_perform (c : call) :
  run_ok ok (may_raise (PyException :: ki)) (perform w c).
Proof.
  intro s. unfold perform.
  destruct (respond w (clock s) c) eqn:E; simpl; repeat split;
    try (exists [Did c]; simpl; rewrite ok_did; auto);
    try discriminate;
    intros e H; injection H as <-; unfold may_raise; simpl; eauto.
Qed.

Lemma run_ok_sleep (ms : Z) : run_ok ok (may_raise ki) (sleep w ms).
Proof.
  intro s. unfold sleep.
  destruct (respond w (clock s) (Sleep ms)) eqn:E; simpl; repeat split;
    try (exists [Did (Sleep ms)]; simpl; rewrite ok_did; auto);
    try discriminate;
    intros e H; injection H as <-; unfold may_raise; eauto.
Qed.

Lemma run_ok_on_driver (c : call) :
  run_ok ok (may_raise (PyException :: ki)) (on_driver w c).
Proof.
  unfold on_driver. apply run_ok_bind.
  - apply run_ok_get_self.
  - intro p. destruct (driver p).
    + apply run_ok_perform.
    + apply run_ok_raise. left; reflexivity.
Qed.

End Primitives.

(** [get_completion_time] prints nothing and asks nothing of the driver;
    it can raise. *)
Lemma run_ok_get_completion_time (w : world) (ok : event -> bool) (P : exn -> Prop)
      (minutes : Z) :
  P PyException -> run_ok ok P (get_completion_time w minutes).
Proof.
  intros HP s. unfold get_completion_time.
  destruct (completion_time (now w (clock s)) minutes); simpl; repeat split;
    try (exists []; auto); try discriminate.
  intros e H. injection H as <-. exact HP.
Qed.

(** Automation: one step of a [run_ok] proof by the shape of the program. *)

Ltac may_raise_incl :=
  let e := fresh "e" in
  let H := fresh "H" in
  intros e H; unfold may_raise in *; simpl in *; tauto.

Ltac run_ok_leaf L :=
  lazymatch goal with
  | |- run_ok ?accepted _ _ =>
      first
        [ apply L; [ intro; reflexivity | assumption ]
        | eapply run_ok_weaken with (ok := accepted);
          [ apply L; [ intro; reflexivity | eassumption ]
          | intros; assumption
          | may_raise_incl ] ]
  end.

Ltac run_ok_step w :=
  lazymatch goal with
  | |- run_ok _ _ (bind _ _) => apply run_ok_bind; [ | intro ]
  | |- run_ok _ _ (ret _) => apply run_ok_ret
  | |- run_ok _ _ get_self => apply run_ok_get_self
  | |- run_ok _ _ (log _) => apply run_ok_emit; reflexivity
  | |- run_ok _ _ (print _) => apply run_ok_emit; reflexivity
  | |- run_ok _ _ (when ?b _) => destruct b; unfold when
  | |- run_ok _ _ (if ?b then _ else _) => destruct b
  | |- run_ok _ _ (for_each _ _) => apply run_ok_for_each; intro
  | |- run_ok _ _ (sleep _ _) => run_ok_leaf (run_ok_sleep w)
  | |- run_ok _ _ (perform _ _) => run_ok_leaf (run_ok_perform w)
  | |- run_ok _ _ (on_driver _ _) => run_ok_leaf (run_ok_on_driver w)
  | |- run_ok _ _ (get_completion_time _ _) =>
      apply run_ok_get_completion_time; unfold may_raise; simpl; auto
  | |- run_ok _ (may_raise ?ki) (try_except_Exception _ _) =>
      apply run_ok_try_except_Exception with (Q := may_raise (PyException :: ki));
      [ | | intros ? [<- | ?]; [ left; reflexivity | right; assumption ] ]
  | |- run_ok _ (may_raise ?ki) (try_except _ _) =>
      apply run_ok_try_except with (Q := may_raise (PyException :: ki))
  end.

Section Functions.

Variable w : world.
Variable ki : list exn.
Hypothesis Hki : interrupts_in w ki.

Lemma switch_tab_ok (h : option handle) :
  run_ok silent (may_raise ki) (switch_tab w h).
Proof. unfold switch_tab. repeat run_ok_step w. Qed.

Lemma stop_timer_ok : run_ok silent (may_raise ki) (stop_timer w).
Proof. unfold stop_timer. repeat run_ok_step w. Qed.

Lemma fill_input_ok (minutes : Z) (inp : input_elem) :
  run_ok silent (may_raise (PyException :: ki)) (fill_input w minutes inp).
Proof. unfold fill_input. repeat run_ok_step w. Qed.

Lemma set_timer_duration_ok (minutes : Z) :
  run_ok silent (may_raise ki) (set_timer_duration w minutes).
Proof.
  unfold set_timer_duration. repeat run_ok_step w.
  apply fill_input_ok.
Qed.

Lemma try_selectors_ok (sels : list string) :
  run_ok silent (may_raise ki) (try_selectors w sels).
Proof.
  induction sels as [| sel rest IH]; simpl.
  - apply run_ok_ret.
  - repeat run_ok_step w. exact IH.
Qed.

Lemma start_timer_ok : run_ok silent (may_raise ki) (start_timer w).
Proof.
  unfold start_timer. repeat run_ok_step w.
  eapply run_ok_weaken; [ apply try_selectors_ok | auto | may_raise_incl ].
Qed.

End Functions.

(** ** Sessions *)

Lemma bind_run {A B} (m : M A) (f : A -> M B) (s : state) :
  bind m f s =
  match m s with
  | (Ret a, s') => f a s'
  | (Raise e, s') => (Raise e, s')
  end.
Proof. reflexivity. Qed.

Lemma markers_app (l1 l2 : list event) :
  markers (l1 ++ l2) = (markers l1 + markers l2)%nat.
Proof. unfold markers. rewrite filter_app, length_app. reflexivity. Qed.

Lemma markers_cons (e : event) (l : list event) :
  markers (e :: l) = ((if is_marker e then 1 else 0) + markers l)%nat.
Proof. unfold markers; simpl. destruct (is_marker e); reflexivity. Qed.

Lemma cleanups_app (l1 l2 : list event) :
  cleanups (l1 ++ l2) = (cleanups l1 + cleanups l2)%nat.
Proof. unfold cleanups. rewrite filter_app, length_app. reflexivity. Qed.

Lemma silent_markers (evs : list event) :
  forallb silent evs = true -> markers evs = 0%nat.
Proof.
  induction evs as [| e evs IH]; simpl; intro H; auto.
  apply andb_true_iff in H as [He Hevs].
  unfold silent in He. apply andb_true_iff in He as [He _].
  unfold markers in *. simpl. apply negb_true_iff in He. rewrite He. auto.
Qed.

Lemma no_cleanup_cleanups (evs : list event) :
  forallb no_cleanup evs = true -> cleanups evs = 0%nat.
Proof.
  induction evs as [| e evs IH]; simpl; intro H; auto.
  apply andb_true_iff in H as [He Hevs].
  unfold no_cleanup in He. apply negb_true_iff in He.
  unfold cleanups in *. simpl. rewrite He. auto.
Qed.

(** What a [run_ok silent] computation does to a given state. *)
Lemma run_ok_silent_run {A} (ki : list exn) (m : M A) :
  run_ok silent (may_raise ki) m ->
  forall s r s', m s = (r, s') ->
    self s' = self s
    /\ markers (trace s') = markers (trace s)
    /\ (forall e, r = Raise e -> In e ki).
Proof.
  intros H s r s' E.
  destruct (H s) as (Hs & (evs & Ht & Hok) & Hr).
  rewrite E in *; simpl in *.
  repeat split; auto.
  rewrite Ht, markers_app, (silent_markers _ Hok). reflexivity.
Qed.

Lemma run_ok_run {A} (ok : event -> bool) (P : exn -> Prop) (m : M A) :
  run_ok ok P m ->
  forall s r s', m s = (r, s') ->
    self s' = self s
    /\ (exists evs, trace s' = (evs ++ trace s)%list /\ forallb ok evs = true)
    /\ (forall e, r = Raise e -> P e).
Proof.
  intros H s r s' E. specialize (H s). rewrite E in H. exact H.
Qed.

Lemma record_self (e : event) (s : state) : self (record e s) = self s.
Proof. reflexivity. Qed.

Lemma record_trace (e : event) (s : state) : trace (record e s) = e :: trace s.
Proof. reflexivity. Qed.

Lemma bind_log {B} (t : string) (f : unit -> M B) (s : state) :
  bind (log t) f s = f tt (record (Log t) s).
Proof. reflexivity. Qed.

Lemma bind_print {B} (t : string) (f : unit -> M B) (s : state) :
  bind (print t) f s = f tt (record (Print t) s).
Proof. reflexivity. Qed.

Lemma bind_get_self {B} (f : PomodoroAutomation -> M B) (s : state) :
  bind get_self f s = f (self s) s.
Proof. reflexivity. Qed.

Lemma bind_ret {A B} (a : A) (f : A -> M B) (s : state) : bind (ret a) f s = f a s.
Proof. reflexivity. Qed.

Lemma bind_get_completion_time {B} (w : world) (minutes : Z) (f : string -> M B) (s : state) :
  bind (get_completion_time w minutes) f s =
  match completion_time (now w (clock s)) minutes with
  | Some text => f text s
  | None => (Raise PyException, s)
  end.
Proof.
  unfold bind, get_completion_time.
  destruct (completion_time (now w (clock s)) minutes); reflexivity.
Qed.

Lemma bind_when_log {B} (b : bool) (t : string) (f : unit -> M B) (s : state) :
  bind (when b (log t)) f s = f tt (warned b t s).
Proof. destruct b; reflexivity. Qed.

Lemma warned_self (b : bool) (t : string) (s : state) : self (warned b t s) = self s.
Proof. destruct b; reflexivity. Qed.

Lemma warned_markers (b : bool) (t : string) (s : state) :
  markers (trace (warned b t s)) = markers (trace s).
Proof. destruct b; reflexivity. Qed.

(** The statements that cannot fail: prints and reads of [self]. *)
Ltac plain_steps H :=
  repeat first
    [ rewrite bind_log in H
    | rewrite bind_print in H
    | rewrite bind_get_self in H
    | rewrite bind_when_log in H
    | rewrite bind_ret in H ].

(** One statement of a sequence, when it is silent: either it raised and
    the sequence stops, or it returned and the sequence goes on. *)
Ltac silent_step H L :=
  rewrite bind_run in H;
  lazymatch type of H with
  | context [match ?m ?s with _ => _ end] =>
      let r := fresh "r" in
      let s' := fresh "s" in
      let E := fresh "E" in
      let Hs := fresh "Hs" in
      let Hm := fresh "Hm" in
      let Hr := fresh "Hr" in
      destruct (m s) as [r s'] eqn:E;
      destruct (run_ok_silent_run _ _ L _ _ _ E) as (Hs & Hm & Hr);
      destruct r as [? | ?];
      [ | injection H as <- <-; simpl; auto ]
  end.

Section Sessions.

Variable w : world.

Lemma start_session_eq (k : session) :
  start_session w k =
  (log (session_banner k) ;;
   p <- get_self ;;
   switched <- switch_tab w (session_tab k p) ;;
   if negb switched then ret false else run_timer w k).
Proof. destruct k; reflexivity. Qed.

Variable ki : list exn.
Hypothesis Hki : interrupts_in w ki.

Lemma length_range (n : Z) : List.length (range n) = Z.to_nat n.
Proof. unfold range. rewrite length_map, length_seq. reflexivity. Qed.

Lemma minute_run (s : state) :
  minute w s =
  (match respond w (clock s) (Sleep 60000) with
   | Interrupt => Raise KeyboardInterrupt
   | _ => Ret tt
   end,
   {| self := self s; clock := S (clock s);
      trace := Did (Sleep 60000) :: Print "." :: trace s |}).
Proof.
  unfold minute, bind, print, emit, sleep, tick; simpl.
  destruct (respond w (clock s) (Sleep 60000)); reflexivity.
Qed.

(** The minute loop: one marker per element when it runs to its end, and
    when it is left early, it is by Ctrl-C during a minute's sleep. *)
Lemma minute_loop_run (l : list Z) (s : state) :
  exists evs r s',
    for_each l (fun _ => minute w) s = (r, s')
    /\ self s' = self s
    /\ trace s' = (evs ++ trace s)%list
    /\ forallb no_cleanup evs = true
    /\ match r with
       | Ret _ => markers evs = List.length l
       | Raise e => e = KeyboardInterrupt /\ In e ki
                    /\ hd_error evs = Some (Did (Sleep 60000))
       end.
Proof.
  revert s. induction l as [| x l IH]; intro s; simpl.
  - exists [], (Ret tt), s. simpl. auto.
  - rewrite bind_run, minute_run.
    set (s1 := {| self := self s; clock := S (clock s);
                  trace := Did (Sleep 60000) :: Print "." :: trace s |}).
    destruct (IH s1) as (evs & r & s' & Hrun & Hs & Ht & Hok & Hr).
    destruct (respond w (clock s) (Sleep 60000)) eqn:E.
    1, 2: exists (evs ++ [Did (Sleep 60000); Print "."])%list, r, s';
          rewrite Hrun; simpl in *; repeat split; auto;
          [ rewrite Ht, <- app_assoc; reflexivity
          | rewrite forallb_app, Hok; reflexivity
          | destruct r;
            [ rewrite markers_app, Hr; unfold markers; simpl; lia
            | destruct Hr as (He & Hin & Hhd); repeat split; auto;
              destruct evs; simpl in *; [ discriminate | auto ] ] ].
    exists [Did (Sleep 60000); Print "."], (Raise KeyboardInterrupt), s1.
    repeat split; simpl; eauto.
Qed.

Lemma sleep_ok (ms : Z) : run_ok silent (may_raise ki) (sleep w ms).
Proof. apply run_ok_sleep; auto. Qed.

Lemma run_timer_ok (k : session) :
  run_ok no_cleanup (may_raise (PyException :: ki)) (run_timer w k).
Proof.
  unfold run_timer, finish_timer. repeat run_ok_step w.
  all: try (destruct k; apply run_ok_emit; reflexivity).
  all: eapply run_ok_weaken;
    [ first [ apply stop_timer_ok | apply set_timer_duration_ok | apply start_timer_ok ];
      eassumption
    | exact silent_no_cleanup
    | may_raise_incl ].
Qed.

(** After the tab switch a session cannot report failure: it returns
    [True] after one marker per minute, or it is interrupted, or its
    completion time cannot be computed. *)
Lemma run_timer_run (k : session) (s : state) (r : res bool) (s' : state) :
  run_timer w k s = (r, s') ->
  match r with
  | Ret b =>
      b = true
      /\ markers (trace s') = (markers (trace s) + Z.to_nat (session_minutes k (self s)))%nat
  | Raise e =>
      In e ki
      \/ (e = PyException
          /\ exists n, completion_time (now w n) (session_minutes k (self s)) = None)
  end.
Proof.
  intro H. unfold run_timer, finish_timer in H.
  silent_step H (sleep_ok 2000).
  silent_step H (stop_timer_ok w ki Hki).
  silent_step H (sleep_ok 2000).
  plain_steps H.
  silent_step H (set_timer_duration_ok w ki Hki (session_minutes k (self s2))).
  plain_steps H.
  silent_step H (sleep_ok 1000).
  silent_step H (start_timer_ok w ki Hki).
  plain_steps H.
  rewrite bind_get_completion_time in H.
  rewrite warned_self in *.
  assert (Hself : self s5 = self s) by congruence.
  match type of H with
  | context [completion_time ?t (session_minutes k (self s5))] =>
      destruct (completion_time t (session_minutes k (self s5))) as [text |] eqn:Etime;
      [ | injection H as <- <-; right; split; [ reflexivity | ];
          rewrite Hself in Etime; eexists; exact Etime ]
  end.
  plain_steps H.
  rewrite bind_run in H.
  match type of H with
  | context [for_each ?l _ ?x] =>
      destruct (minute_loop_run l x) as (evs & r1 & s8 & Hrun & Hs8 & Ht8 & _ & Hr8)
  end.
  unfold minute in Hrun. rewrite Hrun in H.
  simpl in Ht8, Hs8, Hr8. rewrite warned_self in *.
  destruct r1 as [[] | e].
  - plain_steps H. injection H as <- <-. split; auto.
    simpl. rewrite !markers_cons, Ht8, markers_app, !markers_cons, warned_markers.
    simpl. rewrite Hr8, length_range.
    simpl. rewrite ?warned_self.
    replace (self s5) with (self s) by congruence.
    rewrite warned_markers in *. lia.
  - injection H as <- <-. tauto.
Qed.

End Sessions.

(** ** The main loop *)

Section Loop.

Variable w : world.
Variable ki : list exn.
Hypothesis Hki : interrupts_in w ki.

Lemma start_session_ok (k : session) :
  run_ok no_cleanup (may_raise (PyException :: ki)) (start_session w k).
Proof.
  rewrite start_session_eq. repeat run_ok_step w.
  - destruct k; apply run_ok_emit; reflexivity.
  - eapply run_ok_weaken;
      [ apply switch_tab_ok; eassumption | exact silent_no_cleanup | may_raise_incl ].
  - apply run_timer_ok; assumption.
Qed.

Lemma cycle_ok (n : Z) : run_ok no_cleanup (may_raise (PyException :: ki)) (cycle w n).
Proof.
  unfold cycle, cycle_header. repeat run_ok_step w.
  - apply (start_session_ok WorkSession).
  - apply (start_session_ok BreakSession).
Qed.

(** A session raises when Ctrl-C arrives, or when its completion time
    cannot be computed. *)
Lemma start_session_raises (k : session) (s : state) (e : exn) (s' : state) :
  start_session w k s = (Raise e, s') ->
  In e ki
  \/ (e = PyException
      /\ exists n, completion_time (now w n) (session_minutes k (self s)) = None).
Proof.
  intro H. rewrite start_session_eq, bind_log, bind_get_self, bind_run in H.
  destruct (switch_tab w (session_tab k (self (record (Log (session_banner k)) s)))
              (record (Log (session_banner k)) s)) as [r1 s1] eqn:E.
  destruct (run_ok_run _ _ _ (switch_tab_ok w ki Hki _) _ _ _ E) as (Hs1 & _ & Hr1).
  destruct r1 as [[|] | e1].
  - cbn [negb] in H. apply (run_timer_run w ki Hki) in H.
    rewrite Hs1, record_self in H. exact H.
  - discriminate H.
  - injection H as <- <-. left. apply Hr1. reflexivity.
Qed.

Lemma cycle_raises (n : Z) (s : state) (e : exn) (s' : state) :
  cycle w n s = (Raise e, s') ->
  In e ki \/ (e = PyException /\ overdue w (self s)).
Proof.
  intro H. unfold cycle in H. rewrite bind_run in H.
  change (cycle_header n s) with
    (Ret tt,
     record (Print (repeat_str "=" 60))
       (record (Log ("POMODORO CYCLE #" ++ str n))
          (record (Print (repeat_str "=" 60)) s))) in H.
  cbv beta iota in H.
  set (sh := record (Print (repeat_str "=" 60))
               (record (Log ("POMODORO CYCLE #" ++ str n))
                  (record (Print (repeat_str "=" 60)) s))) in H.
  assert (Hsh : self sh = self s) by reflexivity.
  clearbody sh.
  assert (Hsleep : forall t x e0 x',
             (log t ;; sleep w 5000) x = (Raise e0, x') -> In e0 ki).
  { intros t x e0 x' Hx. rewrite bind_log in Hx.
    destruct (run_ok_run _ _ _ (sleep_ok w ki Hki 5000) _ _ _ Hx) as (_ & _ & Hr).
    apply Hr. reflexivity. }
  rewrite bind_run in H.
  destruct (start_work_timer w sh) as [rw sw] eqn:Ew.
  destruct (run_ok_run _ _ _ (start_session_ok WorkSession) _ _ _ Ew) as (Hsw & _ & _).
  destruct rw as [[|] | e1].
  - cbn [negb] in H. rewrite bind_run in H.
    destruct (start_break_timer w sw) as [rb sb] eqn:Eb.
    destruct rb as [[|] | e2].
    + discriminate H.
    + left. exact (Hsleep _ _ _ _ H).
    + injection H as <- <-.
      destruct (start_session_raises BreakSession _ _ _ Eb) as [Hin | [He (m & Hm)]];
        [ left; exact Hin | right; split; [ exact He | ] ].
      exists m. right. cbn [session_minutes] in Hm. rewrite Hsw, Hsh in Hm. exact Hm.
  - left. exact (Hsleep _ _ _ _ H).
  - injection H as <- <-.
    destruct (start_session_raises WorkSession _ _ _ Ew) as [Hin | [He (m & Hm)]];
      [ left; exact Hin | right; split; [ exact He | ] ].
    exists m. left. cbn [session_minutes] in Hm. rewrite Hsh in Hm. exact Hm.
Qed.

(** However the loop is left, it is by an exception in [ki] or because a
    completion time cannot be computed; the object is as it was, and
    [cleanup] was not entered on the way. *)
Lemma while_true_run (fuel : nat) :
  forall n s e n' s',
    while_true w fuel n s = Some (e, n', s') ->
    self s' = self s
    /\ (exists evs, trace s' = (evs ++ trace s)%list /\ cleanups evs = 0%nat)
    /\ (In e ki \/ (e = PyException /\ overdue w (self s)))
    /\ n < n'.
Proof.
  induction fuel as [| fuel IH]; intros n s e n' s' H; simpl in H.
  - discriminate.
  - destruct (cycle w (n + 1) s) as [r s1] eqn:E.
    destruct (run_ok_run _ _ _ (cycle_ok (n + 1)) _ _ _ E) as (Hs & (evs & Ht & Hok) & Hr).
    destruct r as [[] | e1].
    + destruct (IH _ _ _ _ _ H) as (Hs' & (evs' & Ht' & Hc') & He & Hn).
      repeat split; [ congruence | | rewrite <- Hs; exact He | lia ].
      exists (evs' ++ evs)%list. split.
      * rewrite Ht', Ht, app_assoc. reflexivity.
      * rewrite cleanups_app, Hc', (no_cleanup_cleanups _ Hok). reflexivity.
    + injection H as <- <- <-.
      repeat split; [ assumption | | exact (cycle_raises _ _ _ _ E) | lia ].
      exists evs. split; auto using no_cleanup_cleanups.
Qed.

End Loop.

Lemma interrupts_in_any (w : world) : interrupts_in w [KeyboardInterrupt].
Proof. intros n c _. left; reflexivity. Qed.

Lemma interrupts_in_never (w : world) : never_interrupted w -> interrupts_in w [].
Proof. intros H n c E. exact (H n c E). Qed.

(** [cleanup] never lets anything out, whatever [driver.quit()] does. *)
Lemma cleanup_run (w : world) (s : state) :
  exists s',
    cleanup w s = (Ret tt, s')
    /\ self s' = self s
    /\ exists evs, trace s' = (evs ++ [Log "Cleaning up..."] ++ trace s)%list
                   /\ cleanups evs = 0%nat.
Proof.
  unfold cleanup, try_except.
  rewrite bind_log, bind_get_self. simpl self.
  destruct (driver (self s)); unfold when.
  - rewrite bind_run, bind_run. unfold perform. simpl clock.
    destruct (respond w (clock s) Quit); simpl;
      eexists; repeat split;
      try (exists [Log "Brave browser closed. Goodbye!"; Did Quit]; split; reflexivity);
      exists [Did Quit]; split; reflexivity.
  - rewrite bind_ret. simpl.
    eexists; repeat split.
    exists [Log "Brave browser closed. Goodbye!"]; split; reflexivity.
Qed.

(** ** Browser discovery *)

Section Discovery.

Variable w : world.

Lemma find_first (f : string -> bool) (l : list string) (x : string) :
  find f l = Some x <->
  exists before after,
    l = (before ++ x :: after)%list /\ f x = true /\ Forall (fun p => f p = false) before.
Proof.
  induction l as [| a l IH]; simpl.
  - split; [ discriminate | ].
    intros (before & after & H & _). destruct before; discriminate.
  - destruct (f a) eqn:Ea.
    + split.
      * intro H; injection H as <-. exists [], l. auto.
      * intros (before & after & H & Hx & Hb).
        destruct before as [| b before]; simpl in H; injection H as -> ->.
        -- reflexivity.
        -- inversion Hb; congruence.
    + rewrite IH. split.
      * intros (before & after & -> & Hx & Hb).
        exists (a :: before), after. auto.
      * intros (before & after & H & Hx & Hb).
        destruct before as [| b before]; simpl in H; injection H as -> ->.
        -- congruence.
        -- inversion Hb; subst. exists before, after. auto.
Qed.

Lemma find_nothing (f : string -> bool) (l : list string) :
  find f l = None <-> Forall (fun p => f p = false) l.
Proof.
  induction l as [| a l IH]; simpl.
  - split; auto.
  - destruct (f a) eqn:Ea.
    + split; [ discriminate | ]. intro H; inversion H; congruence.
    + rewrite IH. split; intro H; [ auto | inversion H; auto ].
Qed.

Lemma probe_run (paths : list string) (s : state) :
  probe w paths s =
  (Ret (find (path_exists w) paths),
   match find (path_exists w) paths with
   | Some path => record (Log ("Found Brave at: " ++ path)) s
   | None => s
   end).
Proof.
  induction paths as [| path rest IH]; simpl.
  - reflexivity.
  - destruct (path_exists w path).
    + reflexivity.
    + exact IH.
Qed.

Lemma for_each_print_run (f : string -> string) (l : list string) (s : state) :
  for_each l (fun p => print (f p)) s =
  (Ret tt,
   {| self := self s; clock := clock s;
      trace := (rev (map (fun p => Print (f p)) l) ++ trace s)%list |}).
Proof.
  revert s. induction l as [| x l IH]; intro s; simpl.
  - destruct s; reflexivity.
  - rewrite bind_print, IH. simpl. rewrite <- app_assoc. reflexivity.
Qed.

Lemma find_brave_path_run (s : state) :
  find_brave_path w s =
  (Ret (find (path_exists w) (possible_paths w)),
   match find (path_exists w) (possible_paths w) with
   | Some path => record (Log ("Found Brave at: " ++ path)) s
   | None =>
       {| self := self s; clock := clock s;
          trace := (rev (map (fun p => Print ("  - " ++ p)) (firstn 3 (possible_paths w)))
                      ++ [Log "Searched paths:";
                          Log "Brave browser not found in standard locations"]
                      ++ trace s)%list |}
   end).
Proof.
  unfold find_brave_path. rewrite bind_run, probe_run.
  destruct (find (path_exists w) (possible_paths w)).
  - reflexivity.
  - rewrite !bind_log, bind_run, for_each_print_run. reflexivity.
Qed.

(** C4.  [find_brave_path] probes the candidate list of the platform in
    order and returns the first path of that list that exists; it returns
    [None] exactly when no candidate exists.  It never raises. *)
Theorem find_brave_path_first_existing (s : state) :
  (forall path,
      fst (find_brave_path w s) = Ret (Some path) <->
      exists before after,
        possible_paths w = (before ++ path :: after)%list
        /\ path_exists w path = true
        /\ Forall (absent w) before)
  /\ (fst (find_brave_path w s) = Ret None <-> Forall (absent w) (possible_paths w))
  /\ (exists found, fst (find_brave_path w s) = Ret found).
Proof.
  rewrite find_brave_path_run. simpl. repeat split.
  - intro H. apply find_first. congruence.
  - intro H. apply find_first in H. congruence.
  - intro H. apply find_nothing. congruence.
  - intro H. apply find_nothing in H. congruence.
  - eauto.
Qed.

(** C5 (amended).  When no candidate exists, [find_brave_path] says so,
    prints the first three candidates of the list, in order, and returns
    [None]: the whole list only if it has at most three entries. *)
Theorem find_brave_path_reports_three (s : state) :
  Forall (absent w) (possible_paths w) ->
  exists s',
    find_brave_path w s = (Ret None, s')
    /\ output s' =
       (output s
          ++ [Log "Brave browser not found in standard locations";
              Log "Searched paths:"]
          ++ map (fun p => Print ("  - " ++ p)) (firstn 3 (possible_paths w)))%list
    /\ ((List.length (possible_paths w) <= 3)%nat ->
        firstn 3 (possible_paths w) = possible_paths w).
Proof.
  intro H. apply find_nothing in H.
  rewrite find_brave_path_run, H.
  eexists; repeat split.
  - unfold output; simpl. rewrite !rev_app_distr, rev_involutive. simpl.
    rewrite <- !app_assoc. reflexivity.
  - intro Hlen. apply firstn_all2. exact Hlen.
Qed.

End Discovery.

(** C4, on a machine with Brave in the fourth and seventh candidate places:
    the fourth is returned. *)
Lemma find_brave_path_first_existing_witness :
  fst (find_brave_path Stub_files.linux_two_braves (initial __init__))
  = Ret (Some "/usr/local/bin/brave").
Proof.
  apply (proj1 (find_brave_path_first_existing Stub_files.linux_two_braves (initial __init__))).
  exists ["/usr/bin/brave-browser"; "/usr/bin/brave"; "/usr/local/bin/brave-browser"],
         ["/opt/brave.com/brave/brave-browser"; "/opt/brave.com/brave/brave";
          "/snap/bin/brave"; "~/.local/bin/brave"; "~/.local/bin/brave-browser"].
  repeat split; repeat constructor.
Defined.

(** C5, as stated, fails on Linux: nine candidates are probed, and only the
    first three are reported before [None] is returned. *)
Lemma find_brave_path_reports_part_of_the_list :
  fst (find_brave_path Stub_files.linux_without_brave (initial __init__)) = Ret None
  /\ reported_paths
       (output (snd (find_brave_path Stub_files.linux_without_brave (initial __init__))))
     = ["/usr/bin/brave-browser"; "/usr/bin/brave"; "/usr/local/bin/brave-browser"]
  /\ possible_paths Stub_files.linux_without_brave
     = ["/usr/bin/brave-browser"; "/usr/bin/brave"; "/usr/local/bin/brave-browser";
        "/usr/local/bin/brave"; "/opt/brave.com/brave/brave-browser";
        "/opt/brave.com/brave/brave"; "/snap/bin/brave";
        "~/.local/bin/brave"; "~/.local/bin/brave-browser"]
  /\ reported_paths
       (output (snd (find_brave_path Stub_files.linux_without_brave (initial __init__))))
     <> possible_paths Stub_files.linux_without_brave.
Proof.
  repeat split; try reflexivity.
  vm_compute. discriminate.
Qed.

(** C5 (amended), on a Mac without Brave: both candidates are reported. *)
Lemma find_brave_path_reports_three_witness :
  exists s',
    find_brave_path Stub_files.mac_without_brave (initial __init__) = (Ret None, s')
    /\ output s' =
       [Log "Brave browser not found in standard locations";
        Log "Searched paths:";
        Print "  - /Applications/Brave Browser.app/Contents/MacOS/Brave Browser";
        Print "  - ~/Applications/Brave Browser.app/Contents/MacOS/Brave Browser"].
Proof.
  destruct (find_brave_path_reports_three Stub_files.mac_without_brave (initial __init__))
    as (s' & Hrun & Hout & _).
  - repeat constructor.
  - exists s'. split; [ exact Hrun | exact Hout ].
Defined.

(** ** What a session reports *)

Section Session_results.

Variable w : world.

(** A session function, by the outcome of its tab switch. *)
Lemma start_session_run (k : session) (s : state) :
  start_session w k s =
  match switch_tab w (session_tab k (self s)) (record (Log (session_banner k)) s) with
  | (Ret true, s1) => run_timer w k s1
  | (Ret false, s1) => (Ret false, s1)
  | (Raise e, s1) => (Raise e, s1)
  end.
Proof.
  rewrite start_session_eq, bind_log, bind_get_self, bind_run. simpl self.
  destruct (switch_tab w (session_tab k (self s)) (record (Log (session_banner k)) s))
    as [[[|] | e] s1]; reflexivity.
Qed.

Lemma session_result (k : session) (s : state) :
  (fst (start_session w k s) = Ret false <->
   fst (switch_tab w (session_tab k (self s)) (record (Log (session_banner k)) s))
   = Ret false)
  /\ (fst (switch_tab w (session_tab k (self s)) (record (Log (session_banner k)) s))
      = Ret true ->
      (fst (start_session w k s) = Ret true
       \/ fst (start_session w k s) = Raise KeyboardInterrupt
       \/ (fst (start_session w k s) = Raise PyException
           /\ exists n, completion_time (now w n) (session_minutes k (self s)) = None))
      /\ (never_interrupted w -> in_time w (session_minutes k (self s)) ->
          fst (start_session w k s) = Ret true)).
Proof.
  rewrite start_session_run.
  destruct (switch_tab w (session_tab k (self s)) (record (Log (session_banner k)) s))
    as [[[|] | e] s1] eqn:Eswitch; simpl.
  - destruct (run_ok_run _ _ _ (switch_tab_ok w _ (interrupts_in_any w) _) _ _ _ Eswitch)
      as (Hs1 & _ & _).
    rewrite record_self in Hs1.
    destruct (run_timer w k s1) as [r s'] eqn:E. simpl.
    pose proof (run_timer_run w _ (interrupts_in_any w) k s1 r s' E) as Hany.
    rewrite Hs1 in Hany.
    repeat split.
    + intros ->. destruct Hany; discriminate.
    + discriminate.
    + destruct r as [b | e]; [ left; destruct Hany; congruence | right ].
      destruct Hany as [[<- | []] | [-> Hn]]; [ left; reflexivity | right; auto ].
    + intros Hnever Htime.
      pose proof (run_timer_run w _ (interrupts_in_never w Hnever) k s1 r s' E) as Hnone.
      rewrite Hs1 in Hnone.
      destruct r as [b | e]; [ destruct Hnone; congruence | ].
      destruct Hnone as [[] | [_ (n & Hn)]]. destruct (Htime n Hn).
  - repeat split; auto; discriminate.
  - repeat split; try discriminate.
Qed.

(** C10 (amended).  A session function returns [False] exactly when its
    tab switch returned [False]: whatever [stop_timer],
    [set_timer_duration] and [start_timer] do, they never make the session
    report failure.  When the switch succeeds the session returns [True],
    unless it is cut short and raises instead of returning: by Ctrl-C
    (KeyboardInterrupt), or because its completion time cannot be computed
    (the OverflowError of [get_completion_time]). *)
Theorem session_fails_only_when_switch_fails (s : state) :
  (fst (start_work_timer w s) = Ret false <->
   fst (switch_tab w (work_tab (self s))
          (record (Log "====== WORK SESSION STARTING ======") s)) = Ret false)
  /\ (fst (start_break_timer w s) = Ret false <->
      fst (switch_tab w (break_tab (self s))
             (record (Log "====== BREAK SESSION STARTING ======") s)) = Ret false)
  /\ (fst (switch_tab w (work_tab (self s))
             (record (Log "====== WORK SESSION STARTING ======") s)) = Ret true ->
      (fst (start_work_timer w s) = Ret true
       \/ fst (start_work_timer w s) = Raise KeyboardInterrupt
       \/ (fst (start_work_timer w s) = Raise PyException
           /\ exists n, completion_time (now w n) (work_duration (self s)) = None))
      /\ (never_interrupted w -> in_time w (work_duration (self s)) ->
          fst (start_work_timer w s) = Ret true))
  /\ (fst (switch_tab w (break_tab (self s))
             (record (Log "====== BREAK SESSION STARTING ======") s)) = Ret true ->
      (fst (start_break_timer w s) = Ret true
       \/ fst (start_break_timer w s) = Raise KeyboardInterrupt
       \/ (fst (start_break_timer w s) = Raise PyException
           /\ exists n, completion_time (now w n) (break_duration (self s)) = None))
      /\ (never_interrupted w -> in_time w (break_duration (self s)) ->
          fst (start_break_timer w s) = Ret true)).
Proof.
  destruct (session_result WorkSession s) as [Hw1 Hw2].
  destruct (session_result BreakSession s) as [Hb1 Hb2].
  split; [ exact Hw1 | ]. split; [ exact Hb1 | ]. split; [ exact Hw2 | exact Hb2 ].
Qed.

Lemma session_markers (k : session) (s : state) (b : bool) (s' : state) :
  start_session w k s = (Ret b, s') ->
  exists evs,
    trace s' = (evs ++ trace s)%list
    /\ markers evs = if b then Z.to_nat (session_minutes k (self s)) else 0%nat.
Proof.
  intro H.
  destruct (run_ok_run _ _ _ (start_session_ok w _ (interrupts_in_any w) k) _ _ _ H)
    as (_ & (evs & Ht & _) & _).
  exists evs. split; [ exact Ht | ].
  assert (Hm : markers (trace s')
               = (markers (trace s)
                  + if b then Z.to_nat (session_minutes k (self s)) else 0)%nat).
  { rewrite start_session_run in H.
    destruct (switch_tab w (session_tab k (self s)) (record (Log (session_banner k)) s))
      as [r1 s1] eqn:E.
    destruct (run_ok_silent_run _ _ (switch_tab_ok w _ (interrupts_in_any w) _) _ _ _ E)
      as (Hs1 & Hm1 & _).
    rewrite record_self in Hs1. rewrite record_trace, markers_cons in Hm1. simpl in Hm1.
    destruct r1 as [[|] | e].
    - apply (run_timer_run w _ (interrupts_in_any w)) in H. destruct H as [-> H].
      rewrite H, Hm1, Hs1. reflexivity.
    - injection H as <- <-. rewrite Hm1. lia.
    - discriminate. }
  rewrite Ht, markers_app in Hm. lia.
Qed.

(** C3 (amended).  A session that returns [True] has printed exactly one
    progress marker per configured minute; a session that returns [False]
    (its tab switch failed) has printed none. *)
Theorem session_emits_one_marker_per_minute (s s' : state) :
  (start_work_timer w s = (Ret true, s') ->
   0 <= work_duration (self s) ->
   exists evs, trace s' = (evs ++ trace s)%list
               /\ Z.of_nat (markers evs) = work_duration (self s))
  /\ (start_break_timer w s = (Ret true, s') ->
      0 <= break_duration (self s) ->
      exists evs, trace s' = (evs ++ trace s)%list
                  /\ Z.of_nat (markers evs) = break_duration (self s))
  /\ (start_work_timer w s = (Ret false, s') \/ start_break_timer w s = (Ret false, s') ->
      exists evs, trace s' = (evs ++ trace s)%list /\ markers evs = 0%nat).
Proof.
  repeat split.
  - intros H Hd. destruct (session_markers WorkSession s true s' H) as (evs & Ht & Hm).
    exists evs. split; [ exact Ht | ]. rewrite Hm. simpl. lia.
  - intros H Hd. destruct (session_markers BreakSession s true s' H) as (evs & Ht & Hm).
    exists evs. split; [ exact Ht | ]. rewrite Hm. simpl. lia.
  - intros [H | H].
    + exact (session_markers WorkSession s false s' H).
    + exact (session_markers BreakSession s false s' H).
Qed.

End Session_results.

(** C3, as stated, fails: with 25 minutes configured, a work session whose
    tab cannot be switched to returns without a single marker. *)
Lemma failed_session_emits_no_marker :
  work_duration (self (initial (Stub.ready 25 5))) = 25
  /\ fst (start_work_timer Stub_driver.tabs_gone (initial (Stub.ready 25 5))) = Ret false
  /\ markers (output (snd (start_work_timer Stub_driver.tabs_gone (initial (Stub.ready 25 5)))))
     = 0%nat.
Proof. vm_compute. repeat split. Qed.

(** C3 (amended), on a driver that obeys: 3 and 2 markers for sessions of
    3 and 2 minutes. *)
Lemma session_emits_one_marker_per_minute_witness :
  (exists evs,
      trace (snd (start_work_timer Stub.linux (initial (Stub.ready 3 2)))) = (evs ++ [])%list
      /\ Z.of_nat (markers evs) = 3)
  /\ (exists evs,
         trace (snd (start_break_timer Stub.linux (initial (Stub.ready 3 2)))) = (evs ++ [])%list
         /\ Z.of_nat (markers evs) = 2).
Proof.
  split.
  - apply (proj1 (session_emits_one_marker_per_minute Stub.linux (initial (Stub.ready 3 2))
                    (snd (start_work_timer Stub.linux (initial (Stub.ready 3 2)))))).
    + vm_compute. reflexivity.
    + vm_compute. discriminate.
  - apply (proj1 (proj2 (session_emits_one_marker_per_minute Stub.linux (initial (Stub.ready 3 2))
                    (snd (start_break_timer Stub.linux (initial (Stub.ready 3 2))))))).
    + vm_compute. reflexivity.
    + vm_compute. discriminate.
Defined.

(** C10, as stated, fails: the tab switch succeeds, and yet the session
    does not return [True].  With Ctrl-C in the first minute it raises
    KeyboardInterrupt; with 10^10 minutes configured it raises the
    OverflowError of [get_completion_time]. *)
Lemma session_cut_short_after_the_switch :
  (fst (switch_tab Stub_loop.ctrl_c_in_first_minute (Some "tab-A")
          (record (Log "====== WORK SESSION STARTING ======") (initial (Stub.ready 25 5))))
   = Ret true
   /\ fst (start_work_timer Stub_loop.ctrl_c_in_first_minute (initial (Stub.ready 25 5)))
      = Raise KeyboardInterrupt)
  /\ (fst (switch_tab Stub.linux (Some "tab-A")
             (record (Log "====== WORK SESSION STARTING ======")
                (initial (Stub.ready 10000000000 5))))
      = Ret true
      /\ fst (start_work_timer Stub.linux (initial (Stub.ready 10000000000 5)))
         = Raise PyException).
Proof. vm_compute. repeat split. Qed.

(** C10 (amended), on a driver that raises on everything after the tab
    switch: the work session still returns [True]. *)
Lemma session_fails_only_when_switch_fails_witness :
  fst (start_work_timer Stub_driver.only_switches (initial (Stub.ready 2 1))) = Ret true.
Proof.
  apply (proj2 (proj2 (session_fails_only_when_switch_fails
                         Stub_driver.only_switches (initial (Stub.ready 2 1))))).
  - vm_compute. reflexivity.
  - intros n c. destruct c; discriminate.
  - intro n. vm_compute. discriminate.
Defined.

(** ** Optimistic continuation *)

Lemma markers_rev (evs : list event) : markers (rev evs) = markers evs.
Proof. unfold markers. rewrite filter_rev, length_rev. reflexivity. Qed.

Section Continuation.

Variable w : world.

Lemma sleep_run (ms : Z) (s : state) :
  respond w (clock s) (Sleep ms) <> Interrupt ->
  sleep w ms s = (Ret tt, tick (Sleep ms) s).
Proof.
  intro H. unfold sleep. destruct (respond w (clock s) (Sleep ms)); congruence.
Qed.

Lemma on_driver_run (c : call) (s : state) :
  driver (self s) = true ->
  on_driver w c s =
  (match respond w (clock s) c with
   | Ok => Ret (clock s)
   | Error => Raise PyException
   | Interrupt => Raise KeyboardInterrupt
   end, tick c s).
Proof.
  intro H. unfold on_driver. rewrite bind_get_self, H. unfold perform.
  destruct (respond w (clock s) c); reflexivity.
Qed.

Lemma click_first_start_none (btns : list button) :
  (forall btn, In btn btns -> says_start btn = true -> disabled btn = true) ->
  click_first_start btns = false.
Proof.
  induction btns as [| btn rest IH]; simpl; intro H; auto.
  destruct (says_start btn) eqn:E.
  - rewrite (H btn (or_introl eq_refl) E). simpl. auto.
  - auto.
Qed.

(** The XPath chain when no selector finds a clickable element. *)
Lemma try_selectors_none (sels : list string) :
  (forall n sel, respond w n (WaitClickable sel) <> Ok) ->
  forall s,
    driver (self s) = true ->
    try_selectors w sels s =
    (Ret false,
     {| self := self s; clock := (List.length sels + clock s)%nat;
        trace := (rev (map (fun sel => Did (WaitClickable sel)) sels) ++ trace s)%list |}).
Proof.
  intro Hnone. induction sels as [| sel rest IH]; intros s Hd; simpl.
  - destruct s; reflexivity.
  - rewrite bind_run. unfold try_except. rewrite bind_run, (on_driver_run _ _ Hd).
    specialize (Hnone (clock s) sel).
    destruct (respond w (clock s) (WaitClickable sel)); try congruence;
      change (try_selectors w rest (tick (WaitClickable sel) s) =
              (Ret false,
               {| self := self s; clock := S (List.length rest + clock s);
                  trace := ((rev (map (fun sel0 => Did (WaitClickable sel0)) rest)
                               ++ [Did (WaitClickable sel)]) ++ trace s)%list |}));
      rewrite IH by exact Hd;
      simpl; rewrite <- app_assoc, Nat.add_succ_r; reflexivity.
Qed.

(** C7.  On a page where no enabled button or input says "start" and no
    XPath of the fallback chain finds a clickable element, [start_timer]
    returns [True]; unless the page defines [startTimer] or [start], it
    does so after trying the four selectors and logging that the start
    button could not be found. *)
Theorem start_timer_continues_without_start_control (s : state) :
  driver (self s) = true ->
  (forall n, respond w n (Sleep 1000) <> Interrupt) ->
  (forall n, respond w n (ExecuteScript ClickStartScript) = Ok) ->
  (forall n btn, In btn (buttons (page w n)) -> says_start btn = true -> disabled btn = true) ->
  (forall n sel, respond w n (WaitClickable sel) <> Ok) ->
  exists s',
    start_timer w s = (Ret true, s')
    /\ (has_startTimer (page w (S (clock s))) = false ->
        has_start (page w (S (clock s))) = false ->
        output s' =
        (output s
           ++ [Did (Sleep 1000); Did (ExecuteScript ClickStartScript)]
           ++ map (fun sel => Did (WaitClickable sel)) selectors
           ++ [Log "Could not find start button, timer may already be running"])%list).
Proof.
  intros Hd Hsleep Hscript Hbtn Hwait.
  unfold start_timer, try_except_Exception.
  rewrite bind_run, (sleep_run _ _ (Hsleep _)).
  rewrite bind_run, on_driver_run by exact Hd.
  simpl clock. rewrite Hscript.
  unfold start_script. rewrite (click_first_start_none _ (Hbtn (S (clock s)))).
  destruct (has_startTimer (page w (S (clock s)))) eqn:E1;
    [ | destruct (has_start (page w (S (clock s)))) eqn:E2 ].
  - rewrite bind_log. eexists; split; [ reflexivity | discriminate ].
  - rewrite bind_log. eexists; split; [ reflexivity | discriminate ].
  - rewrite bind_run, (try_selectors_none _ Hwait) by exact Hd.
    rewrite bind_log. eexists; split; [ reflexivity | ].
    intros _ _. unfold output. simpl. rewrite <- !app_assoc. reflexivity.
Qed.

End Continuation.

Section Obedient_switch.

Variable w : world.
Hypothesis Hnever : never_interrupted w.
Hypothesis Hswitch : forall n h, respond w n (SwitchToWindow h) = Ok.

Lemma switch_tab_run (h : option handle) (s : state) :
  driver (self s) = true ->
  switch_tab w h s = (Ret true, tick (Sleep 1500) (tick (SwitchToWindow h) s)).
Proof.
  intro Hd. unfold switch_tab, try_except_Exception.
  rewrite bind_run, on_driver_run, Hswitch by exact Hd.
  rewrite bind_run, (sleep_run _ _ _ (Hnever _ _)). reflexivity.
Qed.

End Obedient_switch.

(** C7, on a page without buttons and a driver whose XPath waits time out. *)
Lemma start_timer_continues_without_start_control_witness :
  exists s',
    start_timer Stub_driver.no_start_button (initial (Stub.ready 2 1)) = (Ret true, s')
    /\ output s' =
       [Did (Sleep 1000); Did (ExecuteScript ClickStartScript);
        Did (WaitClickable "//button[contains(translate(text(), 'START', 'start'), 'start')]");
        Did (WaitClickable
               "//input[@type='button' and contains(translate(@value, 'START', 'start'), 'start')]");
        Did (WaitClickable "//button[contains(@class, 'start')]");
        Did (WaitClickable "//button[contains(@id, 'start')]");
        Log "Could not find start button, timer may already be running"].
Proof.
  destruct (start_timer_continues_without_start_control
              Stub_driver.no_start_button (initial (Stub.ready 2 1)))
    as (s' & Hrun & Hout).
  - reflexivity.
  - discriminate.
  - reflexivity.
  - intros n btn [].
  - discriminate.
  - exists s'. split; [ exact Hrun | ]. apply Hout; reflexivity.
Defined.

(** ** The loop, its counter and its end *)

Lemma since_app (s s' : state) (evs : list event) :
  trace s' = (evs ++ trace s)%list -> since s s' = rev evs.
Proof.
  intro H. unfold since, output. rewrite H, rev_app_distr.
  rewrite <- (length_rev (trace s)), skipn_app, Nat.sub_diag, skipn_all. reflexivity.
Qed.

Section Loop_results.

Variable w : world.

Lemma cycle_header_run (n : Z) (s : state) :
  cycle_header n s =
  (Ret tt,
   record (Print (repeat_str "=" 60))
     (record (Log ("POMODORO CYCLE #" ++ str n))
        (record (Print (repeat_str "=" 60)) s))).
Proof. reflexivity. Qed.

(** Every iteration begins with a work session. *)
Lemma cycle_begins_with_work (n : Z) (s : state) :
  first_session (since s (snd (cycle w n s))) = Some WorkSession.
Proof.
  unfold cycle. rewrite bind_run, cycle_header_run, bind_run.
  change (start_work_timer w) with (start_session w WorkSession).
  rewrite start_session_eq, bind_log.
  set (s0 := record (Log (session_banner WorkSession))
               (record (Print (repeat_str "=" 60))
                  (record (Log ("POMODORO CYCLE #" ++ str n))
                     (record (Print (repeat_str "=" 60)) s)))).
  set (work := p <- get_self ;;
               switched <- switch_tab w (session_tab WorkSession p) ;;
               if negb switched then ret false else run_timer w WorkSession).
  set (rest := fun r : res bool * state =>
                 let (r0, s') := r in
                 match r0 with
                 | Ret a =>
                     (if negb a
                      then log "Error in work timer, retrying..." ;; sleep w 5000
                      else
                        rested <- start_break_timer w ;;
                        if negb rested
                        then log "Error in break timer, retrying..." ;; sleep w 5000
                        else log ("Cycle #" ++ str n ++ " completed successfully!")) s'
                 | Raise e => (Raise e, s')
                 end).
  change (first_session (since s (snd (rest (work s0)))) = Some WorkSession).
  assert (Hwork : run_ok no_cleanup (may_raise [PyException; KeyboardInterrupt]) work).
  { unfold work. pose proof (interrupts_in_any w) as Hki. repeat run_ok_step w.
    - eapply run_ok_weaken;
        [ apply switch_tab_ok; eassumption | exact silent_no_cleanup | may_raise_incl ].
    - apply run_timer_ok; assumption. }
  assert (Hrest : forall b, run_ok no_cleanup (may_raise [PyException; KeyboardInterrupt])
                              (if negb b
                               then log "Error in work timer, retrying..." ;; sleep w 5000
                               else
                                 rested <- start_break_timer w ;;
                                 if negb rested
                                 then log "Error in break timer, retrying..." ;; sleep w 5000
                                 else log ("Cycle #" ++ str n ++ " completed successfully!"))).
  { intro b. pose proof (interrupts_in_any w) as Hki. repeat run_ok_step w.
    apply (start_session_ok w _ Hki BreakSession). }
  destruct (Hwork s0) as (_ & (evs1 & Ht1 & _) & _).
  assert (Hall : exists evs, trace (snd (rest (work s0))) = (evs ++ trace s0)%list).
  { unfold rest. destruct (work s0) as [[b | e] s1]; simpl in *.
    - destruct (Hrest b s1) as (_ & (evs2 & Ht2 & _) & _).
      exists (evs2 ++ evs1)%list. rewrite Ht2, Ht1, app_assoc. reflexivity.
    - exists evs1. exact Ht1. }
  destruct Hall as (evs & Hall).
  rewrite (since_app s _ (evs ++ [Log (session_banner WorkSession);
                                  Print (repeat_str "=" 60);
                                  Log ("POMODORO CYCLE #" ++ str n);
                                  Print (repeat_str "=" 60)])).
  - rewrite rev_app_distr. reflexivity.
  - rewrite Hall, <- app_assoc. reflexivity.
Qed.

(** A failed session ends the iteration after the error line and the
    back-off; the loop then goes on with the next iteration. *)
Lemma cycle_after_failure (n : Z) (s : state) (k : session) (s1 : state) :
  (k = WorkSession
   /\ start_work_timer w (snd (cycle_header n s)) = (Ret false, s1))
  \/ (k = BreakSession
      /\ exists sw, start_work_timer w (snd (cycle_header n s)) = (Ret true, sw)
                    /\ start_break_timer w sw = (Ret false, s1)) ->
  respond w (clock s1) (Sleep 5000) <> Interrupt ->
  cycle w n s = (Ret tt, tick (Sleep 5000) (record (Log (retry_message k)) s1)).
Proof.
  intros H Hsleep. unfold cycle.
  rewrite bind_run, cycle_header_run. rewrite cycle_header_run in H. cbn [snd] in H.
  destruct H as [[-> H] | [-> (sw & Hw & Hb)]].
  - rewrite bind_run, H. cbn [negb].
    rewrite bind_log. apply sleep_run. exact Hsleep.
  - rewrite bind_run, Hw. cbn [negb].
    rewrite bind_run, Hb. cbn [negb].
    rewrite bind_log. apply sleep_run. exact Hsleep.
Qed.

End Loop_results.

(** C2 (amended).  When the work or the break session of an iteration
    returns failure, the loop logs the error, waits the 5 s back-off and
    goes to the next iteration, keeping nothing of the failed attempt but
    the counter; that iteration begins with a work session, whichever of
    the two sessions had failed. *)
Theorem failed_session_restarts_the_cycle
        (w : world) (n : Z) (s : state) (k : session) (s1 : state) :
  (k = WorkSession
   /\ start_work_timer w (snd (cycle_header n s)) = (Ret false, s1))
  \/ (k = BreakSession
      /\ exists sw, start_work_timer w (snd (cycle_header n s)) = (Ret true, sw)
                    /\ start_break_timer w sw = (Ret false, s1)) ->
  respond w (clock s1) (Sleep 5000) <> Interrupt ->
  exists s2,
    cycle w n s = (Ret tt, s2)
    /\ trace s2 = Did (Sleep 5000) :: Log (retry_message k) :: trace s1
    /\ (forall fuel, while_true w (S fuel) (n - 1) s = while_true w fuel n s2)
    /\ first_session (since s2 (snd (cycle w (n + 1) s2))) = Some WorkSession.
Proof.
  intros H Hsleep.
  pose proof (cycle_after_failure w n s k s1 H Hsleep) as Hcycle.
  eexists. split; [ exact Hcycle | ]. split; [ reflexivity | ]. split.
  - intro fuel. simpl. replace (n - 1 + 1) with n by lia. rewrite Hcycle. reflexivity.
  - apply cycle_begins_with_work.
Qed.

(** C2, as stated, fails: after a failed break session the session that is
    started next is a work session, not the break session again. *)
Lemma failed_break_is_followed_by_work :
  fst (cycle Stub_driver.break_tab_gone 1 (initial (Stub.ready 1 1))) = Ret tt
  /\ failed_session
       (output (snd (cycle Stub_driver.break_tab_gone 1 (initial (Stub.ready 1 1)))))
     = Some BreakSession
  /\ first_session
       (since (snd (cycle Stub_driver.break_tab_gone 1 (initial (Stub.ready 1 1))))
          (snd (cycle Stub_driver.break_tab_gone 2
                  (snd (cycle Stub_driver.break_tab_gone 1 (initial (Stub.ready 1 1)))))))
     = Some WorkSession
  /\ Some WorkSession <> Some BreakSession.
Proof. vm_compute. repeat split. discriminate. Qed.

(** C2 (amended), on the driver that cannot switch to the break tab. *)
Lemma failed_session_restarts_the_cycle_witness :
  exists s2,
    cycle Stub_driver.break_tab_gone 1 (initial (Stub.ready 1 1)) = (Ret tt, s2)
    /\ hd_error (trace s2) = Some (Did (Sleep 5000))
    /\ first_session (since s2 (snd (cycle Stub_driver.break_tab_gone 2 s2)))
       = Some WorkSession.
Proof.
  destruct (failed_session_restarts_the_cycle
              Stub_driver.break_tab_gone 1 (initial (Stub.ready 1 1)) BreakSession
              (snd (start_break_timer Stub_driver.break_tab_gone
                      (snd (start_work_timer Stub_driver.break_tab_gone
                              (snd (cycle_header 1 (initial (Stub.ready 1 1)))))))))
    as (s2 & Hrun & Ht & _ & Hnext).
  - right. split; [ reflexivity | ].
    exists (snd (start_work_timer Stub_driver.break_tab_gone
                   (snd (cycle_header 1 (initial (Stub.ready 1 1)))))).
    split; vm_compute; reflexivity.
  - vm_compute. discriminate.
  - exists s2. split; [ exact Hrun | ]. split; [ rewrite Ht; reflexivity | exact Hnext ].
Defined.

Section Shutdown.

Variable w : world.

Lemma main_loop_banner_run (s : state) :
  main_loop_banner s =
  (Ret tt,
   record (Log "Press Ctrl+C to stop")
     (record (Log ("Work: " ++ str (work_duration (self s)) ++ " min | Break: "
                     ++ str (break_duration (self s)) ++ " min"))
        (record (Log ("Browser: " ++ browser_type))
           (record (Log "Starting Pomodoro automation loop...") s)))).
Proof. reflexivity. Qed.

(** However the loop is left, [main_loop] returns, having entered
    [cleanup] once. *)
Lemma main_loop_run (fuel : nat) (s : state) (e : exn) (n : Z) (s1 : state) :
  while_true w fuel 0 (snd (main_loop_banner s)) = Some (e, n, s1) ->
  exists s2 evs,
    main_loop w fuel s = Some (Ret tt, s2)
    /\ trace s2 = (evs ++ trace s)%list
    /\ cleanups evs = 1%nat.
Proof.
  intro H. unfold main_loop.
  rewrite main_loop_banner_run in *. cbn [snd] in H. rewrite H.
  destruct (while_true_run w _ (interrupts_in_any w) _ _ _ _ _ _ H)
    as (_ & (evs1 & Ht1 & Hc1) & He & _).
  destruct He as [[<- | []] | [-> _]].
  - rewrite bind_log. unfold log at 1, emit at 1.
    match goal with
    | |- context [cleanup w ?x] =>
        destruct (cleanup_run w x) as (s3 & Hc & _ & evs3 & Ht3 & Hc3)
    end.
    rewrite Hc. exists s3.
    exists (evs3 ++ [Log "Cleaning up..."; Log ("Total sessions completed: " ++ str n);
                     Log "Pomodoro automation stopped by user"]
              ++ evs1
              ++ [Log "Press Ctrl+C to stop";
                  Log ("Work: " ++ str (work_duration (self s)) ++ " min | Break: "
                         ++ str (break_duration (self s)) ++ " min");
                  Log ("Browser: " ++ browser_type);
                  Log "Starting Pomodoro automation loop..."])%list.
    split; [ reflexivity | ]. split.
    + rewrite Ht3. cbn [trace record app]. rewrite Ht1. cbn [trace record app].
      repeat (rewrite <- app_assoc; cbn [app]). reflexivity.
    + rewrite !cleanups_app, Hc3, Hc1. reflexivity.
  - unfold log at 1, emit at 1.
    match goal with
    | |- context [cleanup w ?x] =>
        destruct (cleanup_run w x) as (s3 & Hc & _ & evs3 & Ht3 & Hc3)
    end.
    rewrite Hc. exists s3.
    exists (evs3 ++ [Log "Cleaning up..."; Log "Unexpected error: "]
              ++ evs1
              ++ [Log "Press Ctrl+C to stop";
                  Log ("Work: " ++ str (work_duration (self s)) ++ " min | Break: "
                         ++ str (break_duration (self s)) ++ " min");
                  Log ("Browser: " ++ browser_type);
                  Log "Starting Pomodoro automation loop..."])%list.
    split; [ reflexivity | ]. split.
    + rewrite Ht3. cbn [trace record app]. rewrite Ht1. cbn [trace record app].
      repeat (rewrite <- app_assoc; cbn [app]). reflexivity.
    + rewrite !cleanups_app, Hc3, Hc1. reflexivity.
Qed.

End Shutdown.

(** C1, on the code: with a work tab that cannot be switched to, two
    iterations fail without a single session running, and the counter the
    loop reports on Ctrl-C as the sessions completed is 2. *)
Theorem failed_iterations_are_counted :
  option_map (fun r => (fst r, output (snd r)))
    (main_loop Stub_loop.work_tab_gone_then_ctrl_c 2 (initial (Stub.ready 25 5)))
  = Some
      (Ret tt,
       [Log "Starting Pomodoro automation loop...";
        Log "Browser: Brave";
        Log "Work: 25 min | Break: 5 min";
        Log "Press Ctrl+C to stop";
        Print "============================================================";
        Log "POMODORO CYCLE #1";
        Print "============================================================";
        Log "====== WORK SESSION STARTING ======";
        Did (SwitchToWindow (Some "tab-A"));
        Log "Error switching tabs: ";
        Log "Error in work timer, retrying...";
        Did (Sleep 5000);
        Print "============================================================";
        Log "POMODORO CYCLE #2";
        Print "============================================================";
        Log "====== WORK SESSION STARTING ======";
        Did (SwitchToWindow (Some "tab-A"));
        Log "Error switching tabs: ";
        Log "Error in work timer, retrying...";
        Did (Sleep 5000);
        Log "Pomodoro automation stopped by user";
        Log "Total sessions completed: 2";
        Log "Cleaning up...";
        Did Quit;
        Log "Brave browser closed. Goodbye!"]).
Proof. vm_compute. reflexivity. Qed.

(** ** Exit codes *)

Section Exit.

Variable w : world.
Variable fuel : nat.

Lemma main_run :
  packages_installed w = true ->
  main w fuel =
  match run_setup w (initial __init__) with
  | (Ret _, s) => main_loop w fuel s
  | (Raise PyException, s) => Some (Raise (SystemExit 1), record (Print "Fatal error: ") s)
  | (Raise e, s) => Some (Raise e, s)
  end.
Proof.
  intro Hpk. unfold main, main_try, check_packages, run. rewrite Hpk.
  unfold ret at 1.
  destruct (run_setup w (initial __init__)) as [[[] | [| | code]] s]; try reflexivity.
  destruct (main_loop w fuel s) as [[[[] | [| | code]] s'] |] eqn:E; try reflexivity.
  exfalso.
  unfold main_loop in E. rewrite main_loop_banner_run in E.
  destruct (while_true w fuel 0 _) as [[[e n] s1] |] eqn:Hloop; [ | discriminate ].
  destruct (while_true_run w _ (interrupts_in_any w) _ _ _ _ _ _ Hloop)
    as (_ & _ & [[<- | []] | [-> _]] & _).
  - rewrite bind_log in E. unfold log at 1, emit at 1 in E.
    match type of E with
    | context [cleanup w ?x] => destruct (cleanup_run w x) as (s3 & Hc & _)
    end.
    rewrite Hc in E. discriminate.
  - unfold log at 1, emit at 1 in E.
    match type of E with
    | context [cleanup w ?x] => destruct (cleanup_run w x) as (s3 & Hc & _)
    end.
    rewrite Hc in E. discriminate.
Qed.

Lemma run_setup_without_browser (s1 : state) :
  setup_browser w (snd (run_banner (initial __init__))) = (Ret false, s1) ->
  exists s, run_setup w (initial __init__) = (Raise (SystemExit 1), s).
Proof.
  intro H. unfold run_setup. rewrite bind_run.
  change (run_banner (initial __init__))
    with (Ret tt, snd (run_banner (initial __init__))).
  cbv iota beta. rewrite bind_run, H. cbn [negb].
  rewrite !bind_print. eexists. reflexivity.
Qed.

Lemma run_setup_without_tabs (s1 s2 : state) :
  setup_browser w (snd (run_banner (initial __init__))) = (Ret true, s1) ->
  setup_tabs w s1 = (Ret false, s2) ->
  exists s, run_setup w (initial __init__) = (Raise (SystemExit 1), s).
Proof.
  intros Hb Ht. unfold run_setup. rewrite bind_run.
  change (run_banner (initial __init__))
    with (Ret tt, snd (run_banner (initial __init__))).
  cbv iota beta. rewrite bind_run, Hb. cbn [negb].
  rewrite bind_run, Ht. cbn [negb].
  rewrite bind_print, bind_run.
  match goal with
  | |- context [cleanup w ?x] => destruct (cleanup_run w x) as (s3 & Hc & _)
  end.
  rewrite Hc. eexists. reflexivity.
Qed.

Lemma run_setup_done (s1 s2 : state) :
  setup_browser w (snd (run_banner (initial __init__))) = (Ret true, s1) ->
  setup_tabs w s1 = (Ret true, s2) ->
  run_setup w (initial __init__) = (Ret tt, s2).
Proof.
  intros Hb Ht. unfold run_setup. rewrite bind_run.
  change (run_banner (initial __init__))
    with (Ret tt, snd (run_banner (initial __init__))).
  cbv iota beta. rewrite bind_run, Hb. cbn [negb].
  rewrite bind_run, Ht. reflexivity.
Qed.

(** C8.  The process ends with status 1 when the required packages are
    missing, when the browser cannot be set up and when the tabs cannot
    be set up; with status 1 when an ordinary exception reaches the
    handler of [main]; and with status 0, after one [cleanup], when the
    loop is left by Ctrl-C. *)
Theorem exit_codes :
  (packages_installed w = false -> exit_code (main w fuel) = Some 1)
  /\ (packages_installed w = true ->
      (forall s1,
          setup_browser w (snd (run_banner (initial __init__))) = (Ret false, s1) ->
          exit_code (main w fuel) = Some 1)
      /\ (forall s1 s2,
             setup_browser w (snd (run_banner (initial __init__))) = (Ret true, s1) ->
             setup_tabs w s1 = (Ret false, s2) ->
             exit_code (main w fuel) = Some 1)
      /\ (forall s1 s2 n s3,
             setup_browser w (snd (run_banner (initial __init__))) = (Ret true, s1) ->
             setup_tabs w s1 = (Ret true, s2) ->
             while_true w fuel 0 (snd (main_loop_banner s2))
             = Some (KeyboardInterrupt, n, s3) ->
             exit_code (main w fuel) = Some 0
             /\ exists s4 evs,
                 main w fuel = Some (Ret tt, s4)
                 /\ trace s4 = (evs ++ trace s2)%list
                 /\ cleanups evs = 1%nat))
  /\ (forall body s s',
         body s = Some (Raise PyException, s') ->
         exit_code (main_try body s) = Some 1).
Proof.
  split; [ | split ].
  - intro Hpk. unfold main, main_try, check_packages. rewrite Hpk. reflexivity.
  - intro Hpk. rewrite (main_run Hpk). split; [ | split ].
    + intros s1 H. destruct (run_setup_without_browser s1 H) as (s & ->). reflexivity.
    + intros s1 s2 Hb Ht. destruct (run_setup_without_tabs s1 s2 Hb Ht) as (s & ->).
      reflexivity.
    + intros s1 s2 n s3 Hb Ht Hloop. rewrite (run_setup_done s1 s2 Hb Ht).
      destruct (main_loop_run w fuel s2 _ n s3 Hloop) as (s4 & evs & Hrun & Htr & Hc).
      rewrite Hrun. split; [ reflexivity | ]. exists s4, evs. auto.
  - intros body s s' H. unfold main_try. rewrite H. reflexivity.
Qed.

End Exit.

(** C8, on four runs: Brave is not installed; the timer page cannot be
    loaded; Ctrl-C arrives in the first minute; an exception reaches
    [main]. *)
Lemma exit_codes_witness :
  exit_code (main Stub_files.linux_without_brave 0) = Some 1
  /\ exit_code (main Stub_loop.page_unreachable 0) = Some 1
  /\ exit_code (main Stub_loop.ctrl_c_in_first_minute 1) = Some 0
  /\ exit_code (main_try Stub_exit.raising_body (initial __init__)) = Some 1.
Proof.
  split; [ | split; [ | split ] ].
  - apply (proj1 (proj1 (proj2 (exit_codes Stub_files.linux_without_brave 0)) eq_refl)
             (snd (setup_browser Stub_files.linux_without_brave
                     (snd (run_banner (initial __init__)))))).
    vm_compute. reflexivity.
  - apply (proj1 (proj2 (proj1 (proj2 (exit_codes Stub_loop.page_unreachable 0)) eq_refl))
             (snd (setup_browser Stub_loop.page_unreachable
                     (snd (run_banner (initial __init__)))))
             (snd (setup_tabs Stub_loop.page_unreachable
                     (snd (setup_browser Stub_loop.page_unreachable
                             (snd (run_banner (initial __init__)))))))).
    + vm_compute. reflexivity.
    + vm_compute. reflexivity.
  - apply (proj2 (proj2 (proj1 (proj2 (exit_codes Stub_loop.ctrl_c_in_first_minute 1)) eq_refl))
             (snd (setup_browser Stub_loop.ctrl_c_in_first_minute
                     (snd (run_banner (initial __init__)))))
             (snd (setup_tabs Stub_loop.ctrl_c_in_first_minute
                     (snd (setup_browser Stub_loop.ctrl_c_in_first_minute
                             (snd (run_banner (initial __init__)))))))
             1
             (snd (cycle Stub_loop.ctrl_c_in_first_minute 1
                     (snd (main_loop_banner
                             (snd (setup_tabs Stub_loop.ctrl_c_in_first_minute
                                     (snd (setup_browser Stub_loop.ctrl_c_in_first_minute
                                             (snd (run_banner (initial __init__)))))))))))).
    + vm_compute. reflexivity.
    + vm_compute. reflexivity.
    + vm_compute. reflexivity.
  - apply (proj2 (proj2 (exit_codes Stub.linux 0)) Stub_exit.raising_body
             (initial __init__) (initial __init__)).
    reflexivity.
Defined.

(** ** More about runs *)

Section Primitives_at.

Variable w : world.
Variable ok : event -> bool.
Variable ki : list exn.
Hypothesis Hki : interrupts_in w ki.

Lemma run_ok_perform_at (c : call) :
  ok (Did c) = true -> run_ok ok (may_raise (PyException :: ki)) (perform w c).
Proof.
  intros Hc s. unfold perform.
  destruct (respond w (clock s) c) eqn:E; simpl; repeat split;
    try (exists [Did c]; simpl; rewrite Hc; auto);
    try discriminate;
    intros e H; injection H as <-; unfold may_raise; simpl; eauto.
Qed.

Lemma run_ok_sleep_at (ms : Z) :
  ok (Did (Sleep ms)) = true -> run_ok ok (may_raise ki) (sleep w ms).
Proof.
  intros Hc s. unfold sleep.
  destruct (respond w (clock s) (Sleep ms)) eqn:E; simpl; repeat split;
    try (exists [Did (Sleep ms)]; simpl; rewrite Hc; auto);
    try discriminate;
    intros e H; injection H as <-; unfold may_raise; eauto.
Qed.

Lemma run_ok_on_driver_at (c : call) :
  ok (Did c) = true -> run_ok ok (may_raise (PyException :: ki)) (on_driver w c).
Proof.
  intro Hc. unfold on_driver. apply run_ok_bind.
  - apply run_ok_get_self.
  - intro p. destruct (driver p).
    + apply run_ok_perform_at. exact Hc.
    + apply run_ok_raise. left; reflexivity.
Qed.

End Primitives_at.

Ltac run_ok_leaf_at L :=
  lazymatch goal with
  | |- run_ok ?accepted _ _ =>
      first
        [ apply L; [ assumption | reflexivity ]
        | eapply run_ok_weaken with (ok := accepted);
          [ apply L; [ eassumption | reflexivity ]
          | intros; assumption
          | may_raise_incl ] ]
  end.

Ltac run_ok_step_at w :=
  lazymatch goal with
  | |- run_ok _ _ (bind _ _) => apply run_ok_bind; [ | intro ]
  | |- run_ok _ _ (ret _) => apply run_ok_ret
  | |- run_ok _ _ get_self => apply run_ok_get_self
  | |- run_ok _ _ (log _) => apply run_ok_emit; reflexivity
  | |- run_ok _ _ (print _) => apply run_ok_emit; reflexivity
  | |- run_ok _ _ (when ?b _) => destruct b; unfold when
  | |- run_ok _ _ (if ?b then _ else _) => destruct b
  | |- run_ok _ _ (for_each _ _) => apply run_ok_for_each; intro
  | |- run_ok _ _ (sleep _ _) => run_ok_leaf_at (run_ok_sleep_at w)
  | |- run_ok _ _ (perform _ _) => run_ok_leaf_at (run_ok_perform_at w)
  | |- run_ok _ _ (on_driver _ _) => run_ok_leaf_at (run_ok_on_driver_at w)
  | |- run_ok _ _ (get_completion_time _ _) =>
      apply run_ok_get_completion_time; unfold may_raise; simpl; auto
  | |- run_ok _ (may_raise ?ki) (try_except_Exception _ _) =>
      apply run_ok_try_except_Exception with (Q := may_raise (PyException :: ki));
      [ | | intros ? [<- | ?]; [ left; reflexivity | right; assumption ] ]
  | |- run_ok _ (may_raise ?ki) (try_except _ _) =>
      apply run_ok_try_except with (Q := may_raise (PyException :: ki))
  end.

Lemma forallb_rev {A} (f : A -> bool) (l : list A) : forallb f (rev l) = forallb f l.
Proof.
  induction l as [| a l IH]; simpl; auto.
  rewrite forallb_app, IH. simpl. rewrite andb_true_r. apply andb_comm.
Qed.

Lemma filter_rejected {A} (ok p : A -> bool) (l : list A) :
  (forall a, ok a = true -> p a = false) ->
  forallb ok l = true -> filter p l = [].
Proof.
  intros H. induction l as [| a l IH]; simpl; intro Hl; auto.
  apply andb_true_iff in Hl as [Ha Hl]. rewrite (H a Ha). auto.
Qed.

Lemma quiet_counts (evs : list event) :
  forallb quiet evs = true ->
  markers evs = 0%nat /\ minute_sleeps evs = 0%nat /\ quits evs = 0%nat
  /\ cycle_headers evs = 0%nat /\ completions evs = 0%nat /\ cleanups evs = 0%nat.
Proof.
  intro H.
  unfold markers, minute_sleeps, quits, cycle_headers, completions, cleanups.
  repeat split;
    rewrite (filter_rejected quiet _ evs); auto;
    intros e He; unfold quiet, silent in He;
    repeat (apply andb_true_iff in He as [He ?]);
    apply negb_true_iff; assumption.
Qed.

Lemma calm_counts (evs : list event) :
  forallb calm evs = true ->
  quits evs = 0%nat /\ cycle_headers evs = 0%nat
  /\ completions evs = 0%nat /\ cleanups evs = 0%nat.
Proof.
  intro H.
  unfold quits, cycle_headers, completions, cleanups.
  repeat split;
    rewrite (filter_rejected calm _ evs); auto;
    intros e He; unfold calm, no_cleanup in He;
    repeat (apply andb_true_iff in He as [He ?]);
    apply negb_true_iff; assumption.
Qed.

Lemma quiet_calm (e : event) : quiet e = true -> calm e = true.
Proof.
  unfold quiet, calm, silent, no_cleanup. intro H.
  repeat (apply andb_true_iff in H as [H ?]).
  repeat (apply andb_true_iff; split); assumption.
Qed.

(** What a [run_ok] computation adds to the output of a given state. *)
Lemma run_ok_output {A} (ok : event -> bool) (P : exn -> Prop) (m : M A) :
  run_ok ok P m ->
  forall s r s', m s = (r, s') ->
    self s' = self s
    /\ (exists evs, output s' = (output s ++ evs)%list /\ forallb ok evs = true)
    /\ (forall e, r = Raise e -> P e).
Proof.
  intros H s r s' E.
  destruct (run_ok_run _ _ _ H _ _ _ E) as (Hs & (evs & Ht & Hok) & Hr).
  repeat split; auto.
  exists (rev evs). split.
  - unfold output. rewrite Ht, rev_app_distr. reflexivity.
  - rewrite forallb_rev. exact Hok.
Qed.

Section Quiet_functions.

Variable w : world.
Variable ki : list exn.
Hypothesis Hki : interrupts_in w ki.

Lemma sleep_quiet (ms : Z) : ms <> 60000 -> run_ok quiet (may_raise ki) (sleep w ms).
Proof.
  intro H. apply run_ok_sleep_at; auto.
  unfold quiet; simpl. apply Z.eqb_neq in H. rewrite H. reflexivity.
Qed.

Lemma switch_tab_quiet (h : option handle) :
  run_ok quiet (may_raise ki) (switch_tab w h).
Proof. unfold switch_tab. repeat run_ok_step_at w. Qed.

Lemma stop_timer_quiet : run_ok quiet (may_raise ki) (stop_timer w).
Proof. unfold stop_timer. repeat run_ok_step_at w. Qed.

Lemma fill_input_quiet (minutes : Z) (inp : input_elem) :
  run_ok quiet (may_raise (PyException :: ki)) (fill_input w minutes inp).
Proof. unfold fill_input. repeat run_ok_step_at w. Qed.

Lemma set_timer_duration_quiet (minutes : Z) :
  run_ok quiet (may_raise ki) (set_timer_duration w minutes).
Proof.
  unfold set_timer_duration. repeat run_ok_step_at w.
  apply fill_input_quiet.
Qed.

Lemma try_selectors_quiet (sels : list string) :
  run_ok quiet (may_raise ki) (try_selectors w sels).
Proof.
  induction sels as [| sel rest IH]; simpl.
  - apply run_ok_ret.
  - repeat run_ok_step_at w. exact IH.
Qed.

Lemma start_timer_quiet : run_ok quiet (may_raise ki) (start_timer w).
Proof.
  unfold start_timer. repeat run_ok_step_at w.
  eapply run_ok_weaken; [ apply try_selectors_quiet | auto | may_raise_incl ].
Qed.

Lemma run_timer_calm (k : session) :
  run_ok calm (may_raise (PyException :: ki)) (run_timer w k).
Proof.
  unfold run_timer, finish_timer. repeat run_ok_step_at w.
  all: try (destruct k; apply run_ok_emit; reflexivity).
  all: eapply run_ok_weaken;
    [ first [ apply stop_timer_quiet | apply set_timer_duration_quiet | apply start_timer_quiet ]
    | exact quiet_calm
    | may_raise_incl ].
Qed.

Lemma start_session_calm (k : session) :
  run_ok calm (may_raise (PyException :: ki)) (start_session w k).
Proof.
  rewrite start_session_eq. repeat run_ok_step_at w.
  - destruct k; apply run_ok_emit; reflexivity.
  - eapply run_ok_weaken; [ apply switch_tab_quiet | exact quiet_calm | may_raise_incl ].
  - apply run_timer_calm.
Qed.

End Quiet_functions.

(** ** Soft and fatal failures *)

(** X1.  No failure of the driver or of the page ever ends the loop of
    [main_loop]: it is left by KeyboardInterrupt, or by the OverflowError of
    [get_completion_time] when the completion time of a session is not a
    date that [datetime] can hold.  So with completion times that can be
    computed and nobody at the keyboard, it goes on for any number of
    iterations. *)
Theorem loop_is_left_only_by_interrupt (w : world) :
  (forall fuel n s e n' s',
      while_true w fuel n s = Some (e, n', s') ->
      e = KeyboardInterrupt \/ (e = PyException /\ overdue w (self s)))
  /\ (never_interrupted w ->
      forall fuel n s,
        in_time w (work_duration (self s)) ->
        in_time w (break_duration (self s)) ->
        while_true w fuel n s = None).
Proof.
  split.
  - intros fuel n s e n' s' H.
    destruct (while_true_run w _ (interrupts_in_any w) _ _ _ _ _ _ H)
      as (_ & _ & [[<- | []] | Hover] & _); auto.
  - intros Hnever fuel n s Hwork Hbreak.
    destruct (while_true w fuel n s) as [[[e n'] s'] |] eqn:H; [ | reflexivity ].
    destruct (while_true_run w _ (interrupts_in_never w Hnever) _ _ _ _ _ _ H)
      as (_ & _ & [[] | [_ (m & [Hm | Hm])]] & _).
    + destruct (Hwork m Hm).
    + destruct (Hbreak m Hm).
Qed.

(** X1, on a driver that raises on everything but the tab switch, with
    nobody at the keyboard: three iterations and the loop is still on. *)
Lemma loop_is_left_only_by_interrupt_witness :
  while_true Stub_driver.only_switches 3 0 (initial (Stub.ready 1 1)) = None.
Proof.
  apply (proj2 (loop_is_left_only_by_interrupt Stub_driver.only_switches)).
  - intros n c. destruct c; discriminate.
  - intro n. vm_compute. discriminate.
  - intro n. vm_compute. discriminate.
Defined.

Section Setup.

Variable w : world.

Lemma before_setup_run :
  run_banner (initial __init__) = (Ret tt, before_setup).
Proof. reflexivity. Qed.

Lemma run_setup_run :
  run_setup w (initial __init__) =
  match setup_browser w before_setup with
  | (Ret false, s1) =>
      (Raise (SystemExit 1),
       record (Print "2. The browser path in the script matches your installation")
         (record (Print "1. Brave browser is installed (https://brave.com/download/)")
            (record (Print "Please ensure:")
               (record (Print "[ERROR] Failed to initialize Brave browser.") s1))))
  | (Ret true, s1) =>
      match setup_tabs w s1 with
      | (Ret false, s2) =>
          (Raise (SystemExit 1),
           snd (cleanup w (record (Print "[ERROR] Failed to setup timer tabs.") s2)))
      | (Ret true, s2) => (Ret tt, s2)
      | (Raise e, s2) => (Raise e, s2)
      end
  | (Raise e, s1) => (Raise e, s1)
  end.
Proof.
  unfold run_setup. rewrite bind_run, before_setup_run, bind_run.
  destruct (setup_browser w before_setup) as [[[|] | e] s1]; cbn [negb]; try reflexivity.
  rewrite bind_run.
  destruct (setup_tabs w s1) as [[[|] | e] s2]; cbn [negb]; try reflexivity.
  rewrite bind_print, bind_run.
  destruct (cleanup_run w (record (Print "[ERROR] Failed to setup timer tabs.") s2))
    as (s3 & Hc & _).
  rewrite Hc. reflexivity.
Qed.

Lemma calm_cons (a : event) (t base : list event) :
  calm a = true ->
  (exists evs, t = (evs ++ base)%list /\ forallb calm evs = true) ->
  exists evs, a :: t = (evs ++ base)%list /\ forallb calm evs = true.
Proof.
  intros Ha (evs & -> & Hevs). exists (a :: evs). simpl. rewrite Ha, Hevs. auto.
Qed.

Lemma calm_nil (base : list event) :
  exists evs, base = (evs ++ base)%list /\ forallb calm evs = true.
Proof. exists []. auto. Qed.

(** What [setup_brave_browser] prints and does, whatever its outcome. *)
Lemma setup_brave_browser_calm (s : state) :
  exists evs,
    trace (snd (setup_brave_browser w s)) = (evs ++ trace s)%list
    /\ forallb calm evs = true.
Proof.
  assert (Hlist : forall l : list string,
             forallb calm (rev (map (fun p => Print ("  - " ++ p)) l)) = true).
  { intro l. rewrite forallb_rev. induction l; simpl; auto. }
  unfold setup_brave_browser, setup_browser, try_except_Exception.
  rewrite bind_log, bind_run, find_brave_path_run.
  destruct (find (path_exists w) (possible_paths w)) as [p |] eqn:Hfind.
  - destruct (truthy_path (Some p)) eqn:Htruthy; cbn [negb].
    + cbv beta iota zeta
          delta [bind log print emit perform on_driver get_self set_self ret raise
                 self clock trace record tick fst snd driver with_driver].
      repeat match goal with
             | |- context [respond w ?n ?c] =>
                 destruct (respond w n c);
                 cbv beta iota zeta
                     delta [self clock trace record tick fst snd driver with_driver]
             end;
        repeat (apply calm_cons; [ reflexivity | ]); apply calm_nil.
    + cbv beta iota zeta
          delta [bind log print emit ret self clock trace record tick fst snd].
      repeat (apply calm_cons; [ reflexivity | ]); apply calm_nil.
  - cbv beta iota zeta
        delta [bind log print emit ret self clock trace record tick fst snd negb truthy_path].
    repeat (apply calm_cons; [ reflexivity | ]).
    exists (rev (map (fun p => Print ("  - " ++ p)) (firstn 3 (possible_paths w)))
              ++ [Log "Searched paths:"; Log "Brave browser not found in standard locations";
                  Log "Initializing Brave browser..."])%list.
    split.
    + rewrite <- app_assoc. reflexivity.
    + rewrite forallb_app, Hlist. reflexivity.
Qed.

End Setup.

(** X2.  When [setup_browser] returns [False], [run] prints its four
    lines and exits with status 1 at once: [cleanup] is not entered and
    [driver.quit()] is never called, whatever [setup_brave_browser] had
    done before it failed. *)
Theorem failed_browser_setup_skips_cleanup (w : world) (fuel : nat) (s1 : state) :
  packages_installed w = true ->
  setup_browser w before_setup = (Ret false, s1) ->
  exists s',
    main w fuel = Some (Raise (SystemExit 1), s')
    /\ output s' =
       (output s1
          ++ [Print "[ERROR] Failed to initialize Brave browser.";
              Print "Please ensure:";
              Print "1. Brave browser is installed (https://brave.com/download/)";
              Print "2. The browser path in the script matches your installation"])%list
    /\ cleanups (trace s') = 0%nat
    /\ quits (trace s') = 0%nat.
Proof.
  intros Hpk H.
  rewrite (main_run w fuel Hpk), run_setup_run, H.
  eexists. split; [ reflexivity | ]. split.
  - unfold output. simpl. rewrite <- !app_assoc. reflexivity.
  - destruct (setup_brave_browser_calm w before_setup) as (evs & Ht & Hcalm).
    unfold setup_browser in H. rewrite H in Ht. simpl in Ht.
    destruct (calm_counts _ Hcalm) as (Hq & _ & _ & Hc).
    simpl. rewrite Ht.
    unfold cleanups, quits in *. simpl. rewrite !filter_app, !length_app, Hq, Hc.
    split; reflexivity.
Qed.

(** X2, on a machine without Brave. *)
Lemma failed_browser_setup_skips_cleanup_witness :
  exists s',
    main Stub_files.linux_without_brave 0 = Some (Raise (SystemExit 1), s')
    /\ cleanups (trace s') = 0%nat
    /\ quits (trace s') = 0%nat.
Proof.
  destruct (failed_browser_setup_skips_cleanup Stub_files.linux_without_brave 0
              (snd (setup_browser Stub_files.linux_without_brave before_setup)))
    as (s' & Hrun & _ & Hc & Hq).
  - reflexivity.
  - vm_compute. reflexivity.
  - exists s'. auto.
Defined.

(** X3.  [setup_brave_browser] can fail after the browser was started:
    when the driver is installed and the browser starts but
    [maximize_window] raises, it returns [False] with [self.driver] set,
    and the program ends with status 1 without ever calling
    [driver.quit()]. *)
Theorem browser_left_open_when_maximize_fails (w : world) (fuel : nat) (p : string) :
  packages_installed w = true ->
  find (path_exists w) (possible_paths w) = Some p ->
  p <> "" ->
  respond w 0 InstallChromeDriver = Ok ->
  respond w 1 (StartChrome p) = Ok ->
  respond w 2 MaximizeWindow = Error ->
  exists s',
    main w fuel = Some (Raise (SystemExit 1), s')
    /\ driver (self s') = true
    /\ In (Did (StartChrome p)) (trace s')
    /\ quits (trace s') = 0%nat.
Proof.
  intros Hpk Hfind Hp Hinstall Hstart Hmax.
  assert (Hsetup : exists s1,
             setup_browser w before_setup = (Ret false, s1)
             /\ driver (self s1) = true
             /\ In (Did (StartChrome p)) (trace s1)).
  { unfold setup_browser, setup_brave_browser, try_except_Exception.
    rewrite bind_log, bind_run, find_brave_path_run, Hfind.
    assert (Htruthy : truthy_path (Some p) = true).
    { simpl. apply negb_true_iff. apply String.eqb_neq. exact Hp. }
    rewrite Htruthy. cbn [negb].
    rewrite bind_log, bind_run. unfold perform at 1. simpl clock. rewrite Hinstall.
    rewrite bind_log, bind_run. unfold perform at 1. simpl clock. simpl or_empty.
    rewrite Hstart.
    rewrite bind_get_self. unfold set_self at 1. rewrite bind_run.
    cbv beta iota. rewrite bind_run. unfold on_driver. rewrite bind_get_self.
    cbn [self driver with_driver]. unfold perform.
    match goal with
    | |- context [respond w ?n MaximizeWindow] =>
        change (respond w n MaximizeWindow) with (respond w 2 MaximizeWindow)
    end.
    rewrite Hmax.
    eexists. split; [ reflexivity | ]. split; [ reflexivity | ].
    simpl. auto 10. }
  destruct Hsetup as (s1 & Hrun & Hd & Hin).
  rewrite (main_run w fuel Hpk), run_setup_run, Hrun.
  eexists. split; [ reflexivity | ]. split; [ exact Hd | ]. split.
  - simpl. auto 10.
  - destruct (setup_brave_browser_calm w before_setup) as (evs & Ht & Hcalm).
    unfold setup_browser in Hrun. rewrite Hrun in Ht. simpl in Ht.
    destruct (calm_counts _ Hcalm) as (Hq & _).
    simpl. rewrite Ht. unfold quits in *. simpl. rewrite filter_app, length_app, Hq.
    reflexivity.
Qed.

(** X3, on the stub whose window cannot be maximized. *)
Lemma browser_left_open_when_maximize_fails_witness :
  exists s',
    main Stub_more.maximize_fails 0 = Some (Raise (SystemExit 1), s')
    /\ driver (self s') = true
    /\ In (Did (StartChrome "/usr/bin/brave")) (trace s')
    /\ quits (trace s') = 0%nat.
Proof.
  apply (browser_left_open_when_maximize_fails Stub_more.maximize_fails 0 "/usr/bin/brave");
    try reflexivity.
  discriminate.
Defined.

(** X4.  Ctrl-C while the browser or the tabs are being set up is caught
    nowhere: [main] ends with the KeyboardInterrupt in the very state in
    which it was raised, so nothing is printed and nothing is done
    afterwards; in particular [cleanup] does not run. *)
Theorem interrupt_during_setup_escapes (w : world) (fuel : nat) :
  packages_installed w = true ->
  (forall s1,
      setup_browser w before_setup = (Raise KeyboardInterrupt, s1) ->
      main w fuel = Some (Raise KeyboardInterrupt, s1))
  /\ (forall s1 s2,
         setup_browser w before_setup = (Ret true, s1) ->
         setup_tabs w s1 = (Raise KeyboardInterrupt, s2) ->
         main w fuel = Some (Raise KeyboardInterrupt, s2)).
Proof.
  intro Hpk. rewrite (main_run w fuel Hpk), run_setup_run. split.
  - intros s1 H. rewrite H. reflexivity.
  - intros s1 s2 Hb Ht. rewrite Hb, Ht. reflexivity.
Qed.

(** X4, with Ctrl-C while the first timer page settles: the browser is
    running and is never quit. *)
Lemma interrupt_during_setup_escapes_witness :
  exists s2,
    main Stub_more.ctrl_c_while_loading 0 = Some (Raise KeyboardInterrupt, s2)
    /\ driver (self s2) = true
    /\ hd_error (trace s2) = Some (Did (Sleep 5000)).
Proof.
  exists (snd (setup_tabs Stub_more.ctrl_c_while_loading
                 (snd (setup_browser Stub_more.ctrl_c_while_loading before_setup)))).
  split; [ | split; vm_compute; reflexivity ].
  apply (proj2 (interrupt_during_setup_escapes Stub_more.ctrl_c_while_loading 0 eq_refl)
           (snd (setup_browser Stub_more.ctrl_c_while_loading before_setup))).
  - vm_compute. reflexivity.
  - vm_compute. reflexivity.
Defined.

(** X5.  Once the browser and the tabs are set up, the program cannot end
    with a failure status: it either goes on, or ends with status 0. *)
Theorem after_setup_the_status_is_zero (w : world) (fuel : nat) (s1 s2 : state) :
  packages_installed w = true ->
  setup_browser w before_setup = (Ret true, s1) ->
  setup_tabs w s1 = (Ret true, s2) ->
  match while_true w fuel 0 (snd (main_loop_banner s2)) with
  | None => main w fuel = None
  | Some _ => exit_code (main w fuel) = Some 0
  end.
Proof.
  intros Hpk Hb Ht.
  rewrite (main_run w fuel Hpk), run_setup_run, Hb, Ht.
  destruct (while_true w fuel 0 (snd (main_loop_banner s2))) as [[[e n] s3] |] eqn:H.
  - destruct (main_loop_run w fuel s2 e n s3 H) as (s4 & evs & -> & _). reflexivity.
  - unfold main_loop. rewrite main_loop_banner_run in *. cbn [snd] in H. rewrite H.
    reflexivity.
Qed.

(** X5, on an obedient driver with nobody at the keyboard: after two
    iterations the program is still running. *)
Lemma after_setup_the_status_is_zero_witness :
  main Stub.linux 2 = None.
Proof.
  pose proof (after_setup_the_status_is_zero Stub.linux 2
                (snd (setup_browser Stub.linux before_setup))
                (snd (setup_tabs Stub.linux (snd (setup_browser Stub.linux before_setup)))))
    as H.
  assert (Hloop : while_true Stub.linux 2 0
                    (snd (main_loop_banner
                            (snd (setup_tabs Stub.linux
                                    (snd (setup_browser Stub.linux before_setup))))))
                  = None) by (vm_compute; reflexivity).
  rewrite Hloop in H. apply H.
  - reflexivity.
  - vm_compute. reflexivity.
  - vm_compute. reflexivity.
Defined.

(** ** The fallbacks *)

Section Fallbacks.

Variable w : world.

Lemma try_except_returns (body : M bool) (b0 : bool) (s : state) :
  exists b s', try_except body (ret b0) s = (Ret b, s').
Proof.
  unfold try_except. destruct (body s) as [[b | e] s'].
  - exists b, s'. reflexivity.
  - exists b0, s'. reflexivity.
Qed.

Lemma try_selectors_returns (sels : list string) :
  forall s, exists b s', try_selectors w sels s = (Ret b, s').
Proof.
  induction sels as [| sel rest IH]; intro s; simpl.
  - exists false, s. reflexivity.
  - rewrite bind_run.
    match goal with
    | |- context [try_except ?body (ret false) s] =>
        destruct (try_except_returns body false s) as (b & s' & ->)
    end.
    destruct b; [ exists true, s'; reflexivity | apply IH ].
Qed.

End Fallbacks.

(** X6.  Once the duration script has raised an ordinary exception,
    [set_timer_duration] always returns: whatever happens in the fallback,
    Ctrl-C included, is swallowed by its bare [except:] and reported as
    [False]. *)
Theorem set_timer_duration_swallows_the_fallback (w : world) (minutes : Z) (s : state) :
  driver (self s) = true ->
  respond w (clock s) (Sleep 2000) <> Interrupt ->
  respond w (S (clock s)) (ExecuteScript (SetTimerScript minutes)) = Error ->
  (exists b s', set_timer_duration w minutes s = (Ret b, s'))
  /\ (respond w (S (S (clock s))) FindInputs <> Ok ->
      fst (set_timer_duration w minutes s) = Ret false).
Proof.
  intros Hd Hsleep Hscript.
  unfold set_timer_duration, try_except_Exception.
  rewrite bind_run, (sleep_run _ _ _ Hsleep).
  rewrite bind_run, on_driver_run by exact Hd.
  cbn [clock tick]. rewrite Hscript. rewrite bind_log. split.
  - apply try_except_returns.
  - intro Hfind. unfold try_except.
    rewrite bind_run, on_driver_run by exact Hd.
    cbn [clock tick record].
    destruct (respond w (S (S (clock s))) FindInputs); [ congruence | | ]; reflexivity.
Qed.

(** X6, with Ctrl-C during the lookup of the input fields: no
    KeyboardInterrupt comes out. *)
Lemma set_timer_duration_swallows_the_fallback_witness :
  fst (set_timer_duration Stub_more.ctrl_c_in_fallback 25 (initial (Stub.ready 25 5)))
  = Ret false.
Proof.
  apply (proj2 (set_timer_duration_swallows_the_fallback
                  Stub_more.ctrl_c_in_fallback 25 (initial (Stub.ready 25 5))
                  eq_refl ltac:(discriminate) eq_refl)).
  discriminate.
Defined.

(** X7.  With a driver, and its first sleep not interrupted, what
    [start_timer] returns is decided by the call of its script alone: it
    returns [True] as soon as that call has returned, whatever the script
    found and whatever happens in the XPath fallback (Ctrl-C included); it
    returns [False] exactly when the call raises an ordinary exception. *)
Theorem start_timer_result (w : world) (s : state) :
  driver (self s) = true ->
  respond w (clock s) (Sleep 1000) <> Interrupt ->
  fst (start_timer w s) =
  match respond w (S (clock s)) (ExecuteScript ClickStartScript) with
  | Ok => Ret true
  | Error => Ret false
  | Interrupt => Raise KeyboardInterrupt
  end.
Proof.
  intros Hd Hsleep.
  unfold start_timer, try_except_Exception.
  rewrite bind_run, (sleep_run _ _ _ Hsleep).
  rewrite bind_run, on_driver_run by exact Hd.
  cbn [clock tick].
  destruct (respond w (S (clock s)) (ExecuteScript ClickStartScript)); try reflexivity.
  destruct (start_script (page w (S (clock s)))).
  - reflexivity.
  - rewrite bind_run.
    destruct (try_selectors_returns w selectors
                (tick (ExecuteScript ClickStartScript) (tick (Sleep 1000) s)))
      as (b & s' & ->).
    destruct b; reflexivity.
Qed.

(** X7, with Ctrl-C during every XPath wait. *)
Lemma start_timer_result_witness :
  fst (start_timer Stub_more.ctrl_c_in_waits (initial (Stub.ready 25 5))) = Ret true.
Proof.
  exact (start_timer_result Stub_more.ctrl_c_in_waits (initial (Stub.ready 25 5))
           eq_refl ltac:(discriminate)).
Defined.

(** ** The start script *)

Lemma prefix_spec (a b : string) :
  String.prefix a b = true <-> exists c, b = a ++ c.
Proof.
  revert a. induction b as [| y b IH]; intros [| x a]; simpl.
  - split; [ exists ""; reflexivity | reflexivity ].
  - split; [ discriminate | intros (c & H); discriminate ].
  - split; [ intros _; exists (String y b); reflexivity | reflexivity ].
  - destruct (ascii_dec x y) as [-> | Hxy].
    + rewrite IH. split; intros (c & H); exists c; congruence.
    + split; [ discriminate | intros (c & H); congruence ].
Qed.

(** [includes] is the substring test. *)
Lemma includes_spec (needle hay : string) :
  includes needle hay = true <-> exists a b, hay = a ++ needle ++ b.
Proof.
  induction hay as [| y hay IH].
  - cbn [includes]. rewrite orb_false_r, prefix_spec. split.
    + intros (c & H). exists "", c. exact H.
    + intros (a & b & H). destruct a; simpl in H; [ eauto | discriminate ].
  - cbn [includes]. rewrite orb_true_iff, prefix_spec, IH. split.
    + intros [(c & H) | (a & b & H)].
      * exists "", c. exact H.
      * exists (String y a), b. simpl. congruence.
    + intros (a & b & H). destruct a as [| x a]; simpl in H.
      * left. eauto.
      * right. exists a, b. congruence.
Qed.

Lemma click_first_start_spec (btns : list button) :
  click_first_start btns = true <->
  exists btn, In btn btns /\ says_start btn = true /\ disabled btn = false.
Proof.
  induction btns as [| btn rest IH]; simpl.
  - split; [ discriminate | intros (b & [] & _) ].
  - destruct (says_start btn) eqn:Es; [ destruct (disabled btn) eqn:Ed | ]; simpl.
    + rewrite IH. split.
      * intros (b & Hin & H). exists b. auto.
      * intros (b & [<- | Hin] & Hs & Hdis); [ congruence | exists b; auto ].
    + split; [ intros _; exists btn; auto | reflexivity ].
    + rewrite IH. split.
      * intros (b & Hin & H). exists b. auto.
      * intros (b & [<- | Hin] & Hs & Hdis); [ congruence | exists b; auto ].
Qed.

Lemma says_start_spec (btn : button) :
  says_start btn = true <->
  exists a b, lower (textContent btn) = a ++ "start" ++ b
              \/ lower (value btn) = a ++ "start" ++ b.
Proof.
  unfold says_start. rewrite orb_true_iff, !andb_true_iff, !includes_spec. split.
  - intros [[_ (a & b & H)] | [_ (a & b & H)]]; exists a, b; auto.
  - assert (Hne : forall t a b, lower t = a ++ "start" ++ b -> negb (String.eqb t "") = true).
    { intros t a b H. destruct t; [ destruct a; discriminate | reflexivity ]. }
    intros (a & b & [H | H]); [ left | right ]; split; eauto.
Qed.

(** X8.  The start script answers [true] exactly when the page has an
    enabled button or input whose text or value contains "start" in any
    letter case, or defines a function [startTimer] or [start]. *)
Theorem start_script_spec (d : dom) :
  start_script d = true <->
  (exists btn a b,
      In btn (buttons d)
      /\ disabled btn = false
      /\ (lower (textContent btn) = a ++ "start" ++ b
          \/ lower (value btn) = a ++ "start" ++ b))
  \/ has_startTimer d = true
  \/ has_start d = true.
Proof.
  unfold start_script.
  destruct (click_first_start (buttons d)) eqn:Ec.
  - split; [ intros _; left | reflexivity ].
    apply click_first_start_spec in Ec as (btn & Hin & Hs & Hd).
    apply says_start_spec in Hs as (a & b & H). exists btn, a, b. auto.
  - assert (Hno : ~ exists btn a b,
                 In btn (buttons d)
                 /\ disabled btn = false
                 /\ (lower (textContent btn) = a ++ "start" ++ b
                     \/ lower (value btn) = a ++ "start" ++ b)).
    { intros (btn & a & b & Hin & Hd & H).
      assert (Hc : click_first_start (buttons d) = true).
      { apply click_first_start_spec. exists btn. repeat split; auto.
        apply says_start_spec. eauto. }
      congruence. }
    destruct (has_startTimer d); [ tauto | ].
    destruct (has_start d); [ tauto | ].
    split; [ discriminate | ].
    intros [H | [H | H]]; [ contradiction | discriminate | discriminate ].
Qed.

(** X8, on a page whose first Start button is disabled and whose second
    control reads START NOW. *)
Lemma start_script_spec_witness : start_script Stub_more.two_buttons = true.
Proof.
  apply start_script_spec. left.
  exists {| textContent := ""; value := "START NOW"; disabled := false |}, "", " now".
  repeat split; simpl; auto.
Defined.

(** ** The shape of a session *)

Lemma output_record (e : event) (s : state) : output (record e s) = (output s ++ [e])%list.
Proof. reflexivity. Qed.

Lemma output_warned (b : bool) (t : string) (s : state) :
  output (warned b t s) = (output s ++ if b then [Log t] else [])%list.
Proof. destruct b; simpl; [ reflexivity | rewrite app_nil_r; reflexivity ]. Qed.

Lemma progress_events_counts (n : nat) :
  markers (progress_events n) = n /\ minute_sleeps (progress_events n) = n.
Proof.
  induction n as [| n [IHm IHs]]; [ split; reflexivity | ].
  unfold markers, minute_sleeps in *. simpl. rewrite IHm, IHs. split; reflexivity.
Qed.

(** One statement of a sequence that went on to return: it returned too,
    and what it added to the output is accepted by [quiet]. *)
Ltac quiet_step H L :=
  rewrite bind_run in H;
  lazymatch type of H with
  | context [match ?m ?s with _ => _ end] =>
      let r := fresh "r" in
      let s' := fresh "s" in
      let E := fresh "E" in
      let Hs := fresh "Hs" in
      let evs := fresh "evs" in
      let Ho := fresh "Ho" in
      let Hq := fresh "Hq" in
      destruct (m s) as [r s'] eqn:E;
      destruct (run_ok_output _ _ _ L _ _ _ E) as (Hs & (evs & Ho & Hq) & _);
      destruct r as [? | ?];
      [ | discriminate H ]
  end.

Section Session_shape.

Variable w : world.

Lemma minute_loop_output (l : list Z) :
  forall s s',
    for_each l (fun _ => minute w) s = (Ret tt, s') ->
    self s' = self s
    /\ output s' = (output s ++ progress_events (List.length l))%list.
Proof.
  induction l as [| x l IH]; intros s s' H; simpl in H.
  - injection H as <-. simpl. rewrite app_nil_r. auto.
  - rewrite bind_run, minute_run in H.
    destruct (respond w (clock s) (Sleep 60000));
      try discriminate H;
      apply IH in H as [Hs Ho]; (split; [ exact Hs | ]);
        rewrite Ho; unfold output; simpl; rewrite <- !app_assoc; reflexivity.
Qed.

(** [start_timer] on an object with a driver: if it returns, it has asked
    the driver to run its script. *)
Lemma start_timer_issues_script (s : state) (b : bool) (s' : state) (evs : list event) :
  driver (self s) = true ->
  start_timer w s = (Ret b, s') ->
  output s' = (output s ++ evs)%list ->
  In (Did (ExecuteScript ClickStartScript)) evs.
Proof.
  intros Hd H Ho.
  assert (Ht : exists added,
             trace s' = (added ++ Did (ExecuteScript ClickStartScript)
                           :: Did (Sleep 1000) :: trace s)%list).
  { unfold start_timer, try_except_Exception in H. rewrite bind_run in H.
    assert (Hsleep : sleep w 1000 s = (Ret tt, tick (Sleep 1000) s)
                     \/ sleep w 1000 s = (Raise KeyboardInterrupt, tick (Sleep 1000) s)).
    { unfold sleep. destruct (respond w (clock s) (Sleep 1000)); auto. }
    destruct Hsleep as [Hsleep | Hsleep]; rewrite Hsleep in H; [ | discriminate H ].
    rewrite bind_run, on_driver_run in H by exact Hd.
    set (rest := fun n : nat =>
                   if start_script (page w n)
                   then log "Timer started" ;; ret true
                   else clicked <- try_selectors w selectors ;;
                        if clicked : bool then ret true
                        else log "Could not find start button, timer may already be running" ;;
                             ret true).
    assert (Hrest : forall n, run_ok quiet (may_raise [KeyboardInterrupt]) (rest n)).
    { intro n. unfold rest. pose proof (interrupts_in_any w) as Hki.
      repeat run_ok_step_at w. apply try_selectors_quiet. exact Hki. }
    destruct (respond w (clock (tick (Sleep 1000) s)) (ExecuteScript ClickStartScript)).
    - pose proof (Hrest (clock (tick (Sleep 1000) s))
                    (tick (ExecuteScript ClickStartScript) (tick (Sleep 1000) s))) as Hr.
      unfold rest in Hr. cbv beta in Hr.
      match type of Hr with
      | context [snd ?m] => destruct m as [[b' | e'] s1]
      end;
        cbn [fst snd] in *; destruct Hr as (_ & (added & Hadded & _) & Hraise).
      + injection H as <- <-. exists added. exact Hadded.
      + destruct (Hraise e' eq_refl) as [<- | []]. discriminate H.
    - injection H as <- <-. exists [Log "Error starting timer: "]. reflexivity.
    - discriminate H. }
  destruct Ht as (added & Ht).
  unfold output in Ho. rewrite Ht in Ho.
  change (added ++ Did (ExecuteScript ClickStartScript) :: Did (Sleep 1000) :: trace s)%list
    with (added ++ [Did (ExecuteScript ClickStartScript); Did (Sleep 1000)] ++ trace s)%list
    in Ho.
  rewrite !rev_app_distr, <- app_assoc in Ho.
  apply app_inv_head in Ho. rewrite <- Ho.
  apply in_or_app. left. right. left. reflexivity.
Qed.

(** The parts of a session that returned [True], after its tab switch:
    what comes before the call of [set_timer_duration] and this call, the
    warning if it returned [False], the start of the timer, three lines, the
    minutes, and the two closing lines. *)
Lemma run_timer_parts (k : session) (s s' : state) :
  run_timer w k s = (Ret true, s') ->
  exists before set after text,
    output s' =
    (output s ++ before
       ++ (if negb set then [Log warn_duration] else [])
       ++ after
       ++ [Log (session_name k ++ " session active ("
                  ++ str (session_minutes k (self s)) ++ " minutes)");
           Log ("Expected completion: " ++ text); Log "Progress: "]
       ++ progress_events (Z.to_nat (session_minutes k (self s)))
       ++ [Print " Done!"; Log (session_name k ++ " session completed!")])%list
    /\ forallb quiet before = true
    /\ forallb quiet after = true
    /\ (exists s0 s1,
           self s0 = self s
           /\ set_timer_duration w (session_minutes k (self s)) s0 = (Ret set, s1))
    /\ (driver (self s) = true -> In (Did (ExecuteScript ClickStartScript)) after).
Proof.
  intro H. unfold run_timer, finish_timer in H.
  pose proof (interrupts_in_any w) as Hki.
  quiet_step H (sleep_quiet w _ Hki 2000 ltac:(discriminate)).
  quiet_step H (stop_timer_quiet w _ Hki).
  quiet_step H (sleep_quiet w _ Hki 2000 ltac:(discriminate)).
  plain_steps H.
  quiet_step H (set_timer_duration_quiet w _ Hki (session_minutes k (self s2))).
  plain_steps H.
  quiet_step H (sleep_quiet w _ Hki 1000 ltac:(discriminate)).
  quiet_step H (start_timer_quiet w _ Hki).
  plain_steps H.
  rewrite bind_get_completion_time in H.
  match type of H with
  | context [completion_time ?t ?m] =>
      destruct (completion_time t m) as [text |]; [ | discriminate H ]
  end.
  plain_steps H.
  rewrite bind_run in H.
  match type of H with
  | context [for_each ?l _ ?x] =>
      destruct (for_each l (fun _ => print "." ;; sleep w 60000) x) as [[[] | e] s6] eqn:Eloop;
      [ | discriminate H ]
  end.
  apply (minute_loop_output _ _ _) in Eloop as [Hs6 Ho6].
  plain_steps H. injection H as <-.
  rewrite !record_self, warned_self in *.
  rewrite length_range in Ho6.
  assert (Hself2 : self s2 = self s) by congruence.
  assert (Hself4 : self s4 = self s) by congruence.
  replace (self s5) with (self s) in * by congruence.
  rewrite Hself2 in E2.
  exists (evs ++ evs0 ++ evs1 ++ evs2)%list, a2,
    (evs3 ++ evs4 ++ (if negb a4 then [Log warn_start] else []))%list, text.
  split; [ | split; [ | split; [ | split ] ] ].
  - rewrite !output_record, Ho6, !output_record, output_warned, Ho4, Ho3,
      output_warned, Ho2, Ho1, Ho0, Ho.
    rewrite <- !app_assoc. reflexivity.
  - rewrite !forallb_app, Hq, Hq0, Hq1, Hq2. reflexivity.
  - rewrite !forallb_app, Hq3, Hq4. destruct a4; reflexivity.
  - exists s2, s3. split; [ exact Hself2 | exact E2 ].
  - intro Hd. apply in_or_app. right. apply in_or_app. left.
    apply (start_timer_issues_script s4 a4 s5 evs4); [ congruence | exact E4 | exact Ho4 ].
Qed.

Lemma run_timer_shape (k : session) (s s' : state) :
  run_timer w k s = (Ret true, s') ->
  exists pre,
    output s' =
    (output s ++ pre
       ++ progress_events (Z.to_nat (session_minutes k (self s)))
       ++ [Print " Done!"; Log (session_name k ++ " session completed!")])%list
    /\ forallb quiet pre = true.
Proof.
  intro H.
  destruct (run_timer_parts k s s' H) as (before & set & after & text & Ho & Hb & Ha & _).
  exists (before ++ (if negb set then [Log warn_duration] else []) ++ after
            ++ [Log (session_name k ++ " session active ("
                       ++ str (session_minutes k (self s)) ++ " minutes)");
                Log ("Expected completion: " ++ text); Log "Progress: "])%list.
  split.
  - rewrite Ho, <- !app_assoc. reflexivity.
  - rewrite !forallb_app, Hb, Ha. destruct set, k; reflexivity.
Qed.

Lemma start_session_shape (k : session) (s s' : state) :
  start_session w k s = (Ret true, s') ->
  exists pre,
    output s' =
    (output s ++ pre
       ++ progress_events (Z.to_nat (session_minutes k (self s)))
       ++ [Print " Done!"; Log (session_name k ++ " session completed!")])%list
    /\ forallb quiet pre = true.
Proof.
  intro H. rewrite start_session_run in H.
  destruct (switch_tab w (session_tab k (self s)) (record (Log (session_banner k)) s))
    as [r1 s1] eqn:E.
  destruct (run_ok_output _ _ _ (switch_tab_quiet w _ (interrupts_in_any w) _) _ _ _ E)
    as (Hs1 & (evs1 & Ho1 & Hq1) & _).
  destruct r1 as [[|] | e]; try discriminate H.
  apply run_timer_shape in H as (pre & Ho & Hq).
  rewrite record_self in Hs1. rewrite Hs1 in Ho.
  exists ([Log (session_banner k)] ++ evs1 ++ pre)%list. split.
  - rewrite Ho, Ho1, output_record, <- !app_assoc. reflexivity.
  - rewrite !forallb_app, Hq1, Hq. destruct k; reflexivity.
Qed.

End Session_shape.

(** X9.  The output of a session that returns [True] ends with one marker
    followed by one minute of sleep for each configured minute, then the
    "Done!" and "completed" lines; what comes before holds no marker and no
    one-minute sleep.  So such a session has slept as many minutes as were
    configured. *)
Theorem session_sleeps_its_minutes (w : world) (s s' : state) :
  (start_work_timer w s = (Ret true, s') ->
   exists pre,
     since s s' =
     (pre ++ progress_events (Z.to_nat (work_duration (self s)))
        ++ [Print " Done!"; Log "Work session completed!"])%list
     /\ markers pre = 0%nat
     /\ minute_sleeps pre = 0%nat
     /\ minute_sleeps (since s s') = Z.to_nat (work_duration (self s)))
  /\ (start_break_timer w s = (Ret true, s') ->
      exists pre,
        since s s' =
        (pre ++ progress_events (Z.to_nat (break_duration (self s)))
           ++ [Print " Done!"; Log "Break session completed!"])%list
        /\ markers pre = 0%nat
        /\ minute_sleeps pre = 0%nat
        /\ minute_sleeps (since s s') = Z.to_nat (break_duration (self s))).
Proof.
  assert (Hk : forall k,
             start_session w k s = (Ret true, s') ->
             exists pre,
               since s s' =
               (pre ++ progress_events (Z.to_nat (session_minutes k (self s)))
                  ++ [Print " Done!"; Log (session_name k ++ " session completed!")])%list
               /\ markers pre = 0%nat
               /\ minute_sleeps pre = 0%nat
               /\ minute_sleeps (since s s') = Z.to_nat (session_minutes k (self s))).
  { intros k H. apply start_session_shape in H as (pre & Ho & Hq).
    destruct (quiet_counts _ Hq) as (Hm & Hsl & _).
    assert (Hsince : since s s' =
                     (pre ++ progress_events (Z.to_nat (session_minutes k (self s)))
                        ++ [Print " Done!"; Log (session_name k ++ " session completed!")])%list).
    { unfold since. rewrite Ho. unfold output.
      rewrite <- (length_rev (trace s)), skipn_app, Nat.sub_diag, skipn_all. reflexivity. }
    exists pre. repeat split; auto.
    rewrite Hsince. unfold minute_sleeps in *.
    rewrite !filter_app, !length_app, Hsl.
    destruct (progress_events_counts (Z.to_nat (session_minutes k (self s)))) as [_ Hp].
    unfold minute_sleeps in Hp. rewrite Hp. destruct k; simpl; lia. }
  split; intro H.
  - exact (Hk WorkSession H).
  - exact (Hk BreakSession H).
Qed.

(** X9, on an obedient driver and a work session of three minutes. *)
Lemma session_sleeps_its_minutes_witness :
  minute_sleeps
    (since (initial (Stub.ready 3 2))
       (snd (start_work_timer Stub.linux (initial (Stub.ready 3 2)))))
  = 3%nat.
Proof.
  destruct (proj1 (session_sleeps_its_minutes Stub.linux (initial (Stub.ready 3 2))
                     (snd (start_work_timer Stub.linux (initial (Stub.ready 3 2))))))
    as (pre & _ & _ & _ & H).
  - vm_compute. reflexivity.
  - exact H.
Defined.

(** ** Iterations and the counter *)

Lemma prefix_app (a c : string) : String.prefix a (a ++ c) = true.
Proof. apply prefix_spec. exists c. reflexivity. Qed.

Lemma cycle_headers_app (l1 l2 : list event) :
  cycle_headers (l1 ++ l2) = (cycle_headers l1 + cycle_headers l2)%nat.
Proof. unfold cycle_headers. rewrite filter_app, length_app. reflexivity. Qed.

Lemma completions_app (l1 l2 : list event) :
  completions (l1 ++ l2) = (completions l1 + completions l2)%nat.
Proof. unfold completions. rewrite filter_app, length_app. reflexivity. Qed.

Lemma quits_app (l1 l2 : list event) :
  quits (l1 ++ l2) = (quits l1 + quits l2)%nat.
Proof. unfold quits. rewrite filter_app, length_app. reflexivity. Qed.

Section Iterations.

Variable w : world.

(** What one iteration adds to the trace. *)
Lemma cycle_counts (n : Z) (s : state) (r : res unit) (s' : state) :
  cycle w n s = (r, s') ->
  self s' = self s
  /\ exists evs,
      trace s' = (evs ++ trace s)%list
      /\ cycle_headers evs = 1%nat
      /\ quits evs = 0%nat
      /\ completions evs = (if cycle_succeeds w n s then 1 else 0)%nat
      /\ (cycle_succeeds w n s = true ->
          r = Ret tt
          /\ hd_error evs = Some (Log ("Cycle #" ++ str n ++ " completed successfully!"))).
Proof.
  intro H. unfold cycle in H. unfold cycle_succeeds.
  rewrite bind_run, cycle_header_run in H. rewrite cycle_header_run. cbn [snd].
  set (sh := record (Print (repeat_str "=" 60))
               (record (Log ("POMODORO CYCLE #" ++ str n))
                  (record (Print (repeat_str "=" 60)) s))) in *.
  assert (Hhead : is_cycle_header (Log ("POMODORO CYCLE #" ++ str n)) = true)
    by apply prefix_app.
  assert (Hdone : is_completion (Log ("Cycle #" ++ str n ++ " completed successfully!")) = true)
    by apply prefix_app.
  assert (Hsh : self sh = self s) by reflexivity.
  assert (Htsh : trace sh = ([Print (repeat_str "=" 60); Log ("POMODORO CYCLE #" ++ str n);
                              Print (repeat_str "=" 60)] ++ trace s)%list) by reflexivity.
  clearbody sh.
  pose proof (interrupts_in_any w) as Hki.
  rewrite bind_run in H.
  destruct (start_work_timer w sh) as [rw sw] eqn:Ew.
  destruct (run_ok_run _ _ _ (start_session_calm w _ Hki WorkSession) _ _ _ Ew)
    as (Hsw & (ew & Htw & Hcw) & _).
  destruct (calm_counts _ Hcw) as (Hqw & Hhw & Hdw & _).
  assert (Hbase : forall evs,
             cycle_headers (evs ++ [Print (repeat_str "=" 60);
                                    Log ("POMODORO CYCLE #" ++ str n);
                                    Print (repeat_str "=" 60)])
             = S (cycle_headers evs)
             /\ quits (evs ++ [Print (repeat_str "=" 60);
                               Log ("POMODORO CYCLE #" ++ str n);
                               Print (repeat_str "=" 60)]) = quits evs
             /\ completions (evs ++ [Print (repeat_str "=" 60);
                                     Log ("POMODORO CYCLE #" ++ str n);
                                     Print (repeat_str "=" 60)]) = completions evs).
  { intro evs. rewrite cycle_headers_app, quits_app, completions_app.
    unfold cycle_headers, quits, completions. cbn [filter is_cycle_header is_quit is_completion].
    fold (is_cycle_header (Log ("POMODORO CYCLE #" ++ str n))). rewrite Hhead.
    simpl. repeat split; lia. }
  destruct rw as [[|] | e].
  - (* the work session returned True *)
    cbn [negb] in H. rewrite bind_run in H.
    destruct (start_break_timer w sw) as [rb sb] eqn:Eb.
    destruct (run_ok_run _ _ _ (start_session_calm w _ Hki BreakSession) _ _ _ Eb)
      as (Hsb & (eb & Htb & Hcb) & _).
    destruct (calm_counts _ Hcb) as (Hqb & Hhb & Hdb & _).
    destruct rb as [[|] | e].
    + cbn [negb] in H. injection H as <- <-. split; [ cbn [self]; congruence | ].
      exists ([Log ("Cycle #" ++ str n ++ " completed successfully!")] ++ eb ++ ew
                ++ [Print (repeat_str "=" 60); Log ("POMODORO CYCLE #" ++ str n);
                    Print (repeat_str "=" 60)])%list.
      destruct (Hbase ([Log ("Cycle #" ++ str n ++ " completed successfully!")] ++ eb ++ ew)%list)
        as (Hb1 & Hb2 & Hb3).
      rewrite !app_assoc in *. rewrite Hb1, Hb2, Hb3.
      rewrite !cycle_headers_app, !quits_app, !completions_app, Hqw, Hhw, Hdw, Hqb, Hhb, Hdb.
      unfold cycle_headers, quits, completions.
      cbn [filter is_cycle_header is_quit].
      fold (is_completion (Log ("Cycle #" ++ str n ++ " completed successfully!"))).
      rewrite Hdone.
      split; [ cbn [trace]; rewrite Htb, Htw, Htsh, <- !app_assoc; reflexivity | ].
      repeat split; reflexivity.
    + cbn [negb] in H. rewrite bind_log in H.
      assert (Hr : trace s' = (Did (Sleep 5000) :: Log "Error in break timer, retrying..."
                                 :: trace sb)
                   /\ self s' = self sb).
      { unfold sleep in H.
        destruct (respond w _ (Sleep 5000)); injection H as <- <-; split; reflexivity. }
      destruct Hr as [Hr Hs']. split; [ congruence | ].
      exists ([Did (Sleep 5000); Log "Error in break timer, retrying..."] ++ eb ++ ew
                ++ [Print (repeat_str "=" 60); Log ("POMODORO CYCLE #" ++ str n);
                    Print (repeat_str "=" 60)])%list.
      destruct (Hbase ([Did (Sleep 5000); Log "Error in break timer, retrying..."]
                         ++ eb ++ ew)%list) as (Hb1 & Hb2 & Hb3).
      rewrite !app_assoc in *. rewrite Hb1, Hb2, Hb3.
      rewrite !cycle_headers_app, !quits_app, !completions_app, Hqw, Hhw, Hdw, Hqb, Hhb, Hdb.
      repeat split; try discriminate.
      rewrite Hr, Htb, Htw, Htsh. rewrite <- !app_assoc. reflexivity.
    + injection H as <- <-. split; [ congruence | ].
      exists (eb ++ ew
                ++ [Print (repeat_str "=" 60); Log ("POMODORO CYCLE #" ++ str n);
                    Print (repeat_str "=" 60)])%list.
      destruct (Hbase (eb ++ ew)%list) as (Hb1 & Hb2 & Hb3).
      rewrite !app_assoc in *. rewrite Hb1, Hb2, Hb3.
      rewrite !cycle_headers_app, !quits_app, !completions_app, Hqw, Hhw, Hdw, Hqb, Hhb, Hdb.
      repeat split; try discriminate.
      rewrite Htb, Htw, Htsh. rewrite <- !app_assoc. reflexivity.
  - (* the work session returned False *)
    cbn [negb] in H. rewrite bind_log in H.
    assert (Hr : trace s' = (Did (Sleep 5000) :: Log "Error in work timer, retrying..."
                               :: trace sw)
                 /\ self s' = self sw).
    { unfold sleep in H.
      destruct (respond w _ (Sleep 5000)); injection H as <- <-; split; reflexivity. }
    destruct Hr as [Hr Hs']. split; [ congruence | ].
    exists ([Did (Sleep 5000); Log "Error in work timer, retrying..."] ++ ew
              ++ [Print (repeat_str "=" 60); Log ("POMODORO CYCLE #" ++ str n);
                  Print (repeat_str "=" 60)])%list.
    destruct (Hbase ([Did (Sleep 5000); Log "Error in work timer, retrying..."] ++ ew)%list)
      as (Hb1 & Hb2 & Hb3).
    rewrite !app_assoc in *. rewrite Hb1, Hb2, Hb3.
    rewrite !cycle_headers_app, !quits_app, !completions_app, Hqw, Hhw, Hdw.
    repeat split; try discriminate.
    rewrite Hr, Htw, Htsh. rewrite <- !app_assoc. reflexivity.
  - (* the work session was interrupted *)
    injection H as <- <-. split; [ congruence | ].
    exists (ew ++ [Print (repeat_str "=" 60); Log ("POMODORO CYCLE #" ++ str n);
                   Print (repeat_str "=" 60)])%list.
    destruct (Hbase ew) as (Hb1 & Hb2 & Hb3).
    rewrite Hb1, Hb2, Hb3, Hqw, Hhw, Hdw.
    repeat split; try discriminate.
    rewrite Htw, Htsh. rewrite <- !app_assoc. reflexivity.
Qed.

End Iterations.

Section Counter.

Variable w : world.

Lemma while_true_counts (fuel : nat) :
  forall n s e n' s',
    while_true w fuel n s = Some (e, n', s') ->
    self s' = self s
    /\ exists evs,
        trace s' = (evs ++ trace s)%list
        /\ n' = n + Z.of_nat (cycle_headers evs)
        /\ (completions evs < cycle_headers evs)%nat
        /\ quits evs = 0%nat.
Proof.
  induction fuel as [| fuel IH]; intros n s e n' s' H; simpl in H.
  - discriminate.
  - destruct (cycle w (n + 1) s) as [r s1] eqn:E.
    destruct (cycle_counts w _ _ _ _ E) as (Hs1 & evs1 & Ht1 & Hh1 & Hq1 & Hc1 & Hok1).
    destruct r as [[] | e1].
    + destruct (IH _ _ _ _ _ H) as (Hs' & evs & Ht & Hn & Hlt & Hq).
      split; [ congruence | ].
      exists (evs ++ evs1)%list.
      rewrite cycle_headers_app, completions_app, quits_app, Hh1, Hq1, Hq.
      repeat split.
      * rewrite Ht, Ht1, app_assoc. reflexivity.
      * lia.
      * rewrite Hc1. destruct (cycle_succeeds w (n + 1) s); lia.
    + injection H as <- <- <-. split; [ exact Hs1 | ].
      exists evs1. rewrite Hh1, Hq1, Hc1.
      destruct (cycle_succeeds w (n + 1) s) eqn:Eok.
      * destruct (Hok1 eq_refl) as [Hr _]. discriminate.
      * repeat split; auto; lia.
Qed.

Lemma cleanup_quits (s : state) :
  exists s',
    cleanup w s = (Ret tt, s')
    /\ exists evs,
        trace s' = (evs ++ trace s)%list
        /\ quits evs = (if driver (self s) then 1 else 0)%nat.
Proof.
  unfold cleanup, try_except.
  rewrite bind_log, bind_get_self. cbn [self record].
  destruct (driver (self s)); unfold when.
  - rewrite bind_run, bind_run. unfold perform. cbn [clock record].
    destruct (respond w (clock s) Quit); cbn [fst snd];
      eexists; (split; [ reflexivity | ]);
      first [ exists [Log "Brave browser closed. Goodbye!"; Did Quit; Log "Cleaning up..."];
              split; reflexivity
            | exists [Did Quit; Log "Cleaning up..."]; split; reflexivity ].
  - rewrite bind_ret.
    eexists. split; [ reflexivity | ].
    exists [Log "Brave browser closed. Goodbye!"; Log "Cleaning up..."]. split; reflexivity.
Qed.

End Counter.

(** X10.  An iteration of the loop logs its completion line exactly when
    both of its sessions returned [True], and then as its last line; an
    iteration in which a session failed or was interrupted logs none. *)
Theorem completion_line_means_both_sessions_succeeded
        (w : world) (n : Z) (s : state) (r : res unit) (s' : state) :
  cycle w n s = (r, s') ->
  exists evs,
    trace s' = (evs ++ trace s)%list
    /\ completions evs = (if cycle_succeeds w n s then 1 else 0)%nat
    /\ (cycle_succeeds w n s = true ->
        r = Ret tt
        /\ hd_error evs = Some (Log ("Cycle #" ++ str n ++ " completed successfully!"))).
Proof.
  intro H.
  destruct (cycle_counts w _ _ _ _ H) as (_ & evs & Ht & _ & _ & Hc & Hok).
  exists evs. auto.
Qed.

(** X10, on the driver that cannot switch to the break tab: the work
    session succeeds, the break session fails, no completion line. *)
Lemma completion_line_means_both_sessions_succeeded_witness :
  exists evs,
    trace (snd (cycle Stub_driver.break_tab_gone 1 (initial (Stub.ready 1 1))))
    = (evs ++ [])%list
    /\ completions evs = 0%nat.
Proof.
  destruct (completion_line_means_both_sessions_succeeded
              Stub_driver.break_tab_gone 1 (initial (Stub.ready 1 1))
              (fst (cycle Stub_driver.break_tab_gone 1 (initial (Stub.ready 1 1))))
              (snd (cycle Stub_driver.break_tab_gone 1 (initial (Stub.ready 1 1)))))
    as (evs & Ht & Hc & _).
  - vm_compute. reflexivity.
  - exists evs. split; [ exact Ht | ].
    rewrite Hc.
    assert (Hf : cycle_succeeds Stub_driver.break_tab_gone 1 (initial (Stub.ready 1 1)) = false)
      by (vm_compute; reflexivity).
    rewrite Hf. reflexivity.
Defined.

(** X11.  When the loop is left, the counter has advanced by the number of
    iterations begun, one per header line, and that number is greater than
    the number of iterations completed: the iteration that was interrupted
    and every failed one are counted too. *)
Theorem counter_counts_iterations_begun
        (w : world) (fuel : nat) (n : Z) (s : state) (e : exn) (n' : Z) (s' : state) :
  while_true w fuel n s = Some (e, n', s') ->
  exists evs,
    trace s' = (evs ++ trace s)%list
    /\ n' = n + Z.of_nat (cycle_headers evs)
    /\ (completions evs < cycle_headers evs)%nat.
Proof.
  intro H.
  destruct (while_true_counts w fuel _ _ _ _ _ H) as (_ & evs & Ht & Hn & Hlt & _).
  exists evs. auto.
Qed.

(** X11, with Ctrl-C in the first minute of the first work session: one
    header, no completion, and the counter stands at one. *)
Lemma counter_counts_iterations_begun_witness :
  exists evs,
    trace (snd (cycle Stub_loop.ctrl_c_in_first_minute 1 (initial (Stub.ready 25 5))))
    = (evs ++ [])%list
    /\ 1 = 0 + Z.of_nat (cycle_headers evs)
    /\ (completions evs < cycle_headers evs)%nat.
Proof.
  apply (counter_counts_iterations_begun Stub_loop.ctrl_c_in_first_minute 1 0
           (initial (Stub.ready 25 5)) KeyboardInterrupt 1).
  vm_compute. reflexivity.
Defined.

(** X12.  When [main_loop] ends, [driver.quit()] has been called exactly
    once if the object has a driver and not at all otherwise: never during
    the iterations, once in [cleanup]. *)
Theorem quit_is_called_once_at_the_end
        (w : world) (fuel : nat) (s : state) (r : res unit) (s' : state) :
  main_loop w fuel s = Some (r, s') ->
  r = Ret tt
  /\ exists evs,
      trace s' = (evs ++ trace s)%list
      /\ quits evs = (if driver (self s) then 1 else 0)%nat.
Proof.
  intro H. unfold main_loop in H. rewrite main_loop_banner_run in H.
  destruct (while_true w fuel 0 _) as [[[e n] s1] |] eqn:Hloop; [ | discriminate ].
  destruct (while_true_counts w fuel _ _ _ _ _ Hloop) as (Hs1 & evs1 & Ht1 & _ & _ & Hq1).
  destruct (while_true_run w _ (interrupts_in_any w) _ _ _ _ _ _ Hloop)
    as (_ & _ & [[<- | []] | [-> _]] & _).
  - rewrite bind_log in H. unfold log at 1, emit at 1 in H.
    match type of H with
    | context [cleanup w ?x] =>
        destruct (cleanup_quits w x) as (s3 & Hc & evs3 & Ht3 & Hq3)
    end.
    rewrite Hc in H. injection H as <- <-. split; [ reflexivity | ].
    cbn [self record] in Hq3, Hs1. rewrite Hs1 in Hq3. cbn [self record] in Hq3.
    exists (evs3 ++ [Log ("Total sessions completed: " ++ str n);
                     Log "Pomodoro automation stopped by user"]
              ++ evs1
              ++ [Log "Press Ctrl+C to stop";
                  Log ("Work: " ++ str (work_duration (self s)) ++ " min | Break: "
                         ++ str (break_duration (self s)) ++ " min");
                  Log ("Browser: " ++ browser_type);
                  Log "Starting Pomodoro automation loop..."])%list.
    split.
    + rewrite Ht3. cbn [trace record app]. rewrite Ht1. cbn [trace record app].
      repeat (rewrite <- app_assoc; cbn [app]). reflexivity.
    + rewrite !quits_app, Hq3, Hq1. unfold quits. simpl. lia.
  - unfold log at 1, emit at 1 in H.
    match type of H with
    | context [cleanup w ?x] =>
        destruct (cleanup_quits w x) as (s3 & Hc & evs3 & Ht3 & Hq3)
    end.
    rewrite Hc in H. injection H as <- <-. split; [ reflexivity | ].
    cbn [self record] in Hq3, Hs1. rewrite Hs1 in Hq3. cbn [self record] in Hq3.
    exists (evs3 ++ [Log "Unexpected error: "]
              ++ evs1
              ++ [Log "Press Ctrl+C to stop";
                  Log ("Work: " ++ str (work_duration (self s)) ++ " min | Break: "
                         ++ str (break_duration (self s)) ++ " min");
                  Log ("Browser: " ++ browser_type);
                  Log "Starting Pomodoro automation loop..."])%list.
    split.
    + rewrite Ht3. cbn [trace record app]. rewrite Ht1. cbn [trace record app].
      repeat (rewrite <- app_assoc; cbn [app]). reflexivity.
    + rewrite !quits_app, Hq3, Hq1. unfold quits. simpl. lia.
Qed.

(** X12, with Ctrl-C in the first minute of the first work session and a
    [driver.quit()] that raises. *)
Lemma quit_is_called_once_at_the_end_witness :
  exists s' evs,
    main_loop Stub_loop.ctrl_c_in_first_minute 1 (initial (Stub.ready 25 5))
    = Some (Ret tt, s')
    /\ trace s' = (evs ++ [])%list
    /\ quits evs = 1%nat.
Proof.
  assert (Hrun : exists s',
             main_loop Stub_loop.ctrl_c_in_first_minute 1 (initial (Stub.ready 25 5))
             = Some (Ret tt, s')).
  { eexists. vm_compute. reflexivity. }
  destruct Hrun as (s' & Hrun).
  destruct (quit_is_called_once_at_the_end _ _ _ _ _ Hrun) as (_ & evs & Ht & Hq).
  exists s', evs. auto.
Defined.

(** ** The fallback of [set_timer_duration] *)

Section Field_edits.

Variable w : world.
Variable ki : list exn.
Hypothesis Hki : interrupts_in w ki.

Lemma fill_input_edits (minutes : Z) (inp : input_elem) :
  run_ok (field_edit_ok minutes) (may_raise (PyException :: ki)) (fill_input w minutes inp).
Proof.
  unfold fill_input.
  apply run_ok_bind; [ apply run_ok_perform_at; [ exact Hki | reflexivity ] | intros _ ].
  apply run_ok_bind; [ apply run_ok_perform_at; [ exact Hki | reflexivity ] | intros _ ].
  fold (mentions "hour" inp). fold (mentions "minute" inp). fold (mentions "second" inp).
  destruct (mentions "hour" inp) eqn:Eh;
    [ | destruct (mentions "minute" inp) eqn:Em;
        [ | destruct (mentions "second" inp) eqn:Es ] ];
    repeat first
      [ apply run_ok_ret
      | apply run_ok_bind; [ | intros _ ]
      | apply run_ok_perform_at;
        [ exact Hki
        | cbn [field_edit_ok]; rewrite ?Eh, ?Em, ?Es, ?String.eqb_refl;
          cbn [andb orb negb]; rewrite ?Bool.orb_true_r; reflexivity ] ].
Qed.

Lemma set_timer_duration_edits (minutes : Z) :
  run_ok (field_edit_ok minutes) (may_raise ki) (set_timer_duration w minutes).
Proof.
  unfold set_timer_duration. repeat run_ok_step_at w.
  apply fill_input_edits.
Qed.

End Field_edits.

(** X13.  Whatever the driver answers, [set_timer_duration] clears only
    input fields whose [id] or [name] mentions hour, minute or second, types
    "0" only into fields that mention hour or second, and types the minutes
    only into fields that mention minute and not hour. *)
Theorem set_timer_duration_edits_only_timer_fields (w : world) (minutes : Z) (s : state) :
  exists evs,
    trace (snd (set_timer_duration w minutes s)) = (evs ++ trace s)%list
    /\ (forall inp, In (Did (Clear inp)) evs ->
        mentions "hour" inp = true \/ mentions "minute" inp = true
        \/ mentions "second" inp = true)
    /\ (forall inp keys, In (Did (SendKeys inp keys)) evs ->
        (keys = "0" /\ (mentions "hour" inp = true \/ mentions "second" inp = true))
        \/ (keys = str minutes /\ mentions "minute" inp = true
            /\ mentions "hour" inp = false)).
Proof.
  destruct (set_timer_duration_edits w _ (interrupts_in_any w) minutes s)
    as (_ & (evs & Ht & Hok) & _).
  exists evs. split; [ exact Ht | ].
  rewrite forallb_forall in Hok. split.
  - intros inp Hin. apply Hok in Hin. cbn [field_edit_ok] in Hin.
    destruct (mentions "hour" inp), (mentions "minute" inp), (mentions "second" inp);
      auto; discriminate.
  - intros inp keys Hin. apply Hok in Hin. cbn [field_edit_ok] in Hin.
    apply Bool.orb_true_iff in Hin. destruct Hin as [Hin | Hin].
    + apply Bool.andb_true_iff in Hin. destruct Hin as [Hk Hm].
      apply String.eqb_eq in Hk. left. split; [ exact Hk | ].
      apply Bool.orb_true_iff in Hm. exact Hm.
    + apply Bool.andb_true_iff in Hin. destruct Hin as [Hin Hh].
      apply Bool.andb_true_iff in Hin. destruct Hin as [Hk Hm].
      apply String.eqb_eq in Hk. right. repeat split; auto.
      apply Bool.negb_true_iff. exact Hh.
Qed.

Section Fallback_without_fields.

Variable w : world.
Hypothesis Hattr : forall n inp a, respond w n (GetAttribute inp a) = Ok.

Lemma fill_input_skips (minutes : Z) (inp : input_elem) (s : state) :
  mentions "hour" inp = false ->
  mentions "minute" inp = false ->
  mentions "second" inp = false ->
  fill_input w minutes inp s
  = (Ret tt, tick (GetAttribute inp "name") (tick (GetAttribute inp "id") s)).
Proof.
  intros Hh Hm Hs. unfold fill_input.
  rewrite bind_run. unfold perform at 1. rewrite Hattr.
  rewrite bind_run. unfold perform at 1. rewrite Hattr.
  fold (mentions "hour" inp). fold (mentions "minute" inp). fold (mentions "second" inp).
  rewrite Hh, Hm, Hs. reflexivity.
Qed.

Lemma for_each_skips (minutes : Z) (l : list input_elem) :
  (forall inp, In inp l ->
     mentions "hour" inp = false /\ mentions "minute" inp = false
     /\ mentions "second" inp = false) ->
  forall s, exists s',
    for_each l (fill_input w minutes) s = (Ret tt, s')
    /\ self s' = self s
    /\ exists evs, trace s' = (evs ++ trace s)%list /\ filter is_field_edit evs = [].
Proof.
  induction l as [| inp rest IH]; intros Hl s.
  - exists s. repeat split. exists []. split; reflexivity.
  - destruct (Hl inp (or_introl eq_refl)) as (Hh & Hm & Hs).
    cbn [for_each]. rewrite bind_run, (fill_input_skips _ _ _ Hh Hm Hs).
    destruct (IH (fun i Hi => Hl i (or_intror Hi))
                (tick (GetAttribute inp "name") (tick (GetAttribute inp "id") s)))
      as (s' & Hrun & Hself & evs & Ht & Hnone).
    exists s'. split; [ exact Hrun | ]. split; [ exact Hself | ].
    exists (evs ++ [Did (GetAttribute inp "name"); Did (GetAttribute inp "id")])%list.
    split.
    + rewrite Ht, <- app_assoc. reflexivity.
    + rewrite filter_app, Hnone. reflexivity.
Qed.

End Fallback_without_fields.

(** X14.  The fallback of [set_timer_duration] reports success without
    having set anything: when the duration script raises and no input field
    of the page mentions hour, minute or second, nothing is cleared or typed
    and [set_timer_duration] still returns [True]. *)
Theorem fallback_succeeds_without_timer_fields (w : world) (minutes : Z) (s : state) :
  driver (self s) = true ->
  respond w (clock s) (Sleep 2000) <> Interrupt ->
  respond w (S (clock s)) (ExecuteScript (SetTimerScript minutes)) = Error ->
  respond w (S (S (clock s))) FindInputs = Ok ->
  (forall inp, In inp (found_inputs w (S (S (clock s)))) ->
     mentions "hour" inp = false /\ mentions "minute" inp = false
     /\ mentions "second" inp = false) ->
  (forall n inp a, respond w n (GetAttribute inp a) = Ok) ->
  (forall n, respond w n (Sleep 1000) <> Interrupt) ->
  exists s' evs,
    set_timer_duration w minutes s = (Ret true, s')
    /\ trace s' = (evs ++ trace s)%list
    /\ filter is_field_edit evs = [].
Proof.
  intros Hd Hsleep Hscript Hfind Hinputs Hattr Hpause.
  unfold set_timer_duration, try_except_Exception.
  rewrite bind_run, (sleep_run _ _ _ Hsleep).
  rewrite bind_run, on_driver_run by exact Hd.
  cbn [clock tick]. rewrite Hscript. rewrite bind_log.
  unfold try_except.
  rewrite bind_run, on_driver_run by exact Hd.
  cbn [clock tick record]. rewrite Hfind.
  rewrite bind_run.
  match goal with
  | |- context [for_each ?l _ ?s0] =>
      destruct (for_each_skips w Hattr minutes l Hinputs s0)
        as (s1 & Hrun & _ & evs & Ht & Hnone)
  end.
  rewrite Hrun. rewrite bind_run, (sleep_run _ _ _ (Hpause _)).
  eexists. exists (Did (Sleep 1000) :: evs ++ [Did FindInputs; Log "Error setting timer duration: ";
                                               Did (ExecuteScript (SetTimerScript minutes));
                                               Did (Sleep 2000)])%list.
  split; [ reflexivity | ]. split.
  - cbn [trace tick]. rewrite Ht. cbn [trace tick record app].
    rewrite <- app_assoc. reflexivity.
  - cbn [filter is_field_edit]. rewrite filter_app, Hnone. reflexivity.
Qed.

(** X14, on a page whose only input is a search box. *)
Lemma fallback_succeeds_without_timer_fields_witness :
  exists s' evs,
    set_timer_duration (Stub_more.with_inputs [Stub_more.field "q" "search"]) 25
      (initial (Stub.ready 25 5)) = (Ret true, s')
    /\ trace s' = (evs ++ [])%list
    /\ filter is_field_edit evs = [].
Proof.
  apply (fallback_succeeds_without_timer_fields
           (Stub_more.with_inputs [Stub_more.field "q" "search"]) 25
           (initial (Stub.ready 25 5)) eq_refl).
  - discriminate.
  - reflexivity.
  - reflexivity.
  - intros inp [<- | []]. vm_compute. auto.
  - reflexivity.
  - discriminate.
Defined.


(** ** The tabs *)

Lemma bind_returns {A B} (m : M A) (f : A -> M B) (s : state) (b : B) (s' : state) :
  bind m f s = (Ret b, s') ->
  exists a s1, m s = (Ret a, s1) /\ f a s1 = (Ret b, s').
Proof.
  unfold bind. destruct (m s) as [[a | e] s1]; intro H; [ eauto | discriminate ].
Qed.

Lemma bind_set_self {B} (p : PomodoroAutomation) (f : unit -> M B) (s : state) :
  bind (set_self p) f s = f tt {| self := p; clock := clock s; trace := trace s |}.
Proof. reflexivity. Qed.

Lemma on_driver_returns (w : world) (c : call) (s : state) (n : nat) (s' : state) :
  on_driver w c s = (Ret n, s') ->
  driver (self s) = true /\ respond w (clock s) c = Ok /\ n = clock s /\ s' = tick c s.
Proof.
  unfold on_driver. rewrite bind_get_self.
  destruct (driver (self s)); [ | discriminate ].
  unfold perform. destruct (respond w (clock s) c); intro H; try discriminate.
  injection H as <- <-. auto.
Qed.

Lemma sleep_returns (w : world) (ms : Z) (s : state) (u : unit) (s' : state) :
  sleep w ms s = (Ret u, s') -> s' = tick (Sleep ms) s.
Proof.
  destruct u. unfold sleep.
  destruct (respond w (clock s) (Sleep ms)); intro H; try discriminate;
    injection H as <-; reflexivity.
Qed.

Lemma try_returns_true (body : M bool) (t : string) (s s' : state) :
  try_except_Exception body (log t ;; ret false) s = (Ret true, s') ->
  body s = (Ret true, s').
Proof.
  unfold try_except_Exception. destruct (body s) as [[b | e] s1]; [ auto | ].
  destruct e; try discriminate.
Qed.

Ltac returns_step H :=
  lazymatch type of H with
  | bind (log _) _ _ = _ => rewrite bind_log in H
  | bind get_self _ _ = _ => rewrite bind_get_self in H
  | bind (set_self _) _ _ = _ => rewrite bind_set_self in H
  | bind (ret _) _ _ = _ => rewrite bind_ret in H
  | bind (on_driver _ _) _ _ = _ =>
      let Hc := fresh "Hc" in
      apply bind_returns in H; destruct H as (? & ? & Hc & H);
      apply on_driver_returns in Hc; destruct Hc as (? & ? & -> & ->)
  | bind (sleep _ _) _ _ = _ =>
      let Hc := fresh "Hc" in
      apply bind_returns in H; destruct H as (? & ? & Hc & H);
      apply sleep_returns in Hc; subst
  end;
  cbn [self clock trace tick record with_work_tab with_break_tab work_tab break_tab driver]
    in H.

(** X15.  When [setup_tabs] returns [True], the work tab is the window the
    driver was in after loading the page, the break tab is one of the
    reported windows and differs from the work tab, or, when the driver
    reports no other window, is left as it was; and the last thing asked of
    the driver was to switch back to the work tab. *)
Theorem setup_tabs_postcondition (w : world) (s s' : state) :
  setup_tabs w s = (Ret true, s') ->
  exists h,
    h = current_window_handle w (2 + clock s)%nat
    /\ work_tab (self s') = Some h
    /\ ((exists t, break_tab (self s') = Some t /\ t <> h
                   /\ In t (window_handles w (5 + clock s)%nat))
        \/ (break_tab (self s') = break_tab (self s)
            /\ forall t, In t (window_handles w (5 + clock s)%nat) -> t = h))
    /\ driver (self s') = true
    /\ exists rest,
        trace s' = Log "Both timer tabs ready!" :: Did (SwitchToWindow (Some h)) :: rest.
Proof.
  intro H. unfold setup_tabs in H. apply try_returns_true in H.
  do 13 returns_step H.
  match type of H with
  | context [find ?f ?l] => destruct (find f l) as [t |] eqn:Efind
  end;
    repeat returns_step H; injection H as <-;
    eexists; (split; [ reflexivity | ]);
    cbn [self trace work_tab break_tab driver plus tick record];
    (split; [ reflexivity | ]).
  - split; [ left | split; [ assumption | eexists; reflexivity ] ].
    apply find_some in Efind. destruct Efind as [Hin Hdiff].
    exists t. split; [ reflexivity | ]. split; [ | exact Hin ].
    apply Bool.negb_true_iff, String.eqb_neq in Hdiff. exact Hdiff.
  - split; [ right | split; [ assumption | eexists; reflexivity ] ].
    split; [ reflexivity | ].
    intros t Hin. apply (find_none _ _ Efind) in Hin.
    apply Bool.negb_false_iff, String.eqb_eq in Hin. exact Hin.
Qed.

(** X15, on a browser in which [window.open] opened nothing and whose
    driver accepts [switch_to.window(None)]: the break tab stays unset. *)
Lemma setup_tabs_postcondition_witness :
  exists h,
    h = "tab-A"
    /\ work_tab (self (snd (setup_tabs Stub_more.single_tab
                              (initial (with_driver __init__ true))))) = Some h
    /\ break_tab (self (snd (setup_tabs Stub_more.single_tab
                               (initial (with_driver __init__ true))))) = None.
Proof.
  destruct (setup_tabs_postcondition Stub_more.single_tab
              (initial (with_driver __init__ true))
              (snd (setup_tabs Stub_more.single_tab (initial (with_driver __init__ true)))))
    as (h & Hh & Hw & _).
  - vm_compute. reflexivity.
  - exists h. split; [ exact Hh | ]. split; [ exact Hw | ].
    vm_compute. reflexivity.
Defined.

(** ** Iterations that complete *)

Section Obedient_tabs.

Variable w : world.
Hypothesis Hnever : never_interrupted w.
Hypothesis Hswitch : forall n h, respond w n (SwitchToWindow h) = Ok.

Lemma session_succeeds (k : session) (s : state) :
  driver (self s) = true ->
  in_time w (session_minutes k (self s)) ->
  exists s' evs,
    start_session w k s = (Ret true, s')
    /\ self s' = self s
    /\ trace s' = (evs ++ trace s)%list
    /\ markers evs = Z.to_nat (session_minutes k (self s)).
Proof.
  intros Hd Htime.
  destruct (start_session w k s) as [r s'] eqn:E.
  destruct (session_result w k s) as (_ & Htrue).
  rewrite (switch_tab_run w Hnever Hswitch) in Htrue by exact Hd.
  destruct (Htrue eq_refl) as (_ & Hret). specialize (Hret Hnever Htime).
  rewrite E in Hret. cbn [fst] in Hret. subst r.
  destruct (run_ok_run _ _ _ (start_session_calm w _ (interrupts_in_any w) k) _ _ _ E)
    as (Hself & _ & _).
  destruct (session_markers w k s true s' E) as (evs & Ht & Hm).
  exists s', evs. auto.
Qed.

Lemma cycle_completes (n : Z) (s : state) :
  driver (self s) = true ->
  in_time w (work_duration (self s)) ->
  in_time w (break_duration (self s)) ->
  exists s',
    cycle w n s = (Ret tt, s')
    /\ self s' = self s
    /\ hd_error (trace s') = Some (Log ("Cycle #" ++ str n ++ " completed successfully!"))
    /\ markers (since s s')
       = (Z.to_nat (work_duration (self s)) + Z.to_nat (break_duration (self s)))%nat.
Proof.
  intros Hd Hwork Hbreak. unfold cycle.
  rewrite bind_run, cycle_header_run.
  set (sh := record (Print (repeat_str "=" 60))
               (record (Log ("POMODORO CYCLE #" ++ str n))
                  (record (Print (repeat_str "=" 60)) s))).
  assert (Hsh : self sh = self s) by reflexivity.
  assert (Htsh : trace sh = ([Print (repeat_str "=" 60); Log ("POMODORO CYCLE #" ++ str n);
                              Print (repeat_str "=" 60)] ++ trace s)%list) by reflexivity.
  clearbody sh.
  destruct (session_succeeds WorkSession sh) as (sw & ew & Ew & Hsw & Htw & Hmw);
    [ congruence | cbn [session_minutes]; rewrite Hsh; exact Hwork | ].
  destruct (session_succeeds BreakSession sw) as (sb & eb & Eb & Hsb & Htb & Hmb);
    [ congruence | cbn [session_minutes]; rewrite Hsw, Hsh; exact Hbreak | ].
  change (start_session w WorkSession) with (start_work_timer w) in Ew.
  change (start_session w BreakSession) with (start_break_timer w) in Eb.
  rewrite bind_run, Ew. cbn [negb]. rewrite bind_run, Eb. cbn [negb].
  eexists. split; [ reflexivity | ].
  split; [ cbn [self record]; congruence | ].
  split; [ reflexivity | ].
  rewrite (since_app s _
             ([Log ("Cycle #" ++ str n ++ " completed successfully!")] ++ eb ++ ew
                ++ [Print (repeat_str "=" 60); Log ("POMODORO CYCLE #" ++ str n);
                    Print (repeat_str "=" 60)])%list).
  - rewrite markers_rev, !markers_app, Hmw, Hmb.
    cbn [session_minutes]. rewrite Hsw, Hsh.
    assert (Hhead : markers [Print (repeat_str "=" 60); Log ("POMODORO CYCLE #" ++ str n);
                             Print (repeat_str "=" 60)] = 0%nat) by reflexivity.
    assert (Hdone : markers [Log ("Cycle #" ++ str n ++ " completed successfully!")] = 0%nat)
      by reflexivity.
    rewrite Hhead, Hdone. lia.
  - cbn [trace record]. rewrite Htb, Htw, Htsh, <- !app_assoc. reflexivity.
Qed.

End Obedient_tabs.

(** X16.  With a driver, tabs that can be switched to, completion times
    that can be computed and no Ctrl-C, an iteration of the loop always
    completes, whatever else the driver and the page do: both sessions run,
    one marker is printed per minute of work and of break, and the
    completion line is the last line of the iteration. *)
Theorem iteration_completes_when_tabs_switch (w : world) (n : Z) (s : state) :
  never_interrupted w ->
  (forall m h, respond w m (SwitchToWindow h) = Ok) ->
  driver (self s) = true ->
  in_time w (work_duration (self s)) ->
  in_time w (break_duration (self s)) ->
  exists s',
    cycle w n s = (Ret tt, s')
    /\ self s' = self s
    /\ hd_error (trace s') = Some (Log ("Cycle #" ++ str n ++ " completed successfully!"))
    /\ markers (since s s')
       = (Z.to_nat (work_duration (self s)) + Z.to_nat (break_duration (self s)))%nat.
Proof.
  intros Hnever Hswitch Hd Hwork Hbreak.
  exact (cycle_completes w Hnever Hswitch n s Hd Hwork Hbreak).
Qed.

(** X16, on the driver that raises on everything but the tab switches. *)
Lemma iteration_completes_when_tabs_switch_witness :
  exists s',
    cycle Stub_driver.only_switches 1 (initial (Stub.ready 2 1)) = (Ret tt, s')
    /\ self s' = Stub.ready 2 1
    /\ hd_error (trace s') = Some (Log "Cycle #1 completed successfully!")
    /\ markers (since (initial (Stub.ready 2 1)) s') = 3%nat.
Proof.
  apply (iteration_completes_when_tabs_switch
           Stub_driver.only_switches 1 (initial (Stub.ready 2 1))
           (fun n c => ltac:(destruct c as [| | | | | | [] | | | | | | | | | |]; discriminate))
           (fun _ _ => eq_refl) eq_refl).
  - intro n. vm_compute. discriminate.
  - intro n. vm_compute. discriminate.
Defined.

(** ** Markers and minutes in every run *)

Lemma minute_sleeps_app (l1 l2 : list event) :
  minute_sleeps (l1 ++ l2) = (minute_sleeps l1 + minute_sleeps l2)%nat.
Proof. unfold minute_sleeps. rewrite filter_app, length_app. reflexivity. Qed.

Lemma paced_quiet {A} (P : exn -> Prop) (m : M A) (s : state) :
  run_ok quiet P m -> paced_at 0 m s.
Proof.
  intro H. destruct (H s) as (Hs & (evs & Ht & Hq) & _).
  destruct (quiet_counts _ Hq) as (Hm & Hsl & _).
  split; [ exact Hs | ]. exists evs. rewrite Hm, Hsl. auto.
Qed.

Lemma paced_bind {A B} (m : M A) (f : A -> M B) (s : state) (a b : nat) :
  paced_at a m s ->
  (forall x s1, m s = (Ret x, s1) -> paced_at b (f x) s1) ->
  paced_at (a + b) (bind m f) s.
Proof.
  unfold paced_at, bind. intros (Hs & evs & Ht & Heq & Hle) Hf.
  destruct (m s) as [[x | e] s1]; cbn [fst snd] in *.
  - destruct (Hf x s1 eq_refl) as (Hs2 & evs2 & Ht2 & Heq2 & Hle2).
    split; [ congruence | ].
    exists (evs2 ++ evs)%list.
    rewrite markers_app, minute_sleeps_app, Ht2, Ht, app_assoc.
    repeat split; lia.
  - split; [ exact Hs | ]. exists evs. repeat split; auto; lia.
Qed.

Lemma paced_weaken {A} (m : M A) (s : state) (a b : nat) :
  paced_at a m s -> (a <= b)%nat -> paced_at b m s.
Proof.
  intros (Hs & evs & Ht & Heq & Hle) Hab.
  split; [ exact Hs | ]. exists evs. repeat split; auto; lia.
Qed.

Lemma paced_get_self {B} (f : PomodoroAutomation -> M B) (s : state) (N : nat) :
  paced_at N (f (self s)) s -> paced_at N (bind get_self f) s.
Proof. unfold paced_at. rewrite bind_get_self. auto. Qed.

Ltac paced_step L :=
  lazymatch goal with
  | |- paced_at ?N (bind ?m ?f) ?s =>
      let x := fresh "x" in
      let s1 := fresh "s" in
      let E := fresh "E" in
      let Hs := fresh "Hs" in
      apply (paced_bind m f s 0 N);
      [ apply (paced_quiet _ _ s L)
      | intros x s1 E; destruct (run_ok_run _ _ _ L _ _ _ E) as (Hs & _ & _) ]
  end.

Section Paced_sessions.

Variable w : world.

Lemma paced_minutes (l : list Z) :
  forall s, paced_at (List.length l) (for_each l (fun _ => minute w)) s.
Proof.
  induction l as [| x l IH]; intro s.
  - split; [ reflexivity | ]. exists []. repeat split; auto.
  - cbn [for_each List.length]. unfold paced_at. rewrite bind_run, minute_run.
    set (s1 := {| self := self s; clock := S (clock s);
                  trace := Did (Sleep 60000) :: Print "." :: trace s |}).
    destruct (IH s1) as (Hs & evs & Ht & Heq & Hle).
    assert (Hone : markers [Did (Sleep 60000); Print "."] = 1%nat
                   /\ minute_sleeps [Did (Sleep 60000); Print "."] = 1%nat)
      by (split; reflexivity).
    destruct Hone as [Hm1 Hs1].
    destruct (respond w (clock s) (Sleep 60000));
      [ | | split; [ reflexivity | ];
            exists [Did (Sleep 60000); Print "."]; rewrite Hm1, Hs1;
            repeat split; lia ];
      (split; [ exact Hs | ];
       exists (evs ++ [Did (Sleep 60000); Print "."])%list;
       rewrite markers_app, minute_sleeps_app, Hm1, Hs1, Ht, <- app_assoc;
       repeat split; lia).
Qed.

Lemma run_timer_paced (k : session) (s : state) :
  paced_at (Z.to_nat (session_minutes k (self s))) (run_timer w k) s.
Proof.
  pose proof (interrupts_in_any w) as Hki.
  assert (Hemit : forall t, quiet (Log t) = true -> run_ok quiet (may_raise [KeyboardInterrupt]) (log t))
    by (intros t Ht; apply run_ok_emit; exact Ht).
  assert (Hwhen : forall b t, quiet (Log t) = true ->
                              run_ok quiet (may_raise [KeyboardInterrupt]) (when b (log t))).
  { intros [|] t Ht; unfold when; [ apply run_ok_emit; exact Ht | apply run_ok_ret ]. }
  unfold run_timer, finish_timer.
  paced_step (sleep_quiet w _ Hki 2000 ltac:(discriminate)).
  paced_step (stop_timer_quiet w _ Hki).
  paced_step (sleep_quiet w _ Hki 2000 ltac:(discriminate)).
  apply paced_get_self.
  paced_step (set_timer_duration_quiet w _ Hki (session_minutes k (self s2))).
  paced_step (Hwhen (negb x2) warn_duration eq_refl).
  paced_step (sleep_quiet w _ Hki 1000 ltac:(discriminate)).
  paced_step (start_timer_quiet w _ Hki).
  paced_step (Hwhen (negb x5) warn_start eq_refl).
  apply paced_get_self.
  match goal with
  | |- paced_at _ (bind (log ?t) _) _ =>
      paced_step (Hemit t ltac:(destruct k; reflexivity))
  end.
  paced_step (run_ok_get_completion_time w quiet (may_raise [PyException])
                (session_minutes k (self s7)) (or_introl eq_refl)).
  match goal with
  | |- paced_at _ (bind (log ?t) _) _ => paced_step (Hemit t eq_refl)
  end.
  paced_step (Hemit "Progress: " eq_refl).
  apply paced_get_self.
  match goal with
  | |- paced_at _ (bind (for_each (range (session_minutes k (self ?x))) _) _) _ =>
      replace (self x) with (self s) by congruence
  end.
  eapply paced_weaken;
    [ apply (paced_bind _ _ _ (Z.to_nat (session_minutes k (self s))) 0) | lia ].
  - rewrite <- (length_range (session_minutes k (self s))). apply paced_minutes.
  - intros _ ? _. apply (paced_quiet (may_raise [KeyboardInterrupt])).
    repeat run_ok_step_at w. destruct k; apply run_ok_emit; reflexivity.
Qed.

Lemma start_session_paced (k : session) (s : state) :
  paced_at (Z.to_nat (session_minutes k (self s))) (start_session w k) s.
Proof.
  pose proof (interrupts_in_any w) as Hki.
  rewrite start_session_eq.
  assert (Hbanner : run_ok quiet (may_raise [KeyboardInterrupt]) (log (session_banner k)))
    by (destruct k; apply run_ok_emit; reflexivity).
  paced_step Hbanner.
  apply paced_get_self.
  paced_step (switch_tab_quiet w _ Hki (session_tab k (self s0))).
  destruct (negb x0).
  - eapply paced_weaken; [ apply (paced_quiet (may_raise [KeyboardInterrupt])) | lia ].
    apply run_ok_ret.
  - replace (self s) with (self s1) by congruence. apply run_timer_paced.
Qed.

End Paced_sessions.

(** X17.  In every run of a session function, completed, failed or
    interrupted, the number of progress markers printed equals the number
    of one-minute sleeps started, and never exceeds the configured minutes. *)
Theorem markers_never_exceed_the_minutes (w : world) (s : state) :
  (exists evs,
      trace (snd (start_work_timer w s)) = (evs ++ trace s)%list
      /\ markers evs = minute_sleeps evs
      /\ (markers evs <= Z.to_nat (work_duration (self s)))%nat)
  /\ (exists evs,
         trace (snd (start_break_timer w s)) = (evs ++ trace s)%list
         /\ markers evs = minute_sleeps evs
         /\ (markers evs <= Z.to_nat (break_duration (self s)))%nat).
Proof.
  split.
  - exact (proj2 (start_session_paced w WorkSession s)).
  - exact (proj2 (start_session_paced w BreakSession s)).
Qed.

(** ** An object without a driver *)

Section Without_driver.

Variable w : world.

Lemma on_driver_none (c : call) (s : state) :
  driver (self s) = false -> on_driver w c s = (Raise PyException, s).
Proof. intro H. unfold on_driver. rewrite bind_get_self, H. reflexivity. Qed.

Lemma switch_tab_none (h : option handle) (s : state) :
  driver (self s) = false ->
  switch_tab w h s = (Ret false, record (Log "Error switching tabs: ") s).
Proof.
  intro H. unfold switch_tab, try_except_Exception.
  rewrite bind_run, on_driver_none by exact H. reflexivity.
Qed.

Lemma start_session_none (k : session) (s : state) :
  driver (self s) = false -> fst (start_session w k s) = Ret false.
Proof.
  intro H. rewrite start_session_run, switch_tab_none by exact H. reflexivity.
Qed.

End Without_driver.

(** X18.  On an object whose [driver] is still [None], no method lets the
    AttributeError out: [switch_tab], [stop_timer], [setup_tabs] and both
    session functions return [False], and so do [set_timer_duration] and
    [start_timer] once their first sleep has passed without Ctrl-C. *)
Theorem without_driver_every_method_returns_false
        (w : world) (h : option handle) (minutes : Z) (s : state) :
  driver (self s) = false ->
  fst (switch_tab w h s) = Ret false
  /\ fst (stop_timer w s) = Ret false
  /\ fst (setup_tabs w s) = Ret false
  /\ fst (start_work_timer w s) = Ret false
  /\ fst (start_break_timer w s) = Ret false
  /\ (respond w (clock s) (Sleep 2000) <> Interrupt ->
      fst (set_timer_duration w minutes s) = Ret false)
  /\ (respond w (clock s) (Sleep 1000) <> Interrupt ->
      fst (start_timer w s) = Ret false).
Proof.
  intro H. repeat split.
  - rewrite switch_tab_none by exact H. reflexivity.
  - unfold stop_timer, try_except_Exception.
    rewrite bind_run, on_driver_none by exact H. reflexivity.
  - unfold setup_tabs, try_except_Exception.
    rewrite !bind_log, bind_run, on_driver_none by exact H. reflexivity.
  - exact (start_session_none w WorkSession s H).
  - exact (start_session_none w BreakSession s H).
  - intro Hsleep. unfold set_timer_duration, try_except_Exception.
    rewrite bind_run, (sleep_run _ _ _ Hsleep).
    rewrite bind_run, on_driver_none by exact H.
    rewrite bind_log. unfold try_except.
    rewrite bind_run, on_driver_none by exact H. reflexivity.
  - intro Hsleep. unfold start_timer, try_except_Exception.
    rewrite bind_run, (sleep_run _ _ _ Hsleep).
    rewrite bind_run, on_driver_none by exact H. reflexivity.
Qed.

(** X18, on a freshly constructed object. *)
Lemma without_driver_every_method_returns_false_witness :
  fst (switch_tab Stub.linux None (initial __init__)) = Ret false
  /\ fst (start_work_timer Stub.linux (initial __init__)) = Ret false.
Proof.
  destruct (without_driver_every_method_returns_false
              Stub.linux None 25 (initial __init__) eq_refl)
    as (Hswitch & _ & _ & Hwork & _).
  split; [ exact Hswitch | exact Hwork ].
Defined.

(** ** Optimistic continuation of a session *)

Section Duration_failure.

Variable w : world.
Hypothesis Hnever : never_interrupted w.
Hypothesis Hswitch : forall n h, respond w n (SwitchToWindow h) = Ok.
Hypothesis Hfails :
  forall minutes s0, driver (self s0) = true -> fst (set_timer_duration w minutes s0) = Ret false.

Lemma session_with_duration_failure (k : session) (s : state) :
  driver (self s) = true ->
  in_time w (session_minutes k (self s)) ->
  exists s' before after text,
    start_session w k s = (Ret true, s')
    /\ output s' =
       (output s ++ before ++ [Log warn_duration] ++ after
          ++ [Log (session_name k ++ " session active ("
                     ++ str (session_minutes k (self s)) ++ " minutes)");
              Log ("Expected completion: " ++ text); Log "Progress: "]
          ++ progress_events (Z.to_nat (session_minutes k (self s)))
          ++ [Print " Done!"; Log (session_name k ++ " session completed!")])%list
    /\ In (Did (ExecuteScript ClickStartScript)) after
    /\ markers (before ++ after) = 0%nat
    /\ minute_sleeps (before ++ after) = 0%nat.
Proof.
  intros Hd Htime.
  destruct (session_result w k s) as (_ & Htrue).
  rewrite (switch_tab_run w Hnever Hswitch) in Htrue by exact Hd.
  destruct (Htrue eq_refl) as (_ & Hret). specialize (Hret Hnever Htime).
  destruct (start_session w k s) as [r s'] eqn:E. cbn [fst] in Hret. subst r.
  pose proof E as Hrun.
  rewrite start_session_run, (switch_tab_run w Hnever Hswitch) in Hrun by exact Hd.
  set (s1 := tick (Sleep 1500)
               (tick (SwitchToWindow (session_tab k (self s)))
                  (record (Log (session_banner k)) s))) in Hrun.
  assert (Hs1 : self s1 = self s) by reflexivity.
  assert (Ho1 : output s1 = (output s ++ [Log (session_banner k);
                                          Did (SwitchToWindow (session_tab k (self s)));
                                          Did (Sleep 1500)])%list).
  { unfold output, s1. cbn [trace tick record rev]. rewrite <- !app_assoc. reflexivity. }
  clearbody s1.
  destruct (run_timer_parts w k s1 s' Hrun)
    as (before & set & after & text & Ho & Hqb & Hqa & (s0 & s2 & Hs0 & Hset) & Hstart).
  assert (set = false) as ->.
  { specialize (Hfails (session_minutes k (self s1)) s0).
    rewrite Hset in Hfails. cbn [fst] in Hfails.
    assert (Hfalse : Ret set = Ret false) by (apply Hfails; congruence).
    injection Hfalse as ->. reflexivity. }
  cbn [negb] in Ho. rewrite Hs1 in Ho.
  exists s', ([Log (session_banner k);
               Did (SwitchToWindow (session_tab k (self s)));
               Did (Sleep 1500)] ++ before)%list, after, text.
  split; [ reflexivity | ]. split; [ | split ].
  - rewrite Ho, Ho1, <- !app_assoc. reflexivity.
  - apply Hstart. congruence.
  - assert (Hq : forallb quiet (([Log (session_banner k);
                                  Did (SwitchToWindow (session_tab k (self s)));
                                  Did (Sleep 1500)] ++ before) ++ after) = true).
    { rewrite !forallb_app, Hqb, Hqa. destruct k; reflexivity. }
    destruct (quiet_counts _ Hq) as (Hm & Hsl & _). split; assumption.
Qed.

End Duration_failure.

(** [set_timer_duration] returns [False] when the script raises and the
    first attribute of the first input field cannot be read. *)
Lemma set_timer_duration_unreadable
      (w : world) (minutes : Z) (s : state) (inp : input_elem) (rest : list input_elem) :
  driver (self s) = true ->
  respond w (clock s) (Sleep 2000) <> Interrupt ->
  respond w (S (clock s)) (ExecuteScript (SetTimerScript minutes)) = Error ->
  respond w (S (S (clock s))) FindInputs = Ok ->
  found_inputs w (S (S (clock s))) = inp :: rest ->
  respond w (S (S (S (clock s)))) (GetAttribute inp "id") <> Ok ->
  fst (set_timer_duration w minutes s) = Ret false.
Proof.
  intros Hd Hsleep Hscript Hfind Hinputs Hattr.
  unfold set_timer_duration, try_except_Exception.
  rewrite bind_run, (sleep_run _ _ _ Hsleep).
  rewrite bind_run, on_driver_run by exact Hd.
  cbn [clock tick]. rewrite Hscript. rewrite bind_log.
  unfold try_except.
  rewrite bind_run, on_driver_run by exact Hd.
  cbn [clock tick record]. rewrite Hfind, Hinputs.
  rewrite bind_run. cbn [for_each]. rewrite bind_run.
  unfold fill_input at 1. rewrite bind_run. unfold perform at 1.
  cbn [clock tick record].
  destruct (respond w (S (S (S (clock s)))) (GetAttribute inp "id"));
    [ congruence | reflexivity | reflexivity ].
Qed.

(** C6.  When every attempt to set the duration raises, the script and the
    fallback on the input fields alike, so that [set_timer_duration] returns
    [False], a session whose tab can be switched to still runs to its end
    (with nobody at the keyboard and a completion time that can be
    computed): it logs the warning, goes on to [start_timer], which issues
    its script, prints one marker and sleeps one minute for each configured
    minute, and returns [True]. *)
Theorem session_continues_when_duration_cannot_be_set (w : world) (s : state) :
  never_interrupted w ->
  driver (self s) = true ->
  (forall n h, respond w n (SwitchToWindow h) = Ok) ->
  in_time w (work_duration (self s)) ->
  in_time w (break_duration (self s)) ->
  (forall minutes s0,
      driver (self s0) = true -> fst (set_timer_duration w minutes s0) = Ret false) ->
  (exists s' before after text,
      start_work_timer w s = (Ret true, s')
      /\ output s' =
         (output s ++ before ++ [Log warn_duration] ++ after
            ++ [Log ("Work session active (" ++ str (work_duration (self s)) ++ " minutes)");
                Log ("Expected completion: " ++ text); Log "Progress: "]
            ++ progress_events (Z.to_nat (work_duration (self s)))
            ++ [Print " Done!"; Log "Work session completed!"])%list
      /\ In (Did (ExecuteScript ClickStartScript)) after
      /\ markers (before ++ after) = 0%nat
      /\ minute_sleeps (before ++ after) = 0%nat)
  /\ (exists s' before after text,
         start_break_timer w s = (Ret true, s')
         /\ output s' =
            (output s ++ before ++ [Log warn_duration] ++ after
               ++ [Log ("Break session active (" ++ str (break_duration (self s))
                          ++ " minutes)");
                   Log ("Expected completion: " ++ text); Log "Progress: "]
               ++ progress_events (Z.to_nat (break_duration (self s)))
               ++ [Print " Done!"; Log "Break session completed!"])%list
         /\ In (Did (ExecuteScript ClickStartScript)) after
         /\ markers (before ++ after) = 0%nat
         /\ minute_sleeps (before ++ after) = 0%nat).
Proof.
  intros Hnever Hd Hswitch Hwork Hbreak Hfails. split.
  - exact (session_with_duration_failure w Hnever Hswitch Hfails WorkSession s Hd Hwork).
  - exact (session_with_duration_failure w Hnever Hswitch Hfails BreakSession s Hd Hbreak).
Qed.

(** C6, on a page whose duration script raises and whose input fields
    cannot be read, so that the fallback raises at [get_attribute]: a work
    session of two minutes. *)
Lemma session_continues_when_duration_cannot_be_set_witness :
  exists s' before after text,
    start_work_timer Stub_more.unreadable_fields (initial (Stub.ready 2 1)) = (Ret true, s')
    /\ output s' =
       (before ++ [Log warn_duration] ++ after
          ++ [Log "Work session active (2 minutes)";
              Log ("Expected completion: " ++ text); Log "Progress: "]
          ++ [Print "."; Did (Sleep 60000); Print "."; Did (Sleep 60000)]
          ++ [Print " Done!"; Log "Work session completed!"])%list
    /\ In (Did (ExecuteScript ClickStartScript)) after
    /\ markers (before ++ after) = 0%nat
    /\ minute_sleeps (before ++ after) = 0%nat.
Proof.
  apply (proj1 (session_continues_when_duration_cannot_be_set
                  Stub_more.unreadable_fields (initial (Stub.ready 2 1))
                  (fun n c => ltac:(destruct c as [| | | | | | [] | | | | | | | | | |]; discriminate))
                  eq_refl (fun _ _ => eq_refl)
                  (fun n => ltac:(vm_compute; discriminate))
                  (fun n => ltac:(vm_compute; discriminate))
                  (fun minutes s0 Hd =>
                     set_timer_duration_unreadable
                       Stub_more.unreadable_fields minutes s0
                       (Stub_more.field "minutes" "minutes") [] Hd
                       ltac:(discriminate) eq_refl eq_refl eq_refl ltac:(discriminate)))).
Defined.

(** ** Ctrl-C during a minute of a session *)

Section Steady.

Variable w : world.

Lemma steady_ret {A} (a : A) : steady w (ret a).
Proof.
  intro s. split; [ reflexivity | ]. split; [ reflexivity | ].
  exists []. split; [ reflexivity | discriminate ].
Qed.

Lemma steady_raise {A} (e : exn) : e <> KeyboardInterrupt -> steady w (@raise A e).
Proof.
  intros He s. split; [ reflexivity | ]. split; [ reflexivity | ].
  exists []. split; [ reflexivity | ].
  cbn [raise fst]. intro H. injection H as ->. destruct (He eq_refl).
Qed.

Lemma steady_get_self : steady w get_self.
Proof.
  intro s. split; [ reflexivity | ]. split; [ reflexivity | ].
  exists []. split; [ reflexivity | discriminate ].
Qed.

Lemma steady_emit (e : event) : steady w (emit e).
Proof.
  intro s. split; [ reflexivity | ]. split; [ reflexivity | ].
  exists [e]. split; [ reflexivity | discriminate ].
Qed.

Lemma steady_get_completion_time (minutes : Z) : steady w (get_completion_time w minutes).
Proof.
  intro s. unfold get_completion_time.
  destruct (completion_time (now w (clock s)) minutes); cbn [fst snd];
    (split; [ reflexivity | ]); (split; [ reflexivity | ]);
    exists []; (split; [ reflexivity | discriminate ]).
Qed.

Lemma steady_sleep (ms : Z) : steady w (sleep w ms).
Proof.
  intro s. unfold sleep.
  destruct (respond w (clock s) (Sleep ms)) eqn:E; cbn [fst snd tick clock trace self];
    (split; [ reflexivity | ]); (split; [ lia | ]);
    exists [Did (Sleep ms)]; (split; [ reflexivity | ]);
    try discriminate.
  intros _. exists (Sleep ms), []. split; [ reflexivity | exact E ].
Qed.

Lemma steady_perform (c : call) : steady w (perform w c).
Proof.
  intro s. unfold perform.
  destruct (respond w (clock s) c) eqn:E; cbn [fst snd tick clock trace self];
    (split; [ reflexivity | ]); (split; [ lia | ]);
    exists [Did c]; (split; [ reflexivity | ]);
    try discriminate.
  intros _. exists c, []. split; [ reflexivity | exact E ].
Qed.

Lemma steady_bind {A B} (m : M A) (f : A -> M B) :
  steady w m -> (forall a, steady w (f a)) -> steady w (bind m f).
Proof.
  intros Hm Hf s. unfold bind.
  destruct (Hm s) as (Hs & Hc & evs & Ht & Hk).
  destruct (m s) as [[a | e] s1]; cbn [fst snd] in *.
  - destruct (Hf a s1) as (Hs2 & Hc2 & evs2 & Ht2 & Hk2).
    split; [ congruence | ]. split; [ lia | ]. exists (evs2 ++ evs)%list.
    split; [ rewrite Ht2, Ht, app_assoc; reflexivity | ].
    intro HK. destruct (Hk2 HK) as (c & evs' & -> & Hr).
    exists c, (evs' ++ evs)%list. split; [ reflexivity | exact Hr ].
  - split; [ exact Hs | ]. split; [ exact Hc | ]. exists evs. split; [ exact Ht | ].
    intro HK. injection HK as ->. apply Hk. reflexivity.
Qed.

Lemma steady_on_driver (c : call) : steady w (on_driver w c).
Proof.
  unfold on_driver. apply steady_bind; [ apply steady_get_self | ].
  intro p. destruct (driver p); [ apply steady_perform | apply steady_raise; discriminate ].
Qed.

Lemma steady_for_each {A} (l : list A) (body : A -> M unit) :
  (forall x, steady w (body x)) -> steady w (for_each l body).
Proof.
  intro H. induction l as [| x l IH]; cbn [for_each].
  - apply steady_ret.
  - apply steady_bind; [ apply H | intros _; exact IH ].
Qed.

Lemma steady_try_except_Exception {A} (body handler : M A) :
  steady w body -> steady w handler -> steady w (try_except_Exception body handler).
Proof.
  intros Hb Hh s. unfold try_except_Exception.
  destruct (Hb s) as (Hs & Hc & evs & Ht & Hk).
  destruct (body s) as [[a | [| | code]] s1]; cbn [fst snd] in *.
  - split; [ exact Hs | ]. split; [ exact Hc | ].
    exists evs. split; [ exact Ht | discriminate ].
  - destruct (Hh s1) as (Hs2 & Hc2 & evs2 & Ht2 & Hk2).
    split; [ congruence | ]. split; [ lia | ]. exists (evs2 ++ evs)%list.
    split; [ rewrite Ht2, Ht, app_assoc; reflexivity | ].
    intro HK. destruct (Hk2 HK) as (c & evs' & -> & Hr).
    exists c, (evs' ++ evs)%list. split; [ reflexivity | exact Hr ].
  - split; [ exact Hs | ]. split; [ exact Hc | ].
    exists evs. split; [ exact Ht | exact Hk ].
  - split; [ exact Hs | ]. split; [ exact Hc | ].
    exists evs. split; [ exact Ht | discriminate ].
Qed.

Lemma steady_try_except {A} (body handler : M A) :
  steady w body -> steady w handler -> steady w (try_except body handler).
Proof.
  intros Hb Hh s. unfold try_except.
  destruct (Hb s) as (Hs & Hc & evs & Ht & Hk).
  destruct (body s) as [[a | e] s1]; cbn [fst snd] in *.
  - split; [ exact Hs | ]. split; [ exact Hc | ].
    exists evs. split; [ exact Ht | discriminate ].
  - destruct (Hh s1) as (Hs2 & Hc2 & evs2 & Ht2 & Hk2).
    split; [ congruence | ]. split; [ lia | ]. exists (evs2 ++ evs)%list.
    split; [ rewrite Ht2, Ht, app_assoc; reflexivity | ].
    intro HK. destruct (Hk2 HK) as (c & evs' & -> & Hr).
    exists c, (evs' ++ evs)%list. split; [ reflexivity | exact Hr ].
Qed.

End Steady.

Ltac steady_step w :=
  lazymatch goal with
  | |- steady _ (bind _ _) => apply steady_bind; [ | intro ]
  | |- steady _ (ret _) => apply steady_ret
  | |- steady _ get_self => apply steady_get_self
  | |- steady _ (log _) => apply steady_emit
  | |- steady _ (print _) => apply steady_emit
  | |- steady _ (when ?b _) => destruct b; unfold when
  | |- steady _ (if ?b then _ else _) => destruct b
  | |- steady _ (for_each _ _) => apply steady_for_each; intro
  | |- steady _ (sleep _ _) => apply steady_sleep
  | |- steady _ (perform _ _) => apply steady_perform
  | |- steady _ (on_driver _ _) => apply steady_on_driver
  | |- steady _ (get_completion_time _ _) => apply steady_get_completion_time
  | |- steady _ (try_except_Exception _ _) => apply steady_try_except_Exception
  | |- steady _ (try_except _ _) => apply steady_try_except
  end.

Section Steady_functions.

Variable w : world.

Lemma switch_tab_steady (h : option handle) : steady w (switch_tab w h).
Proof. unfold switch_tab. repeat steady_step w. Qed.

Lemma stop_timer_steady : steady w (stop_timer w).
Proof. unfold stop_timer. repeat steady_step w. Qed.

Lemma set_timer_duration_steady (minutes : Z) : steady w (set_timer_duration w minutes).
Proof. unfold set_timer_duration, fill_input. repeat steady_step w. Qed.

Lemma try_selectors_steady (sels : list string) : steady w (try_selectors w sels).
Proof.
  induction sels as [| sel rest IH]; cbn [try_selectors].
  - apply steady_ret.
  - repeat steady_step w. exact IH.
Qed.

Lemma start_timer_steady : steady w (start_timer w).
Proof. unfold start_timer. repeat steady_step w. apply try_selectors_steady. Qed.

Lemma run_timer_steady (k : session) : steady w (run_timer w k).
Proof.
  unfold run_timer, finish_timer. repeat steady_step w.
  all: first [ apply stop_timer_steady | apply set_timer_duration_steady
             | apply start_timer_steady ].
Qed.

Lemma start_session_steady (k : session) : steady w (start_session w k).
Proof.
  rewrite start_session_eq. repeat steady_step w.
  - apply switch_tab_steady.
  - apply run_timer_steady.
Qed.

End Steady_functions.

Lemma bind_assoc {A B C} (m : M A) (f : A -> M B) (g : B -> M C) (s : state) :
  bind (bind m f) g s = bind m (fun a => bind (f a) g) s.
Proof. unfold bind. destruct (m s) as [[a | e] s1]; reflexivity. Qed.

Lemma warned_clock (b : bool) (t : string) (s : state) : clock (warned b t s) = clock s.
Proof. destruct b; reflexivity. Qed.

(** One statement of a sequence that went on to return: it returned too,
    with the same object and a clock that did not go back. *)
Ltac steady_run H L :=
  rewrite bind_run in H;
  lazymatch type of H with
  | context [match ?m ?s with _ => _ end] =>
      let Hs := fresh "Hs" in
      let Hc := fresh "Hc" in
      destruct (L s) as (Hs & Hc & _);
      destruct (m s) as [[? | ?] ?]; [ | discriminate H ];
      cbn [snd] in Hs, Hc
  end.

Section First_minute.

Variable w : world.

(** A session of at least one minute that returned [True] has slept
    through its first minute without Ctrl-C. *)
Lemma run_timer_first_minute (k : session) (s s' : state) :
  run_timer w k s = (Ret true, s') ->
  1 <= session_minutes k (self s) ->
  exists n,
    (clock s <= n)%nat
    /\ respond w n (Sleep 60000) <> Interrupt
    /\ (n < clock s')%nat.
Proof.
  intros H Hmin. unfold run_timer, finish_timer in H.
  steady_run H (steady_sleep w 2000).
  steady_run H (stop_timer_steady w).
  steady_run H (steady_sleep w 2000).
  plain_steps H.
  match type of H with
  | context [set_timer_duration w ?m] => steady_run H (set_timer_duration_steady w m)
  end.
  plain_steps H.
  steady_run H (steady_sleep w 1000).
  steady_run H (start_timer_steady w).
  plain_steps H.
  rewrite bind_get_completion_time in H.
  match type of H with
  | context [completion_time ?t ?m] =>
      destruct (completion_time t m); [ | discriminate H ]
  end.
  plain_steps H.
  rewrite ?record_self, ?warned_self in *.
  match type of H with
  | context [range (session_minutes k (self ?x))] =>
      replace (self x) with (self s) in H by congruence
  end.
  destruct (range (session_minutes k (self s))) as [| z rest] eqn:Erange.
  { apply (f_equal (@List.length Z)) in Erange. rewrite length_range in Erange.
    cbn [List.length] in Erange. lia. }
  cbn [for_each] in H. rewrite bind_assoc, bind_run in H.
  match type of H with
  | context [(print "." ;; sleep w 60000) ?x] =>
      change ((print "." ;; sleep w 60000) x) with (minute w x) in H;
      rewrite minute_run in H;
      exists (clock x)
  end.
  match type of H with
  | context [respond w ?n (Sleep 60000)] =>
      destruct (respond w n (Sleep 60000)) eqn:Eminute; [ | | discriminate H ]
  end.
  all: split; [ | split; [ congruence | ] ].
  all: cbn [clock record] in *; rewrite ?warned_clock in *; cbn [clock record] in *.
  all: try lia.
  all: match type of H with
       | ?m ?x = _ =>
           assert (Hrest : steady w m)
             by (repeat steady_step w);
           destruct (Hrest x) as (_ & Hcrest & _);
           rewrite H in Hcrest; cbn [snd clock] in Hcrest; lia
       end.
Qed.

End First_minute.

Lemma cleanups_rev (evs : list event) : cleanups (rev evs) = cleanups evs.
Proof. unfold cleanups. rewrite filter_rev, length_rev. reflexivity. Qed.

Lemma quits_rev (evs : list event) : quits (rev evs) = quits evs.
Proof. unfold quits. rewrite filter_rev, length_rev. reflexivity. Qed.

(** [cleanup] on an object with a driver. *)
Lemma cleanup_with_driver (w : world) (s : state) :
  driver (self s) = true ->
  cleanup w s =
  (Ret tt,
   match respond w (clock s) Quit with
   | Ok => record (Log "Brave browser closed. Goodbye!")
             (tick Quit (record (Log "Cleaning up...") s))
   | _ => tick Quit (record (Log "Cleaning up...") s)
   end).
Proof.
  intro Hd. unfold cleanup, try_except.
  rewrite bind_log, bind_get_self. cbn [self record]. rewrite Hd. unfold when.
  rewrite bind_run, bind_run. unfold perform. cbn [clock record].
  destruct (respond w (clock s) Quit); reflexivity.
Qed.

Section Interrupted_minute.

Variable w : world.
Variable N : nat.
Hypothesis Hswitch : forall n h, respond w n (SwitchToWindow h) = Ok.
Hypothesis Honly :
  forall n c, respond w n c = Interrupt <-> (c = Sleep 60000 /\ (N <= n)%nat).

Lemma switch_tab_obeys (h : option handle) (s : state) :
  driver (self s) = true ->
  switch_tab w h s = (Ret true, tick (Sleep 1500) (tick (SwitchToWindow h) s)).
Proof.
  intro Hd. unfold switch_tab, try_except_Exception.
  rewrite bind_run, on_driver_run, Hswitch by exact Hd.
  rewrite bind_run, sleep_run; [ reflexivity | ].
  intro E. apply Honly in E. destruct E as [E _]. discriminate E.
Qed.

(** A session, when Ctrl-C can only arrive during a minute's sleep from
    the moment [N] on. *)
Lemma session_outcome (k : session) (s : state) :
  driver (self s) = true ->
  in_time w (session_minutes k (self s)) ->
  match start_session w k s with
  | (Ret b, s') =>
      b = true
      /\ (clock s <= clock s')%nat
      /\ (1 <= session_minutes k (self s) -> (clock s < N)%nat /\ (clock s < clock s')%nat)
  | (Raise e, s') =>
      e = KeyboardInterrupt /\ hd_error (trace s') = Some (Did (Sleep 60000))
  end.
Proof.
  intros Hd Htime.
  destruct (start_session_steady w k s) as (_ & Hclock & evs & Ht & Hki).
  destruct (start_session w k s) as [[b | e] s'] eqn:E; cbn [fst snd] in *.
  - pose proof E as Hrun.
    rewrite start_session_run, switch_tab_obeys in Hrun by exact Hd.
    destruct b.
    + split; [ reflexivity | ]. split; [ exact Hclock | ].
      intro Hmin.
      destruct (run_timer_first_minute w k _ _ Hrun Hmin) as (n & Hn & Hminute & Hn').
      cbn [clock tick record] in Hn.
      assert (HN : (n < N)%nat).
      { destruct (Nat.lt_ge_cases n N) as [Hlt | Hge]; [ exact Hlt | ].
        destruct Hminute. apply Honly. split; [ reflexivity | exact Hge ]. }
      lia.
    + exfalso.
      destruct (session_result w k s) as (Hfalse & _).
      rewrite E, switch_tab_obeys in Hfalse by exact Hd.
      destruct Hfalse as [Hfalse _]. specialize (Hfalse eq_refl). discriminate Hfalse.
  - destruct (start_session_raises w _ (interrupts_in_any w) k s e s' E)
      as [[<- | []] | [_ (n & Hn)]]; [ | destruct (Htime n Hn) ].
    split; [ reflexivity | ].
    destruct (Hki eq_refl) as (c & evs' & -> & Hc).
    apply Honly in Hc. destruct Hc as [-> _].
    rewrite Ht. reflexivity.
Qed.

Lemma cycle_outcome (n : Z) (s : state) :
  driver (self s) = true ->
  in_time w (work_duration (self s)) ->
  in_time w (break_duration (self s)) ->
  1 <= work_duration (self s) ->
  match cycle w n s with
  | (Ret _, s') => (clock s < N)%nat /\ (clock s < clock s')%nat
  | (Raise e, s') =>
      e = KeyboardInterrupt /\ hd_error (trace s') = Some (Did (Sleep 60000))
  end.
Proof.
  intros Hd Hwork Hbreak Hmin. unfold cycle.
  rewrite bind_run, cycle_header_run.
  set (sh := record (Print (repeat_str "=" 60))
               (record (Log ("POMODORO CYCLE #" ++ str n))
                  (record (Print (repeat_str "=" 60)) s))).
  assert (Hsh : self sh = self s) by reflexivity.
  assert (Hch : clock sh = clock s) by reflexivity.
  clearbody sh.
  pose proof (session_outcome WorkSession sh) as Hw.
  destruct (start_session_steady w WorkSession sh) as (Hsw & _).
  change (start_session w WorkSession) with (start_work_timer w) in *.
  rewrite bind_run.
  destruct (start_work_timer w sh) as [[b | e] sw]; cbn [fst snd session_minutes] in *.
  - destruct Hw as (-> & _ & Hw); [ congruence | rewrite Hsh; exact Hwork | ].
    destruct Hw as [HN Hcw]; [ rewrite Hsh; exact Hmin | ].
    cbn [negb]. rewrite bind_run.
    pose proof (session_outcome BreakSession sw) as Hb.
    change (start_session w BreakSession) with (start_break_timer w) in *.
    destruct (start_break_timer w sw) as [[b | e] sb]; cbn [fst snd session_minutes] in *.
    + destruct Hb as (-> & Hcb & _); [ congruence | rewrite Hsw, Hsh; exact Hbreak | ].
      cbn [negb log emit snd clock]. lia.
    + apply Hb; [ congruence | rewrite Hsw, Hsh; exact Hbreak ].
  - apply Hw; [ congruence | rewrite Hsh; exact Hwork ].
Qed.

(** With enough iterations allowed, the loop is left by Ctrl-C during a
    minute's sleep. *)
Lemma while_true_ends (fuel : nat) :
  forall n s,
    driver (self s) = true ->
    in_time w (work_duration (self s)) ->
    in_time w (break_duration (self s)) ->
    1 <= work_duration (self s) ->
    (N - clock s < fuel)%nat ->
    exists n' s',
      while_true w fuel n s = Some (KeyboardInterrupt, n', s')
      /\ hd_error (trace s') = Some (Did (Sleep 60000)).
Proof.
  induction fuel as [| fuel IH]; intros n s Hd Hwork Hbreak Hmin Hfuel.
  - lia.
  - cbn [while_true].
    pose proof (cycle_outcome (n + 1) s Hd Hwork Hbreak Hmin) as Hcycle.
    destruct (cycle w (n + 1) s) as [r s1] eqn:E.
    destruct (run_ok_run _ _ _ (cycle_ok w _ (interrupts_in_any w) (n + 1)) _ _ _ E)
      as (Hs1 & _ & _).
    destruct r as [[] | e].
    + destruct Hcycle as [HN Hc].
      apply IH; rewrite ?Hs1; auto. lia.
    + destruct Hcycle as [-> Hhd]. exists (n + 1), s1. auto.
Qed.

End Interrupted_minute.

(** C9.  Let Ctrl-C arrive during a minute's sleep of a session: from some
    moment [N] on every one-minute sleep is interrupted, and nothing else
    ever is.  Then, with enough iterations allowed for that moment to come,
    [main_loop] is left at that sleep, prints its two lines, enters
    [cleanup] exactly once and calls [driver.quit()] once there; and
    whether [driver.quit()] returns or raises, [main_loop] returns normally.
    No call of [cleanup] lets an exception out. *)
Theorem interrupt_in_minute_sleep_tears_down_once
        (w : world) (N fuel : nat) (s : state) :
  driver (self s) = true ->
  1 <= work_duration (self s) ->
  in_time w (work_duration (self s)) ->
  in_time w (break_duration (self s)) ->
  (forall n h, respond w n (SwitchToWindow h) = Ok) ->
  (forall n c, respond w n c = Interrupt <-> (c = Sleep 60000 /\ (N <= n)%nat)) ->
  (N - clock s < fuel)%nat ->
  (exists s' evs n,
      main_loop w fuel s = Some (Ret tt, s')
      /\ output s' =
         (output s ++ evs
            ++ [Did (Sleep 60000);
                Log "Pomodoro automation stopped by user";
                Log ("Total sessions completed: " ++ str n);
                Log "Cleaning up...";
                Did Quit]
            ++ match respond w (pred (clock s')) Quit with
               | Ok => [Log "Brave browser closed. Goodbye!"]
               | _ => []
               end)%list
      /\ cleanups evs = 0%nat
      /\ quits evs = 0%nat)
  /\ (forall s0, fst (cleanup w s0) = Ret tt).
Proof.
  intros Hd Hmin Hwork Hbreak Hswitch Honly Hfuel. split.
  - unfold main_loop. rewrite main_loop_banner_run.
    set (s0 := record (Log "Press Ctrl+C to stop")
                 (record (Log ("Work: " ++ str (work_duration (self s)) ++ " min | Break: "
                                 ++ str (break_duration (self s)) ++ " min"))
                    (record (Log ("Browser: " ++ browser_type))
                       (record (Log "Starting Pomodoro automation loop...") s)))).
    assert (Hs0 : self s0 = self s) by reflexivity.
    assert (Hc0 : clock s0 = clock s) by reflexivity.
    assert (Ht0 : trace s0
                  = ([Log "Press Ctrl+C to stop";
                      Log ("Work: " ++ str (work_duration (self s)) ++ " min | Break: "
                             ++ str (break_duration (self s)) ++ " min");
                      Log ("Browser: " ++ browser_type);
                      Log "Starting Pomodoro automation loop..."] ++ trace s)%list)
      by reflexivity.
    clearbody s0.
    destruct (while_true_ends w N Hswitch Honly fuel 0 s0) as (n & s1 & Hloop & Hhd);
      rewrite ?Hs0, ?Hc0; auto.
    rewrite Hloop.
    destruct (while_true_counts w fuel _ _ _ _ _ Hloop)
      as (Hs1 & evs1 & Ht1 & _ & Hcount & Hq1).
    destruct (while_true_run w _ (interrupts_in_any w) _ _ _ _ _ _ Hloop)
      as (_ & (evs1' & Ht1' & Hcl1) & _ & _).
    assert (evs1' = evs1) as ->.
    { rewrite Ht1 in Ht1'. apply app_inv_tail in Ht1'. congruence. }
    destruct evs1 as [| e0 evs1]; [ cbn in Hcount; lia | ].
    rewrite Ht1 in Hhd. cbn [app hd_error] in Hhd. injection Hhd as ->.
    change (Did (Sleep 60000) :: evs1)%list with ([Did (Sleep 60000)] ++ evs1)%list
      in Hcl1, Hq1.
    rewrite cleanups_app in Hcl1. rewrite quits_app in Hq1.
    change ((log "Pomodoro automation stopped by user" ;;
             log ("Total sessions completed: " ++ str n)) s1)
      with (Ret tt,
            record (Log ("Total sessions completed: " ++ str n))
              (record (Log "Pomodoro automation stopped by user") s1)).
    cbv beta iota.
    rewrite cleanup_with_driver by (cbn [self record]; congruence).
    cbn [clock record].
    assert (Hout : rev (trace s1)
                   = (output s
                        ++ ([Log "Starting Pomodoro automation loop...";
                             Log ("Browser: " ++ browser_type);
                             Log ("Work: " ++ str (work_duration (self s)) ++ " min | Break: "
                                    ++ str (break_duration (self s)) ++ " min");
                             Log "Press Ctrl+C to stop"] ++ rev evs1)
                        ++ [Did (Sleep 60000)])%list).
    { rewrite Ht1, Ht0. unfold output.
      change (Did (Sleep 60000) :: evs1)%list with ([Did (Sleep 60000)] ++ evs1)%list.
      rewrite !rev_app_distr. cbn [rev app]. rewrite <- !app_assoc. reflexivity. }
    eexists.
    exists ([Log "Starting Pomodoro automation loop...";
             Log ("Browser: " ++ browser_type);
             Log ("Work: " ++ str (work_duration (self s)) ++ " min | Break: "
                    ++ str (break_duration (self s)) ++ " min");
             Log "Press Ctrl+C to stop"] ++ rev evs1)%list.
    exists n.
    split; [ reflexivity | ].
    split; [ | split;
               [ rewrite cleanups_app, cleanups_rev; cbn in Hcl1 |- *; lia
               | rewrite quits_app, quits_rev; cbn in Hq1 |- *; lia ] ].
    destruct (respond w (clock s1) Quit) eqn:Equit;
      unfold output; cbn [trace record tick clock pred];
      rewrite ?Equit; cbn [rev]; rewrite Hout, <- !app_assoc; reflexivity.
  - intro s0. destruct (cleanup_run w s0) as (s' & -> & _). reflexivity.
Qed.

Lemma ctrl_c_from_interrupts (N n : nat) (c : call) :
  respond (Stub_more.ctrl_c_from N) n c = Interrupt <-> (c = Sleep 60000 /\ (N <= n)%nat).
Proof.
  unfold Stub_more.ctrl_c_from, Stub.with_respond. cbn [respond]. split.
  - intro E. destruct c; try discriminate E.
    destruct (ms =? 60000) eqn:Ems; destruct (Nat.leb N n) eqn:En;
      cbn [andb] in E; try discriminate E.
    apply Z.eqb_eq in Ems. apply Nat.leb_le in En. subst ms. auto.
  - intros [-> Hn]. apply Nat.leb_le in Hn. rewrite Hn. reflexivity.
Qed.

(** C9, with sessions of 2 and 1 minutes, Ctrl-C arriving during the first
    one-minute sleep from the 40th operation on, well into the second
    iteration, and a [driver.quit()] that raises. *)
Lemma interrupt_in_minute_sleep_tears_down_once_witness :
  exists s' evs n,
    main_loop (Stub_more.ctrl_c_from 40) 41 (initial (Stub.ready 2 1)) = Some (Ret tt, s')
    /\ output s' =
       (evs ++ [Did (Sleep 60000);
                Log "Pomodoro automation stopped by user";
                Log ("Total sessions completed: " ++ str n);
                Log "Cleaning up...";
                Did Quit])%list
    /\ cleanups evs = 0%nat
    /\ quits evs = 0%nat.
Proof.
  destruct (interrupt_in_minute_sleep_tears_down_once
              (Stub_more.ctrl_c_from 40) 40 41 (initial (Stub.ready 2 1)))
    as ((s' & evs & n & Hrun & Ho & Hc & Hq) & _).
  - reflexivity.
  - cbn. lia.
  - intro n. vm_compute. discriminate.
  - intro n. vm_compute. discriminate.
  - intros n h. reflexivity.
  - apply ctrl_c_from_interrupts.
  - cbn. lia.
  - exists s', evs, n. split; [ exact Hrun | ]. split; [ | split; assumption ].
    rewrite Ho. cbn [output initial trace rev app Stub_more.ctrl_c_from Stub.with_respond respond].
    reflexivity.
Defined.
